(** * RestrauntPOS: order lifecycle, billing, inventory and digital-menu sync

    A shallow embedding of the server side of the restaurant POS
    (server/mongo-storage.ts, server/routes.ts, server/digital-menu-sync.ts)
    together with the properties of the order lifecycle that the
    specification states.

    Layout: JavaScript numbers, the document store, the storage gateway
    ([MongoStorage]), the HTTP handlers, the synchronizer
    ([DigitalMenuSyncService]), and then the theorems. *)

From stdpp Require Import base gmap strings.
From Stdlib Require Import ZArith List String Ascii Bool Lia.
From Stdlib Require SpecFloat.
Import ListNotations.
Open Scope string_scope.

(** ** JavaScript numbers

    A JavaScript number is an IEEE 754 binary64 value.  The arithmetic is
    that of [SpecFloat] at precision 53 and maximal exponent 1024 (round to
    nearest, ties to even; signed zeros, infinities and one [NaN]).  A decimal
    literal and [parseFloat] denote the number nearest to the decimal they
    read; [toString] prints the shortest decimal that denotes the number, in
    the notation of [Number::toString]; [toFixed] rounds the exact binary
    value. *)

Module Num.

(** binary64: 53 bits of precision, exponents below 1024. *)
Definition prec : Z := 53.
Definition emax : Z := 1024.

Definition num : Type := SpecFloat.spec_float.

Definition NaN : num := SpecFloat.S754_nan.
Definition Infinity (negative : bool) : num := SpecFloat.S754_infinity negative.

(** [x + y], [x - y], [x * y], [-x] and [Math.abs(x)] *)
Definition add : num -> num -> num := SpecFloat.SFadd prec emax.
Definition sub : num -> num -> num := SpecFloat.SFsub prec emax.
Definition mul : num -> num -> num := SpecFloat.SFmul prec emax.
Definition neg : num -> num := SpecFloat.SFopp.
Definition abs : num -> num := SpecFloat.SFabs.

(** [x < y], [x <= y], [x > y]; every comparison with [NaN] is false. *)
Definition ltb : num -> num -> bool := SpecFloat.SFltb.
Definition leb : num -> num -> bool := SpecFloat.SFleb.
Definition gtb (x y : num) : bool := ltb y x.

(** Truthiness of a number: the zeros and [NaN] are falsy. *)
Definition truthy (x : num) : bool :=
  match x with
  | SpecFloat.S754_nan | SpecFloat.S754_zero _ => false
  | _ => true
  end.

(** [x || d] on numbers. *)
Definition or_else (x d : num) : num := if truthy x then x else d.

(** Two numbers have the same value ([NaN] only with [NaN]; the two zeros
    are the same). *)
Definition same (x y : num) : Prop :=
  match x, y with
  | SpecFloat.S754_nan, SpecFloat.S754_nan => True
  | _, _ => SpecFloat.SFeqb x y = true
  end.

Definition pow10 (k : nat) : Z := 10 ^ Z.of_nat k.

(** The number that the decimal [m * 10^e], under the sign [negative],
    denotes: the nearest binary64 value, ties to even.  An integer is rounded
    as it is; a fraction [m / 10^(-e)] is divided as [SFdiv] divides, the
    quotient coming with the position of the remainder. *)
Definition of_decimal (negative : bool) (m e : Z) : num :=
  let round sign (p : positive) :=
    if (0 <=? e)%Z then
      SpecFloat.binary_round prec emax sign (p * Z.to_pos (10 ^ e)) 0
    else
      let '(q, e2, l) :=
        SpecFloat.SFdiv_core_binary prec emax (Zpos p) 0 (10 ^ (- e)) 0 in
      SpecFloat.binary_round_aux prec emax sign q e2 l in
  match m with
  | Z0 => SpecFloat.S754_zero negative
  | Zpos p => round negative p
  | Zneg p => round (negb negative) p
  end.

(** The literal [m / 10^k], as in [0.05] or [0.01], and an integer literal. *)
Definition Fin (m : Z) (k : nat) : num := of_decimal false m (- Z.of_nat k).
Definition of_Z (z : Z) : num := Fin z 0.
Definition zero : num := of_Z 0.

(** *** Decimal strings *)

Definition digit_char (d : Z) : ascii := ascii_of_nat (48 + Z.to_nat d).

Definition digit_val (c : ascii) : option Z :=
  let n := nat_of_ascii c in
  if (48 <=? n)%nat && (n <=? 57)%nat then Some (Z.of_nat (n - 48)) else None.

(** The decimal digits of [n >= 0], most significant first, in front of [acc]. *)
Fixpoint print_digits (fuel : nat) (n : Z) (acc : string) : string :=
  match fuel with
  | O => acc
  | S f =>
      let acc' := String (digit_char (n mod 10)) acc in
      if (n / 10 =? 0)%Z then acc' else print_digits f (n / 10) acc'
  end.

Definition print_nat (n : Z) : string :=
  print_digits (S (Z.to_nat (Z.log2 n))) n "".

(** Exactly [k] digits of [n], with leading zeros. *)
Fixpoint print_fixed (k : nat) (n : Z) (acc : string) : string :=
  match k with
  | O => acc
  | S k' => print_fixed k' (n / 10) (String (digit_char (n mod 10)) acc)
  end.

(** [k] zeros. *)
Fixpoint zeros (k : nat) : string :=
  match k with
  | O => ""
  | S k' => String "0" (zeros k')
  end.

(** The value of the finite number [m * 2^e], [m > 0], as a fraction. *)
Definition fraction (m : positive) (e : Z) : Z * Z :=
  if (0 <=? e)%Z then (Zpos m * 2 ^ e, 1)%Z else (Zpos m, 2 ^ (- e))%Z.

(** [n / d / 10^t] as a fraction. *)
Definition scale10 (nd : Z * Z) (t : Z) : Z * Z :=
  let '(n, d) := nd in
  if (0 <=? t)%Z then (n, d * 10 ^ t)%Z else (n * 10 ^ (- t), d)%Z.

(** [10^t <= n / d] *)
Definition reaches (nd : Z * Z) (t : Z) : bool :=
  let '(a, b) := scale10 nd t in (b <=? a)%Z.

(** The least [t] from [t0] on with [n / d < 10^t]. *)
Fixpoint magnitude_from (fuel : nat) (nd : Z * Z) (t0 : Z) : Z :=
  match fuel with
  | O => t0
  | S f => if reaches nd t0 then magnitude_from f nd (t0 + 1) else t0
  end.

(** The [n] with [10^(n-1) <= x < 10^n] for the positive fraction [x]: the
    search starts below [log10 x], estimated from the binary lengths. *)
Definition magnitude (nd : Z * Z) : Z :=
  let '(n, d) := nd in
  let l := (Z.log2 n - Z.log2 d)%Z in
  magnitude_from 8 nd ((l - 1) * 30102 / 100000 - 2).

(** The same number, sign of zero included. *)
Definition eqb (x y : num) : bool :=
  match x, y with
  | SpecFloat.S754_nan, SpecFloat.S754_nan => true
  | SpecFloat.S754_zero a, SpecFloat.S754_zero b
  | SpecFloat.S754_infinity a, SpecFloat.S754_infinity b => Bool.eqb a b
  | SpecFloat.S754_finite a m e, SpecFloat.S754_finite b m' e' =>
      Bool.eqb a b && (m =? m')%positive && (e =? e')%Z
  | _, _ => false
  end.

(** The decimals with [k] digits next to the positive number [x] of
    magnitude [n]: the one [ToString] takes when one of them denotes [x]. *)
Definition digits_at (x : num) (nd : Z * Z) (n : Z) (k : nat) : option Z :=
  let '(a, b) := scale10 nd (n - Z.of_nat k) in
  let lo := (a / b)%Z in
  let hi := (lo + 1)%Z in
  let denotes s := eqb (of_decimal false s (n - Z.of_nat k)) x in
  match denotes lo, denotes hi with
  | true, true =>
      match (2 * a ?= (2 * lo + 1) * b)%Z with
      | Lt => Some lo
      | Gt => Some hi
      | Eq => Some (if Z.even lo then lo else hi)
      end
  | true, false => Some lo
  | false, true => Some hi
  | false, false => None
  end.

(** The least number of digits, from [k] on, that denote [x], with the
    digits; seventeen digits denote every binary64 value. *)
Fixpoint shortest (fuel : nat) (x : num) (nd : Z * Z) (n : Z) (k : nat)
  : Z * nat :=
  match fuel with
  | O => (let '(a, b) := scale10 nd (n - Z.of_nat k) in (a / b)%Z, k)
  | S f =>
      match digits_at x nd n k with
      | Some s => (s, k)
      | None => shortest f x nd n (S k)
      end
  end.

(** [Number::toString] on the digits [s] (there are [k] of them) and the
    magnitude [n]. *)
Definition print_number (s : Z) (k : nat) (n : Z) : string :=
  let digits := print_fixed k s "" in
  if (Z.of_nat k <=? n)%Z && (n <=? 21)%Z then
    digits ++ zeros (Z.to_nat (n - Z.of_nat k))
  else if (0 <? n)%Z && (n <=? 21)%Z then
    substring 0 (Z.to_nat n) digits ++ "." ++
    substring (Z.to_nat n) (k - Z.to_nat n) digits
  else if (-6 <? n)%Z && (n <=? 0)%Z then
    "0." ++ zeros (Z.to_nat (- n)) ++ digits
  else
    let e := (n - 1)%Z in
    let exponent :=
      "e" ++ (if (e <? 0)%Z then "-" else "+") ++ print_nat (Z.abs e) in
    match k with
    | 1%nat => digits ++ exponent
    | _ => substring 0 1 digits ++ "." ++ substring 1 (k - 1) digits ++ exponent
    end.

(** [x.toString()] *)
Definition toString (x : num) : string :=
  match x with
  | SpecFloat.S754_nan => "NaN"
  | SpecFloat.S754_zero _ => "0"
  | SpecFloat.S754_infinity s => (if s then "-" else "") ++ "Infinity"
  | SpecFloat.S754_finite sign m e =>
      let nd := fraction m e in
      let n := magnitude nd in
      let '(s, k) := shortest 17 (abs x) nd n 1 in
      (if sign then "-" else "") ++
      (if (s =? 10 ^ Z.of_nat k)%Z then print_number 1 1 (n + 1)
       else print_number s k n)
  end.

(** [x.toFixed(2)]: the nearest multiple of 0.01 to the value of [x], the
    larger one of two; [ToString] from [1e21] on. *)
Definition toFixed2 (x : num) : string :=
  match x with
  | SpecFloat.S754_finite sign m e =>
      if leb (of_decimal false 1 21) (abs x) then toString x
      else
        let '(a, b) := fraction m e in
        let n := ((2 * a * 100 + b) / (2 * b))%Z in
        (if sign then "-" else "") ++
        print_nat (n / 100) ++ "." ++ print_fixed 2 (n mod 100) ""
  | SpecFloat.S754_zero _ => "0.00"
  | _ => toString x
  end.

(** The longest run of digits at the front of [s]: its value on top of
    [acc], how many digits were read, and the rest. *)
Fixpoint parse_digits (s : string) (acc : Z) (cnt : nat) : Z * nat * string :=
  match s with
  | String c r =>
      match digit_val c with
      | Some d => parse_digits r (10 * acc + d) (S cnt)
      | None => (acc, cnt, s)
      end
  | EmptyString => (acc, cnt, s)
  end.

Definition is_space (c : ascii) : bool :=
  let n := nat_of_ascii c in
  (n =? 32)%nat || ((9 <=? n)%nat && (n <=? 13)%nat).

Fixpoint skip_spaces (s : string) : string :=
  match s with
  | String c r => if is_space c then skip_spaces r else s
  | EmptyString => s
  end.

(** An optional sign: [true] for a leading minus. *)
Definition parse_sign (s : string) : bool * string :=
  match s with
  | String "-" r => (true, r)
  | String "+" r => (false, r)
  | _ => (false, s)
  end.

(** An optional exponent [e<sign><digits>]. *)
Definition parse_exponent (s : string) : Z :=
  match s with
  | String c r =>
      if (c =? "e")%char || (c =? "E")%char then
        let '(sg, r1) := parse_sign r in
        let '(e, cnt, _) := parse_digits r1 0 0 in
        match cnt with
        | O => 0
        | S _ => if sg then - e else e
        end
      else 0
  | EmptyString => 0
  end%Z.

(** [Infinity], or digits with an optional fraction and exponent, under the
    sign [sg]; [NaN] when no digit is found. *)
Definition parse_unsigned (sg : bool) (s1 : string) : num :=
  if String.prefix "Infinity" s1 then Infinity sg
  else
    let '(i, ci, s2) := parse_digits s1 0 0 in
    let '(m, cf, s3) :=
      match s2 with
      | String "." r => let '(f, cf, s3) := parse_digits r i 0 in (f, cf, s3)
      | _ => (i, O, s2)
      end in
    match (ci + cf)%nat with
    | O => NaN
    | S _ => of_decimal sg m (parse_exponent s3 - Z.of_nat cf)
    end.

(** [parseFloat(s)]: leading white space, a sign, then the number; what
    follows the number is ignored. *)
Definition parseFloat (s : string) : num :=
  let '(sg, s1) := parse_sign (skip_spaces s) in parse_unsigned sg s1.

End Num.

Import Num.

(** ** Documents

    One record per collection of the document store, with the fields the
    storage layer writes.  Identifiers and free text are strings; a [Date] is
    a reading of the clock. *)

Definition Date := nat.

Module Floor.
Record t := mk { id : string; name : string }.
End Floor.

Module Table.
Record t := mk {
  id : string;
  tableNumber : string;
  seats : nat;
  status : string;
  currentOrderId : option string;
  floorId : option string }.

Definition set_status (s : string) (x : t) : t :=
  mk (id x) (tableNumber x) (seats x) s (currentOrderId x) (floorId x).
Definition set_currentOrderId (o : option string) (x : t) : t :=
  mk (id x) (tableNumber x) (seats x) (status x) o (floorId x).
End Table.

Module MenuItem.
Record t := mk { id : string; name : string; isVeg : bool }.
End MenuItem.

Module Order.
Record t := mk {
  id : string;
  tableId : option string;
  orderType : string;
  status : string;
  total : string;
  customerName : option string;
  customerPhone : option string;
  customerAddress : option string;
  paymentMode : option string;
  waiterId : option string;
  deliveryPersonId : option string;
  expectedPickupTime : option Date;
  createdAt : Date;
  completedAt : option Date;
  billedAt : option Date;
  paidAt : option Date }.

Definition set_status (s : string) (x : t) : t :=
  mk (id x) (tableId x) (orderType x) s (total x) (customerName x)
     (customerPhone x) (customerAddress x) (paymentMode x) (waiterId x)
     (deliveryPersonId x) (expectedPickupTime x) (createdAt x)
     (completedAt x) (billedAt x) (paidAt x).
Definition set_total (s : string) (x : t) : t :=
  mk (id x) (tableId x) (orderType x) (status x) s (customerName x)
     (customerPhone x) (customerAddress x) (paymentMode x) (waiterId x)
     (deliveryPersonId x) (expectedPickupTime x) (createdAt x)
     (completedAt x) (billedAt x) (paidAt x).
Definition set_completed (now : Date) (x : t) : t :=
  mk (id x) (tableId x) (orderType x) "completed" (total x) (customerName x)
     (customerPhone x) (customerAddress x) (paymentMode x) (waiterId x)
     (deliveryPersonId x) (expectedPickupTime x) (createdAt x)
     (Some now) (billedAt x) (paidAt x).
Definition set_billed (now : Date) (x : t) : t :=
  mk (id x) (tableId x) (orderType x) "billed" (total x) (customerName x)
     (customerPhone x) (customerAddress x) (paymentMode x) (waiterId x)
     (deliveryPersonId x) (expectedPickupTime x) (createdAt x)
     (completedAt x) (Some now) (paidAt x).
Definition set_paid (mode : option string) (now : Date) (x : t) : t :=
  mk (id x) (tableId x) (orderType x) "paid" (total x) (customerName x)
     (customerPhone x) (customerAddress x) mode (waiterId x)
     (deliveryPersonId x) (expectedPickupTime x) (createdAt x)
     (Some now) (billedAt x) (Some now).
End Order.

Module OrderItem.
Record t := mk {
  id : string;
  orderId : string;
  menuItemId : string;
  name : string;
  quantity : num;
  price : string;
  notes : option string;
  status : string;
  isVeg : bool }.

Definition set_status (s : string) (x : t) : t :=
  mk (id x) (orderId x) (menuItemId x) (name x) (quantity x) (price x)
     (notes x) s (isVeg x).
End OrderItem.

Module InventoryItem.
Record t := mk {
  id : string;
  name : string;
  category : string;
  currentStock : string;
  unit : string;
  minStock : string;
  supplierId : option string;
  costPerUnit : string;
  lastUpdated : Date }.

Definition set_stock (q : string) (now : Date) (x : t) : t :=
  mk (id x) (name x) (category x) q (unit x) (minStock x) (supplierId x)
     (costPerUnit x) now.
End InventoryItem.

Module Recipe.
Record t := mk { id : string; menuItemId : string; createdAt : Date }.
End Recipe.

Module RecipeIngredient.
Record t := mk {
  id : string;
  recipeId : string;
  inventoryItemId : string;
  quantity : string;
  unit : string }.
End RecipeIngredient.

Module Wastage.
Record t := mk {
  id : string;
  inventoryItemId : string;
  quantity : string;
  unit : string;
  reason : string;
  reportedBy : option string;
  notes : option string;
  createdAt : Date }.
End Wastage.

(** One payer of a split bill (the elements of [checkoutSchema.splitPayments]). *)
Module Split.
Record t := mk { person : num; amount : num; paymentMode : string }.
End Split.

(** One line of an invoice's item snapshot. *)
Module InvoiceLine.
Record t := mk {
  name : string;
  quantity : num;
  price : num;
  isVeg : bool;
  notes : option string }.
End InvoiceLine.

(** [JSON.stringify] is injective on the values it is applied to here, so a
    serialized value is kept as the value it encodes. *)
Inductive Json (A : Type) : Type := Stringified (a : A).
Arguments Stringified {A} a.

Module Invoice.
Record t := mk {
  id : string;
  invoiceNumber : string;
  orderId : string;
  tableNumber : option string;
  floorName : option string;
  customerName : option string;
  customerPhone : option string;
  subtotal : string;
  tax : string;
  discount : string;
  total : string;
  paymentMode : string;
  splitPayments : option (Json (list Split.t));
  status : string;
  items : Json (list InvoiceLine.t);
  notes : option string;
  createdAt : Date;
  updatedAt : Date }.
End Invoice.

(** The [customers] collection of the digital menu; only the field the POS
    writes back. *)
Module Customer.
Record t := mk { phoneNumber : string; tableStatus : option string }.

Definition set_tableStatus (s : string) (x : t) : t :=
  mk (phoneNumber x) (Some s).
End Customer.

(** A line of an external order's cart. *)
Module DigitalItem.
Record t := mk {
  menuItemName : option string;
  quantity : num;
  price : num;
  notes : option string;
  spiceLevel : option string }.
End DigitalItem.

(** An order embedded in a document of [digital_menu_customer_orders].  The
    collection belongs to the external system: a field it may leave out is an
    [option]. *)
Module DigitalOrder.
Record t := mk {
  _id : option string;
  orderDate : string;
  status : option string;
  paymentStatus : option string;
  paymentMethod : option string;
  tableNumber : option string;
  floorNumber : option string;
  items : list DigitalItem.t;
  total : num;
  tax : num;
  syncedToPOS : bool;
  syncedAt : option Date;
  posOrderId : option string }.

Definition set_synced (now : Date) (pos : string) (x : t) : t :=
  mk (_id x) (orderDate x) (status x) (paymentStatus x) (paymentMethod x)
     (tableNumber x) (floorNumber x) (items x) (total x) (tax x)
     true (Some now) (Some pos).
End DigitalOrder.

Module CustomerDoc.
Record t := mk {
  _id : string;
  customerId : option string;
  customerName : option string;
  customerPhone : option string;
  orders : list DigitalOrder.t }.

Definition set_orders (l : list DigitalOrder.t) (x : t) : t :=
  mk (_id x) (customerId x) (customerName x) (customerPhone x) l.
End CustomerDoc.

(** ** The world the server runs in

    The collections of the document store, the in-memory caches of the
    synchronizer, the supply of [randomUUID()], the clock read by
    [new Date()], and the synchronizer's log lines that name an order.
    Broadcasts go to a sink that nothing reads back and are left out. *)

Record DB := mkDB {
  tables : list Table.t;
  floors : list Floor.t;
  menuItems : list MenuItem.t;
  orders : list Order.t;
  orderItems : list OrderItem.t;
  inventoryItems : list InventoryItem.t;
  recipes : list Recipe.t;
  recipeIngredients : list RecipeIngredient.t;
  wastages : list Wastage.t;
  invoices : list Invoice.t;
  customers : list Customer.t;
  digital_menu_customer_orders : list CustomerDoc.t }.

Definition with_tables (f : list Table.t -> list Table.t) (d : DB) : DB :=
  mkDB (f (tables d)) (floors d) (menuItems d) (orders d) (orderItems d)
       (inventoryItems d) (recipes d) (recipeIngredients d) (wastages d)
       (invoices d) (customers d) (digital_menu_customer_orders d).
Definition with_orders (f : list Order.t -> list Order.t) (d : DB) : DB :=
  mkDB (tables d) (floors d) (menuItems d) (f (orders d)) (orderItems d)
       (inventoryItems d) (recipes d) (recipeIngredients d) (wastages d)
       (invoices d) (customers d) (digital_menu_customer_orders d).
Definition with_orderItems (f : list OrderItem.t -> list OrderItem.t) (d : DB) : DB :=
  mkDB (tables d) (floors d) (menuItems d) (orders d) (f (orderItems d))
       (inventoryItems d) (recipes d) (recipeIngredients d) (wastages d)
       (invoices d) (customers d) (digital_menu_customer_orders d).
Definition with_inventoryItems
  (f : list InventoryItem.t -> list InventoryItem.t) (d : DB) : DB :=
  mkDB (tables d) (floors d) (menuItems d) (orders d) (orderItems d)
       (f (inventoryItems d)) (recipes d) (recipeIngredients d) (wastages d)
       (invoices d) (customers d) (digital_menu_customer_orders d).
Definition with_wastages (f : list Wastage.t -> list Wastage.t) (d : DB) : DB :=
  mkDB (tables d) (floors d) (menuItems d) (orders d) (orderItems d)
       (inventoryItems d) (recipes d) (recipeIngredients d) (f (wastages d))
       (invoices d) (customers d) (digital_menu_customer_orders d).
Definition with_invoices (f : list Invoice.t -> list Invoice.t) (d : DB) : DB :=
  mkDB (tables d) (floors d) (menuItems d) (orders d) (orderItems d)
       (inventoryItems d) (recipes d) (recipeIngredients d) (wastages d)
       (f (invoices d)) (customers d) (digital_menu_customer_orders d).
Definition with_customers (f : list Customer.t -> list Customer.t) (d : DB) : DB :=
  mkDB (tables d) (floors d) (menuItems d) (orders d) (orderItems d)
       (inventoryItems d) (recipes d) (recipeIngredients d) (wastages d)
       (invoices d) (f (customers d)) (digital_menu_customer_orders d).
Definition with_digital (f : list CustomerDoc.t -> list CustomerDoc.t) (d : DB) : DB :=
  mkDB (tables d) (floors d) (menuItems d) (orders d) (orderItems d)
       (inventoryItems d) (recipes d) (recipeIngredients d) (wastages d)
       (invoices d) (customers d) (f (digital_menu_customer_orders d)).
Definition with_floors (f : list Floor.t -> list Floor.t) (d : DB) : DB :=
  mkDB (tables d) (f (floors d)) (menuItems d) (orders d) (orderItems d)
       (inventoryItems d) (recipes d) (recipeIngredients d) (wastages d)
       (invoices d) (customers d) (digital_menu_customer_orders d).
Definition with_recipes (f : list Recipe.t -> list Recipe.t) (d : DB) : DB :=
  mkDB (tables d) (floors d) (menuItems d) (orders d) (orderItems d)
       (inventoryItems d) (f (recipes d)) (recipeIngredients d) (wastages d)
       (invoices d) (customers d) (digital_menu_customer_orders d).
Definition with_recipeIngredients
  (f : list RecipeIngredient.t -> list RecipeIngredient.t) (d : DB) : DB :=
  mkDB (tables d) (floors d) (menuItems d) (orders d) (orderItems d)
       (inventoryItems d) (recipes d) (f (recipeIngredients d)) (wastages d)
       (invoices d) (customers d) (digital_menu_customer_orders d).

(** The fields of [DigitalMenuSyncService] that outlive a tick. *)
Record SyncMemory := mkSync {
  processedOrderIds : gset string;
  orderStatusMap : gmap string (option string);
  orderPaymentStatusMap : gmap string string }.

Inductive LogLine : Type :=
| LogSynced (orderId : string) (customerName : option string)
| LogSyncFailed (orderId : string).

Record World := mkWorld {
  db : DB;
  sync : SyncMemory;
  uuids : nat -> string;
  drawn : nat;
  clock : Date;
  console : list LogLine }.

Definition with_db (f : DB -> DB) (w : World) : World :=
  mkWorld (f (db w)) (sync w) (uuids w) (drawn w) (clock w) (console w).
Definition with_sync (f : SyncMemory -> SyncMemory) (w : World) : World :=
  mkWorld (db w) (f (sync w)) (uuids w) (drawn w) (clock w) (console w).

(** ** Computations: state and exceptions

    An [async] function is run to completion on the world; a [throw] keeps
    the writes made before it. *)

Inductive Res (A : Type) : Type :=
| Ok (a : A)
| Throw (msg : string).
Arguments Ok {A} a.
Arguments Throw {A} msg.

Definition M (A : Type) : Type := World -> Res A * World.

Definition ret {A} (a : A) : M A := fun w => (Ok a, w).

Definition bind {A B} (m : M A) (k : A -> M B) : M B :=
  fun w =>
    match m w with
    | (Ok a, w') => k a w'
    | (Throw e, w') => (Throw e, w')
    end.

Definition throw {A} (msg : string) : M A := fun w => (Throw msg, w).

(** [try { m } catch (error) { h }] *)
Definition try_catch {A} (m : M A) (h : string -> M A) : M A :=
  fun w =>
    match m w with
    | (Ok a, w') => (Ok a, w')
    | (Throw e, w') => h e w'
    end.

Definition get_db : M DB := fun w => (Ok (db w), w).
Definition modify_db (f : DB -> DB) : M unit := fun w => (Ok tt, with_db f w).
Definition get_sync : M SyncMemory := fun w => (Ok (sync w), w).
Definition modify_sync (f : SyncMemory -> SyncMemory) : M unit :=
  fun w => (Ok tt, with_sync f w).

(** [new Date()] *)
Definition new_Date : M Date := fun w => (Ok (clock w), w).

(** [randomUUID()] *)
Definition randomUUID : M string :=
  fun w =>
    (Ok (uuids w (drawn w)),
     mkWorld (db w) (sync w) (uuids w) (S (drawn w)) (clock w) (console w)).

Definition console_log (l : LogLine) : M unit :=
  fun w =>
    (Ok tt,
     mkWorld (db w) (sync w) (uuids w) (drawn w) (clock w) (console w ++ [l])).

Declare Scope js_scope.
Delimit Scope js_scope with js.
Notation "'let*' x ':=' m 'in' k" := (bind m (fun x => k))
  (at level 10, x name, m at level 100, k at level 200) : js_scope.
Notation "'do*' m 'in' k" := (bind m (fun _ => k))
  (at level 10, m at level 100, k at level 200) : js_scope.
Open Scope js_scope.

(** [for (const x of l) { body }] *)
Fixpoint for_of {A} (l : list A) (body : A -> M unit) : M unit :=
  match l with
  | [] => ret tt
  | x :: r => do* body x in for_of r body
  end.

(** ** Collection primitives *)

Section Collection.
Context {A : Type}.

(** [findOneAndUpdate(filter, update, {returnDocument: "after"})] rewrites
    the first match; the document it returns is that match after the update. *)
Fixpoint update_first (p : A -> bool) (f : A -> A) (l : list A) : list A :=
  match l with
  | [] => []
  | x :: r => if p x then f x :: r else x :: update_first p f r
  end.

Definition updated_doc (p : A -> bool) (f : A -> A) (l : list A) : option A :=
  option_map f (find p l).

(** [deleteOne(filter)] removes the first match; [deletedCount > 0] tells
    whether there was one. *)
Fixpoint delete_first (p : A -> bool) (l : list A) : list A :=
  match l with
  | [] => []
  | x :: r => if p x then r else x :: delete_first p r
  end.

End Collection.

(** ** JavaScript truthiness of optional strings *)

(** [null], [undefined] and the empty string are falsy. *)
Definition truthy_str (o : option string) : option string :=
  match o with
  | Some "" => None
  | Some s => Some s
  | None => None
  end.

(** [a || d] *)
Definition or_str (a : option string) (d : string) : string :=
  match truthy_str a with
  | Some s => s
  | None => d
  end.

(** [a || null] *)
Definition or_null (a : option string) : option string := truthy_str a.

(** ** The storage gateway ([MongoStorage]) *)

Module InsertOrder.
Record t := mk {
  tableId : option string;
  orderType : string;
  status : option string;
  total : option string;
  customerName : option string;
  customerPhone : option string;
  customerAddress : option string;
  paymentMode : option string;
  waiterId : option string;
  deliveryPersonId : option string;
  expectedPickupTime : option Date }.
End InsertOrder.

Module InsertOrderItem.
Record t := mk {
  orderId : string;
  menuItemId : string;
  name : string;
  quantity : num;
  price : string;
  notes : option string;
  status : option string;
  isVeg : option bool }.
End InsertOrderItem.

Module InsertWastage.
Record t := mk {
  inventoryItemId : string;
  quantity : string;
  unit : string;
  reason : string;
  reportedBy : option string;
  notes : option string }.
End InsertWastage.

Module InsertInvoice.
Record t := mk {
  invoiceNumber : string;
  orderId : string;
  tableNumber : option string;
  floorName : option string;
  customerName : option string;
  customerPhone : option string;
  subtotal : string;
  tax : string;
  discount : option string;
  total : string;
  paymentMode : string;
  splitPayments : option (Json (list Split.t));
  status : option string;
  items : Json (list InvoiceLine.t);
  notes : option string }.
End InsertInvoice.

(** ** Purchasing and reservations: the state

    The collections [purchaseOrders], [purchaseOrderItems] and
    [reservations], which the order lifecycle does not read, are kept beside
    the world; a computation on the world is lifted. *)

Module PurchaseOrder.
Record t := mk {
  id : string;
  orderNumber : string;
  supplierId : string;
  orderDate : Date;
  expectedDeliveryDate : option Date;
  actualDeliveryDate : option Date;
  status : string;
  totalAmount : string;
  notes : option string;
  createdAt : Date }.

Definition set_received (now : Date) (x : t) : t :=
  mk (id x) (orderNumber x) (supplierId x) (orderDate x)
     (expectedDeliveryDate x) (Some now) "received" (totalAmount x) (notes x)
     (createdAt x).
End PurchaseOrder.

Module PurchaseOrderItem.
Record t := mk {
  id : string;
  purchaseOrderId : string;
  inventoryItemId : string;
  quantity : string;
  unit : string;
  costPerUnit : string;
  totalCost : string }.
End PurchaseOrderItem.

Module Reservation.
Record t := mk {
  id : string;
  tableId : string;
  customerName : string;
  customerPhone : string;
  numberOfPeople : num;
  timeSlot : Date;
  notes : option string;
  status : string;
  createdAt : Date }.
End Reservation.

Module InsertReservation.
Record t := mk {
  tableId : string;
  customerName : string;
  customerPhone : string;
  numberOfPeople : num;
  timeSlot : Date;
  notes : option string;
  status : option string }.
End InsertReservation.

Record Office := mkOffice {
  front : World;
  purchaseOrders : list PurchaseOrder.t;
  purchaseOrderItems : list PurchaseOrderItem.t;
  reservations : list Reservation.t }.

Definition OM (A : Type) : Type := Office -> Res A * Office.

Definition oret {A} (a : A) : OM A := fun s => (Ok a, s).

Definition obind {A B} (m : OM A) (k : A -> OM B) : OM B :=
  fun s =>
    match m s with
    | (Ok a, s') => k a s'
    | (Throw e, s') => (Throw e, s')
    end.

(** A computation on the world, run on the world of the office. *)
Definition lift {A} (m : M A) : OM A :=
  fun s =>
    let '(r, w') := m (front s) in
    (r, mkOffice w' (purchaseOrders s) (purchaseOrderItems s) (reservations s)).

Definition with_purchaseOrders
  (f : list PurchaseOrder.t -> list PurchaseOrder.t) (s : Office) : Office :=
  mkOffice (front s) (f (purchaseOrders s)) (purchaseOrderItems s)
           (reservations s).
Definition with_reservations
  (f : list Reservation.t -> list Reservation.t) (s : Office) : Office :=
  mkOffice (front s) (purchaseOrders s) (purchaseOrderItems s)
           (f (reservations s)).

Notation "'let+' x ':=' m 'in' k" := (obind m (fun x => k))
  (at level 10, x name, m at level 100, k at level 200) : js_scope.
Notation "'do+' m 'in' k" := (obind m (fun _ => k))
  (at level 10, m at level 100, k at level 200) : js_scope.

Module storage.

(** [find().sort({displayOrder: 1})]: the list [floors] holds the collection
    in display order. *)
Definition getFloors : M (list Floor.t) :=
  let* d := get_db in ret (floors d).

Definition getFloor (id : string) : M (option Floor.t) :=
  let* d := get_db in ret (find (fun f => Floor.id f =? id) (floors d)).

Definition getTables : M (list Table.t) :=
  let* d := get_db in ret (tables d).

Definition getTable (id : string) : M (option Table.t) :=
  let* d := get_db in ret (find (fun t => Table.id t =? id) (tables d)).

Definition update_table (id : string) (f : Table.t -> Table.t)
  : M (option Table.t) :=
  fun w =>
    let p t := Table.id t =? id in
    (Ok (updated_doc p f (tables (db w))),
     with_db (with_tables (update_first p f)) w).

Definition updateTableStatus (id : string) (status : string)
  : M (option Table.t) :=
  update_table id (Table.set_status status).

Definition updateTableOrder (id : string) (orderId : option string)
  : M (option Table.t) :=
  update_table id (Table.set_currentOrderId orderId).

Definition getMenuItems : M (list MenuItem.t) :=
  let* d := get_db in ret (menuItems d).

Definition getOrder (id : string) : M (option Order.t) :=
  let* d := get_db in ret (find (fun o => Order.id o =? id) (orders d)).

Definition createOrder (insertOrder : InsertOrder.t) : M Order.t :=
  let* id := randomUUID in
  let* now := new_Date in
  let order :=
    Order.mk id
      (InsertOrder.tableId insertOrder)
      (InsertOrder.orderType insertOrder)
      (default "saved" (InsertOrder.status insertOrder))
      (default "0" (InsertOrder.total insertOrder))
      (InsertOrder.customerName insertOrder)
      (InsertOrder.customerPhone insertOrder)
      (InsertOrder.customerAddress insertOrder)
      (InsertOrder.paymentMode insertOrder)
      (InsertOrder.waiterId insertOrder)
      (InsertOrder.deliveryPersonId insertOrder)
      (InsertOrder.expectedPickupTime insertOrder)
      now None None None in
  do* modify_db (with_orders (fun l => (l ++ [order])%list)) in
  ret order.

Definition update_order (id : string) (f : Order.t -> Order.t)
  : M (option Order.t) :=
  fun w =>
    let p o := Order.id o =? id in
    (Ok (updated_doc p f (orders (db w))),
     with_db (with_orders (update_first p f)) w).

Definition updateOrderStatus (id : string) (status : string)
  : M (option Order.t) :=
  update_order id (Order.set_status status).

Definition updateOrderTotal (id : string) (total : string)
  : M (option Order.t) :=
  update_order id (Order.set_total total).

Definition completeOrder (id : string) : M (option Order.t) :=
  let* now := new_Date in update_order id (Order.set_completed now).

Definition billOrder (id : string) : M (option Order.t) :=
  let* now := new_Date in update_order id (Order.set_billed now).

Definition checkoutOrder (id : string) (paymentMode : option string)
  : M (option Order.t) :=
  let* now := new_Date in update_order id (Order.set_paid paymentMode now).

Definition getOrderItems (orderId : string) : M (list OrderItem.t) :=
  let* d := get_db in
  ret (filter (fun i => OrderItem.orderId i =? orderId) (orderItems d)).

Definition getOrderItem (id : string) : M (option OrderItem.t) :=
  let* d := get_db in ret (find (fun i => OrderItem.id i =? id) (orderItems d)).

Definition createOrderItem (item : InsertOrderItem.t) : M OrderItem.t :=
  let* id := randomUUID in
  let orderItem :=
    OrderItem.mk id
      (InsertOrderItem.orderId item)
      (InsertOrderItem.menuItemId item)
      (InsertOrderItem.name item)
      (InsertOrderItem.quantity item)
      (InsertOrderItem.price item)
      (InsertOrderItem.notes item)
      (default "new" (InsertOrderItem.status item))
      (default true (InsertOrderItem.isVeg item)) in
  do* modify_db (with_orderItems (fun l => (l ++ [orderItem])%list)) in
  ret orderItem.

Definition updateOrderItemStatus (id : string) (status : string)
  : M (option OrderItem.t) :=
  fun w =>
    let p i := OrderItem.id i =? id in
    (Ok (updated_doc p (OrderItem.set_status status) (orderItems (db w))),
     with_db (with_orderItems (update_first p (OrderItem.set_status status))) w).

Definition deleteOrderItem (id : string) : M bool :=
  fun w =>
    let p i := OrderItem.id i =? id in
    (Ok (existsb p (orderItems (db w))),
     with_db (with_orderItems (delete_first p)) w).

Definition getInventoryItem (id : string) : M (option InventoryItem.t) :=
  let* d := get_db in
  ret (find (fun i => InventoryItem.id i =? id) (inventoryItems d)).

Definition updateInventoryQuantity (id : string) (quantity : string)
  : M (option InventoryItem.t) :=
  let* now := new_Date in
  fun w =>
    let p i := InventoryItem.id i =? id in
    let f := InventoryItem.set_stock quantity now in
    (Ok (updated_doc p f (inventoryItems (db w))),
     with_db (with_inventoryItems (update_first p f)) w).

(** [findOne({menuItemId}, {sort: {createdAt: -1}})]: the latest recipe of
    the menu item, the first such in collection order. *)
Definition latest (best : option Recipe.t) (r : Recipe.t) : option Recipe.t :=
  match best with
  | None => Some r
  | Some b =>
      if (Recipe.createdAt b <? Recipe.createdAt r)%nat then Some r else Some b
  end.

Definition getRecipeByMenuItemId (menuItemId : string) : M (option Recipe.t) :=
  let* d := get_db in
  ret (fold_left latest
         (filter (fun r => Recipe.menuItemId r =? menuItemId) (recipes d))
         None).

Definition getRecipeIngredients (recipeId : string)
  : M (list RecipeIngredient.t) :=
  let* d := get_db in
  ret (filter (fun i => RecipeIngredient.recipeId i =? recipeId)
              (recipeIngredients d)).

Definition deductInventoryForOrder (orderId : string) : M unit :=
  let* orderItems := getOrderItems orderId in
  for_of orderItems (fun orderItem =>
    let* recipe := getRecipeByMenuItemId (OrderItem.menuItemId orderItem) in
    match recipe with
    | None => ret tt
    | Some recipe =>
        let* recipeIngredients := getRecipeIngredients (Recipe.id recipe) in
        for_of recipeIngredients (fun ingredient =>
          let* inventoryItem :=
            getInventoryItem (RecipeIngredient.inventoryItemId ingredient) in
          match inventoryItem with
          | None => ret tt
          | Some inventoryItem =>
              let quantityToDeduct :=
                mul (parseFloat (RecipeIngredient.quantity ingredient))
                    (OrderItem.quantity orderItem) in
              let newStock :=
                sub (parseFloat (InventoryItem.currentStock inventoryItem))
                    quantityToDeduct in
              do* updateInventoryQuantity
                    (RecipeIngredient.inventoryItemId ingredient)
                    (toString newStock) in
              ret tt
          end)
    end).

Definition createWastage (insertWastage : InsertWastage.t) : M Wastage.t :=
  let* id := randomUUID in
  let* now := new_Date in
  let wastage :=
    Wastage.mk id
      (InsertWastage.inventoryItemId insertWastage)
      (InsertWastage.quantity insertWastage)
      (InsertWastage.unit insertWastage)
      (InsertWastage.reason insertWastage)
      (InsertWastage.reportedBy insertWastage)
      (InsertWastage.notes insertWastage)
      now in
  let* inventoryItem :=
    getInventoryItem (InsertWastage.inventoryItemId insertWastage) in
  do* match inventoryItem with
      | Some inventoryItem =>
          let newStock :=
            sub (parseFloat (InventoryItem.currentStock inventoryItem))
                (parseFloat (InsertWastage.quantity insertWastage)) in
          do* updateInventoryQuantity
                (InsertWastage.inventoryItemId insertWastage)
                (toString newStock) in
          ret tt
      | None => ret tt
      end in
  do* modify_db (with_wastages (fun l => (l ++ [wastage])%list)) in
  ret wastage.

(** [find().sort({createdAt: -1})]; the callers only take the length. *)
Definition getInvoices : M (list Invoice.t) :=
  let* d := get_db in ret (invoices d).

Definition createInvoice (insertInvoice : InsertInvoice.t) : M Invoice.t :=
  let* id := randomUUID in
  let* now := new_Date in
  let invoice :=
    Invoice.mk id
      (InsertInvoice.invoiceNumber insertInvoice)
      (InsertInvoice.orderId insertInvoice)
      (InsertInvoice.tableNumber insertInvoice)
      (InsertInvoice.floorName insertInvoice)
      (InsertInvoice.customerName insertInvoice)
      (InsertInvoice.customerPhone insertInvoice)
      (InsertInvoice.subtotal insertInvoice)
      (InsertInvoice.tax insertInvoice)
      (default "0" (InsertInvoice.discount insertInvoice))
      (InsertInvoice.total insertInvoice)
      (InsertInvoice.paymentMode insertInvoice)
      (InsertInvoice.splitPayments insertInvoice)
      (default "Paid" (InsertInvoice.status insertInvoice))
      (InsertInvoice.items insertInvoice)
      (InsertInvoice.notes insertInvoice)
      now now in
  do* modify_db (with_invoices (fun l => (l ++ [invoice])%list)) in
  ret invoice.

(** [countDocuments({floorId: id})] on the tables, then [deleteOne({id})] on
    the floors. *)
Definition deleteFloor (id : string) : M bool :=
  let* d := get_db in
  let tablesOnFloor :=
    List.length
      (filter (fun t => match Table.floorId t with
                        | Some floorId => floorId =? id
                        | None => false
                        end) (tables d)) in
  if (0 <? tablesOnFloor)%nat then
    throw ("Cannot delete floor: " ++ print_nat (Z.of_nat tablesOnFloor) ++
           " table(s) are assigned to this floor")
  else
    fun w =>
      let p f := Floor.id f =? id in
      (Ok (existsb p (floors (db w))), with_db (with_floors (delete_first p)) w).

(** [deleteMany({recipeId: id})] on the ingredients, then [deleteOne({id})]
    on the recipes. *)
Definition deleteRecipe (id : string) : M bool :=
  do* modify_db
        (with_recipeIngredients
           (filter (fun g => negb (RecipeIngredient.recipeId g =? id)))) in
  fun w =>
    let p r := Recipe.id r =? id in
    (Ok (existsb p (recipes (db w))), with_db (with_recipes (delete_first p)) w).

Definition getPurchaseOrderItems (purchaseOrderId : string)
  : OM (list PurchaseOrderItem.t) :=
  fun s =>
    (Ok (filter (fun i => PurchaseOrderItem.purchaseOrderId i =? purchaseOrderId)
                (purchaseOrderItems s)), s).

Definition receivePurchaseOrder (id : string) : OM (option PurchaseOrder.t) :=
  let+ purchaseOrderItems := getPurchaseOrderItems id in
  do+ lift (for_of purchaseOrderItems (fun item =>
        let* inventoryItem :=
          getInventoryItem (PurchaseOrderItem.inventoryItemId item) in
        match inventoryItem with
        | Some inventoryItem =>
            let newStock :=
              add (parseFloat (InventoryItem.currentStock inventoryItem))
                  (parseFloat (PurchaseOrderItem.quantity item)) in
            do* updateInventoryQuantity
                  (PurchaseOrderItem.inventoryItemId item) (toString newStock) in
            ret tt
        | None => ret tt
        end)) in
  let+ now := lift new_Date in
  fun s =>
    let p o := PurchaseOrder.id o =? id in
    let f := PurchaseOrder.set_received now in
    (Ok (updated_doc p f (purchaseOrders s)),
     with_purchaseOrders (update_first p f) s).

Definition getReservation (id : string) : OM (option Reservation.t) :=
  fun s => (Ok (find (fun r => Reservation.id r =? id) (reservations s)), s).

(** [find({tableId, status: "active"})] *)
Definition getReservationsByTable (tableId : string) : OM (list Reservation.t) :=
  fun s =>
    (Ok (filter (fun r => (Reservation.tableId r =? tableId) &&
                          (Reservation.status r =? "active"))
                (reservations s)), s).

Definition createReservation (insertReservation : InsertReservation.t)
  : OM Reservation.t :=
  let+ id := lift randomUUID in
  let+ now := lift new_Date in
  let reservation :=
    Reservation.mk id
      (InsertReservation.tableId insertReservation)
      (InsertReservation.customerName insertReservation)
      (InsertReservation.customerPhone insertReservation)
      (InsertReservation.numberOfPeople insertReservation)
      (InsertReservation.timeSlot insertReservation)
      (InsertReservation.notes insertReservation)
      (default "active" (InsertReservation.status insertReservation))
      now in
  fun s =>
    (Ok reservation, with_reservations (fun l => (l ++ [reservation])%list) s).

Definition deleteReservation (id : string) : OM bool :=
  fun s =>
    let p r := Reservation.id r =? id in
    (Ok (existsb p (reservations s)), with_reservations (delete_first p) s).

End storage.

(** ** Strings *)

Definition lower_ascii (c : ascii) : ascii :=
  let n := nat_of_ascii c in
  if (65 <=? n)%nat && (n <=? 90)%nat then ascii_of_nat (n + 32) else c.

Fixpoint toLowerCase (s : string) : string :=
  match s with
  | String c r => String (lower_ascii c) (toLowerCase r)
  | EmptyString => EmptyString
  end.

(** [s.padStart(n, "0")] *)
Definition padStart0 (n : nat) (s : string) : string :=
  String.concat "" (repeat "0" (n - String.length s)) ++ s.

(** [`INV-${String(count + 1).padStart(4, "0")}`] *)
Definition invoiceNumberFor (count : nat) : string :=
  "INV-" ++ padStart0 4 (print_nat (Z.of_nat (count + 1))).

(** [Σ parseFloat(item.price) * item.quantity], as the handlers fold it. *)
Definition sumItems (items : list OrderItem.t) : num :=
  fold_left
    (fun sum item =>
       add sum (mul (parseFloat (OrderItem.price item)) (OrderItem.quantity item)))
    items zero.

Definition invoiceItemsData (items : list OrderItem.t) : list InvoiceLine.t :=
  map (fun item =>
         InvoiceLine.mk (OrderItem.name item) (OrderItem.quantity item)
           (parseFloat (OrderItem.price item)) (OrderItem.isVeg item)
           (or_null (OrderItem.notes item)))
      items.

(** [tableInfo?.floorId ? (await storage.getFloor(tableInfo.floorId))?.name || null : null] *)
Definition floorNameOf (tableInfo : option Table.t) : M (option string) :=
  match tableInfo with
  | Some t =>
      match truthy_str (Table.floorId t) with
      | Some fid =>
          let* floor := storage.getFloor fid in
          ret (or_null (option_map Floor.name floor))
      | None => ret None
      end
  | None => ret None
  end.

(** [tableInfo?.tableNumber || null] *)
Definition tableNumberOf (tableInfo : option Table.t) : option string :=
  or_null (option_map Table.tableNumber tableInfo).

(** ** The synchronizer ([DigitalMenuSyncService])

    The store does not fail in this model, so the one exception that can be
    raised is that of [findMenuItemByName].  A [try] of the source is written
    where that exception can reach it: in [syncOrders] and in its ingest loop.
    The other [try] blocks ([loadSyncState], [updatePOSOrderStatus],
    [autoCheckoutAndGenerateInvoice], [updateCustomerTableStatus],
    [syncTableStatusFromPOSOrder] and the update loop of [syncOrders]) guard
    calls to the store only; their bodies are written without the handler, and
    are proved not to throw.  Of the console, the two lines of the ingest loop
    are kept; broadcasts to the web sockets are not modelled. *)

Module digitalMenuSync.

(** The docs with a non-empty [orders] array. *)
Definition find_customer_docs : M (list CustomerDoc.t) :=
  let* d := get_db in
  ret (filter (fun c => negb (Nat.eqb (List.length (CustomerDoc.orders c)) 0))
              (digital_menu_customer_orders d)).

(** [order._id?.toString() || `${customerDoc._id}_${order.orderDate}`] *)
Definition syntheticId (customerDoc : CustomerDoc.t) (order : DigitalOrder.t)
  : string :=
  or_str (DigitalOrder._id order)
         (CustomerDoc._id customerDoc ++ "_" ++ DigitalOrder.orderDate order).

Definition remember (orderId : string) (status : option string)
  (paymentStatus : string) (withId : bool) (s : SyncMemory) : SyncMemory :=
  mkSync (if withId then {[ orderId ]} ∪ processedOrderIds s
          else processedOrderIds s)
         (<[ orderId := status ]> (orderStatusMap s))
         (<[ orderId := paymentStatus ]> (orderPaymentStatusMap s)).

Definition forget (orderId : string) (s : SyncMemory) : SyncMemory :=
  mkSync (processedOrderIds s ∖ {[ orderId ]})
         (delete orderId (orderStatusMap s))
         (delete orderId (orderPaymentStatusMap s)).

Definition loadSyncState : M unit :=
  let* customerDocs := find_customer_docs in
  for_of customerDocs (fun customerDoc =>
    for_of (CustomerDoc.orders customerDoc) (fun order =>
      if DigitalOrder.syncedToPOS order then
        let orderId := syntheticId customerDoc order in
        modify_sync
          (remember orderId (DigitalOrder.status order)
             (or_str (DigitalOrder.paymentStatus order) "pending") true)
      else ret tt)).

Definition updateCustomerTableStatus (customerPhone : string)
  (tableStatus : string) : M unit :=
  modify_db (with_customers
    (update_first (fun c => Customer.phoneNumber c =? customerPhone)
                  (Customer.set_tableStatus tableStatus))).

Definition syncTableStatusFromPOSOrder (posOrderId : string) : M unit :=
  let* posOrder := storage.getOrder posOrderId in
  match posOrder with
  | None => ret tt
  | Some posOrder =>
      match truthy_str (Order.customerPhone posOrder) with
      | None => ret tt
      | Some customerPhone =>
          let* orderItems := storage.getOrderItems posOrderId in
          if Nat.eqb (List.length orderItems) 0 then ret tt
          else
            let allServed :=
              forallb (fun item => OrderItem.status item =? "served") orderItems in
            let anyReady :=
              existsb (fun item => OrderItem.status item =? "ready") orderItems in
            let anyPreparing :=
              existsb (fun item => OrderItem.status item =? "preparing")
                      orderItems in
            let tableStatus :=
              if allServed then "served"
              else if anyReady && negb anyPreparing &&
                      forallb (fun item =>
                                 (OrderItem.status item =? "ready") ||
                                 (OrderItem.status item =? "served"))
                              orderItems
              then "ready"
              else if anyPreparing || anyReady then "preparing"
              else "occupied" in
            updateCustomerTableStatus customerPhone tableStatus
      end
  end.

Definition findTableByNumberAndFloor (tableNumber : string)
  (floorNumber : option string) : M (option Table.t) :=
  let* tables := storage.getTables in
  let fallback :=
    hd_error (filter (fun t => Table.tableNumber t =? tableNumber) tables) in
  match truthy_str floorNumber with
  | Some floorNumber =>
      let* floors := storage.getFloors in
      match find (fun f => toLowerCase (Floor.name f) =? toLowerCase floorNumber)
                 floors with
      | Some floor =>
          match find (fun t =>
                        (Table.tableNumber t =? tableNumber) &&
                        match Table.floorId t with
                        | Some fid => fid =? Floor.id floor
                        | None => false
                        end) tables with
          | Some matchingTable => ret (Some matchingTable)
          | None => ret fallback
          end
      | None => ret fallback
      end
  | None => ret fallback
  end.

(** [name.toLowerCase()] throws on an absent name as soon as the callback of
    [find] runs, that is, as soon as the menu has an item. *)
Definition findMenuItemByName (name : option string) : M (option MenuItem.t) :=
  let* menuItems := storage.getMenuItems in
  match menuItems, name with
  | [], _ => ret None
  | _ :: _, None => throw "TypeError: Cannot read properties of undefined"
  | _ :: _, Some name =>
      ret (find (fun item => toLowerCase (MenuItem.name item) =? toLowerCase name)
                menuItems)
  end.

(** [[item.notes, item.spiceLevel ? `Spice: ${item.spiceLevel}` : null]
      .filter(Boolean).join(" | ") || null] *)
Definition itemNotes (item : DigitalItem.t) : option string :=
  let spice :=
    match truthy_str (DigitalItem.spiceLevel item) with
    | Some l => Some ("Spice: " ++ l)
    | None => None
    end in
  or_null
    (Some (String.concat " | "
             (omap truthy_str [DigitalItem.notes item; spice]))).

(** The external order with the customer fields of its document spread in.
    An absent item name is stored as the empty string. *)
Definition convertAndCreatePOSOrder (digitalOrder : DigitalOrder.t)
  (customerName customerPhone : option string) : M string :=
  let* tableId :=
    match truthy_str (DigitalOrder.tableNumber digitalOrder) with
    | Some tableNumber =>
        let* table :=
          findTableByNumberAndFloor tableNumber
            (DigitalOrder.floorNumber digitalOrder) in
        match table with
        | Some table =>
            do* (if Table.status table =? "free"
                 then do* storage.updateTableStatus (Table.id table) "occupied"
                      in ret tt
                 else ret tt) in
            ret (Some (Table.id table))
        | None => ret None
        end
    | None => ret None
    end in
  let orderStatus :=
    match DigitalOrder.paymentStatus digitalOrder with
    | Some "paid" => "billed"
    | _ => "sent_to_kitchen"
    end in
  let* posOrder :=
    storage.createOrder
      (InsertOrder.mk tableId "dine-in" (Some orderStatus) (Some "0")
         customerName customerPhone None
         (or_null (DigitalOrder.paymentMethod digitalOrder))
         None None None) in
  do* match truthy_str tableId with
      | Some tableId =>
          do* storage.updateTableOrder tableId (Some (Order.id posOrder)) in
          ret tt
      | None => ret tt
      end in
  do* for_of (DigitalOrder.items digitalOrder) (fun item =>
        let* menuItem := findMenuItemByName (DigitalItem.menuItemName item) in
        let notes := itemNotes item in
        let itemPrice := toFixed2 (or_else (DigitalItem.price item) zero) in
        do* storage.createOrderItem
              (InsertOrderItem.mk (Order.id posOrder)
                 (or_str (option_map MenuItem.id menuItem) "unknown")
                 (default "" (DigitalItem.menuItemName item))
                 (DigitalItem.quantity item)
                 itemPrice notes (Some "new")
                 (Some (default true (option_map MenuItem.isVeg menuItem)))) in
        ret tt) in
  let orderTotal := toFixed2 (or_else (DigitalOrder.total digitalOrder) zero) in
  do* storage.updateOrderTotal (Order.id posOrder) orderTotal in
  do* match truthy_str customerPhone with
      | Some customerPhone => updateCustomerTableStatus customerPhone "occupied"
      | None => ret tt
      end in
  ret (Order.id posOrder).

Definition autoCheckoutAndGenerateInvoice (digitalOrder : DigitalOrder.t)
  (posOrder : Order.t) : M unit :=
  let* orderItems := storage.getOrderItems (Order.id posOrder) in
  let subtotal := sumItems orderItems in
  let tax := mul subtotal (Fin 5 2) in
  let total := add subtotal tax in
  let paymentMode :=
    toLowerCase (or_str (DigitalOrder.paymentMethod digitalOrder) "cash") in
  let* checkedOutOrder :=
    storage.checkoutOrder (Order.id posOrder) (Some paymentMode) in
  match checkedOutOrder with
  | None => ret tt
  | Some checkedOutOrder =>
      let* tableInfo :=
        match truthy_str (Order.tableId checkedOutOrder) with
        | Some tableId =>
            let* tableInfo := storage.getTable tableId in
            do* storage.updateTableOrder tableId None in
            do* storage.updateTableStatus tableId "free" in
            ret tableInfo
        | None => ret None
        end in
      do* match truthy_str (Order.customerPhone checkedOutOrder) with
          | Some customerPhone => updateCustomerTableStatus customerPhone "free"
          | None => ret tt
          end in
      let* invoices := storage.getInvoices in
      let invoiceNumber := invoiceNumberFor (List.length invoices) in
      let* floorName := floorNameOf tableInfo in
      do* storage.createInvoice
            (InsertInvoice.mk invoiceNumber (Order.id checkedOutOrder)
               (tableNumberOf tableInfo) floorName
               (Order.customerName checkedOutOrder)
               (Order.customerPhone checkedOutOrder)
               (toFixed2 subtotal) (toFixed2 tax) (Some "0") (toFixed2 total)
               paymentMode None (Some "Paid")
               (Stringified (invoiceItemsData orderItems)) None) in
      ret tt
  end.

(** What reading a member of an object literal can give: the text under an
    own key, or a member that every object literal inherits from
    [Object.prototype]: one of its methods, or, under [__proto__], the
    prototype itself. *)
Inductive Member : Type :=
| Text (value : string)
| Method (name : string)
| ObjectPrototype.

Definition objectPrototypeMethods : list string :=
  ["constructor"; "hasOwnProperty"; "isPrototypeOf"; "propertyIsEnumerable";
   "toLocaleString"; "toString"; "valueOf"; "__defineGetter__";
   "__defineSetter__"; "__lookupGetter__"; "__lookupSetter__"].

(** [literal[key]], where [own] holds the keys of the literal; [None] is
    [undefined]. *)
Definition member (own : gmap string string) (key : string) : option Member :=
  match own !! key with
  | Some value => Some (Text value)
  | None =>
      if existsb (String.eqb key) objectPrototypeMethods then Some (Method key)
      else if key =? "__proto__" then Some ObjectPrototype
      else None
  end.

(** [v || d]: the empty text and [undefined] are falsy, functions and
    objects are truthy. *)
Definition or_member (v : option Member) (d : string) : Member :=
  match v with
  | Some (Text "") | None => Text d
  | Some m => m
  end.

Definition statusMapping : gmap string string :=
  list_to_map
    [("pending", "new"); ("confirmed", "new"); ("preparing", "preparing");
     ("completed", "served"); ("cancelled", "served")].

(** [statusMapping[digitalOrder.status] || "new"] *)
Definition newItemStatusFor (status : option string) : Member :=
  or_member (member statusMapping (default "undefined" status)) "new".

(** [if (item.status !== newItemStatus)
       await this.storage.updateOrderItemStatus(item.id, newItemStatus)].
    A method or the prototype differs from every stored status, so the update
    is always made.  What reaches the store is then decided by the driver: a
    function is left out of the document it sends, so the update sets no
    field and the item stays as it is; the prototype has no key of its own
    and is stored as an empty document, which the store of this model, where
    a status is a text, holds as [[object Object]]. *)
Definition setItemStatusTo (newItemStatus : Member) (item : OrderItem.t)
  : M unit :=
  match newItemStatus with
  | Text status =>
      if negb (OrderItem.status item =? status)
      then do* storage.updateOrderItemStatus (OrderItem.id item) status in
           ret tt
      else ret tt
  | Method _ => ret tt
  | ObjectPrototype =>
      do* storage.updateOrderItemStatus (OrderItem.id item) "[object Object]" in
      ret tt
  end.

Definition is_invoice_generated (s : string) : bool :=
  (s =? "invoice_generated") || (s =? "invoice generated").

Definition updatePOSOrderStatus (digitalOrder : DigitalOrder.t) : M unit :=
  match truthy_str (DigitalOrder.posOrderId digitalOrder) with
  | None => ret tt
  | Some posOrderId =>
      let* posOrder := storage.getOrder posOrderId in
      match posOrder with
      | None => ret tt
      | Some posOrder =>
          let paymentStatus := or_str (DigitalOrder.paymentStatus digitalOrder) "" in
          let orderStatus := or_str (DigitalOrder.status digitalOrder) "" in
          if is_invoice_generated paymentStatus || is_invoice_generated orderStatus
          then autoCheckoutAndGenerateInvoice digitalOrder posOrder
          else
            let newItemStatus := newItemStatusFor (DigitalOrder.status digitalOrder) in
            let* orderItems := storage.getOrderItems (Order.id posOrder) in
            for_of orderItems (setItemStatusTo newItemStatus)
      end
  end.

(** [updateOne({_id: customerDoc._id, "orders._id": digitalOrder._id},
      {$set: {"orders.$.syncedToPOS": true, ...}})]: in the first document
    with that id that holds a matching order, the first matching order is
    marked.  An absent [_id] is sent as [null] and matches an absent one. *)
Definition same_id (a b : option string) : bool :=
  match a, b with
  | Some x, Some y => x =? y
  | None, None => true
  | _, _ => false
  end.

Definition markSynced (customerDoc : CustomerDoc.t)
  (digitalOrder : DigitalOrder.t) (posOrderId : string) : M unit :=
  let* now := new_Date in
  let hit o := same_id (DigitalOrder._id o) (DigitalOrder._id digitalOrder) in
  modify_db (with_digital
    (update_first
       (fun c => (CustomerDoc._id c =? CustomerDoc._id customerDoc) &&
                 existsb hit (CustomerDoc.orders c))
       (fun c =>
          CustomerDoc.set_orders
            (update_first hit (DigitalOrder.set_synced now posOrderId)
                          (CustomerDoc.orders c)) c))).

(** A loop that counts: the sum of what the bodies return. *)
Fixpoint sum_of {A} (l : list A) (body : A -> M nat) : M nat :=
  match l with
  | [] => ret 0
  | x :: r =>
      let* n := body x in
      let* m := sum_of r body in
      ret (n + m)
  end.

Definition is_pending_or_confirmed (status : option string) : bool :=
  match status with
  | Some s => (s =? "pending") || (s =? "confirmed")
  | None => false
  end.

(** The body of the first loop of [syncOrders]: one embedded order of one
    customer document; [1] when it was converted. *)
Definition ingestOrder (customerDoc : CustomerDoc.t)
  (digitalOrder : DigitalOrder.t) : M nat :=
  if DigitalOrder.syncedToPOS digitalOrder then ret 0
  else if negb (is_pending_or_confirmed (DigitalOrder.status digitalOrder))
  then ret 0
  else
    let orderId := syntheticId customerDoc digitalOrder in
    let* mem := get_sync in
    if bool_decide (orderId ∈ processedOrderIds mem) then ret 0
    else
      try_catch
        (do* modify_sync
               (remember orderId (DigitalOrder.status digitalOrder)
                  (or_str (DigitalOrder.paymentStatus digitalOrder) "pending")
                  true) in
         let* posOrderId :=
           convertAndCreatePOSOrder digitalOrder
             (CustomerDoc.customerName customerDoc)
             (CustomerDoc.customerPhone customerDoc) in
         do* console_log
               (LogSynced orderId (CustomerDoc.customerName customerDoc)) in
         do* markSynced customerDoc digitalOrder posOrderId in
         ret 1)
        (fun _ =>
           do* console_log (LogSyncFailed orderId) in
           do* modify_sync (forget orderId) in
           ret 0).

(** The body of the second loop of [syncOrders]; [1] when the native order
    was updated. *)
Definition refreshOrder (customerDoc : CustomerDoc.t)
  (digitalOrder : DigitalOrder.t) : M nat :=
  if negb (DigitalOrder.syncedToPOS digitalOrder) then ret 0
  else
    let orderId := syntheticId customerDoc digitalOrder in
    let* mem := get_sync in
    let previousStatus := truthy_str (mjoin (orderStatusMap mem !! orderId)) in
    let previousPaymentStatus :=
      truthy_str (orderPaymentStatusMap mem !! orderId) in
    let currentPaymentStatus :=
      or_str (DigitalOrder.paymentStatus digitalOrder) "pending" in
    let statusChanged :=
      match previousStatus with
      | Some p => negb (same_id (Some p) (DigitalOrder.status digitalOrder))
      | None => false
      end in
    let paymentStatusChanged :=
      match previousPaymentStatus with
      | Some p => negb (p =? currentPaymentStatus)
      | None => false
      end in
    let needsCheckout :=
      if is_invoice_generated currentPaymentStatus
      then truthy_str (DigitalOrder.posOrderId digitalOrder)
      else None in
    let rest :=
      if statusChanged || paymentStatusChanged then
        do* updatePOSOrderStatus digitalOrder in
        do* modify_sync
              (remember orderId (DigitalOrder.status digitalOrder)
                 currentPaymentStatus false) in
        ret 1
      else
        match previousStatus, previousPaymentStatus with
        | Some _, Some _ => ret 0
        | _, _ =>
            do* modify_sync
                  (remember orderId (DigitalOrder.status digitalOrder)
                     currentPaymentStatus false) in
            ret 0
        end in
    match needsCheckout with
    | Some posOrderId =>
        let* posOrder := storage.getOrder posOrderId in
        match posOrder with
        | Some posOrder =>
            if negb (Order.status posOrder =? "paid") &&
               negb (Order.status posOrder =? "billed")
            then do* updatePOSOrderStatus digitalOrder in ret 1
            else rest
        | None => rest
        end
    | None => rest
    end.

Definition ingestPass : M nat :=
  let* customerDocs := find_customer_docs in
  sum_of customerDocs (fun customerDoc =>
    sum_of (CustomerDoc.orders customerDoc) (ingestOrder customerDoc)).

Definition updatePass : M nat :=
  let* syncedCustomerDocs := find_customer_docs in
  sum_of syncedCustomerDocs (fun customerDoc =>
    sum_of (CustomerDoc.orders customerDoc) (refreshOrder customerDoc)).

Definition syncOrders : M nat :=
  try_catch
    (let* synced := ingestPass in
     let* updated := updatePass in
     ret (synced + updated))
    (fun _ => ret 0).

End digitalMenuSync.

(** ** The HTTP handlers ([registerRoutes])

    A handler starts from the body as its zod schema parsed it (a body that
    fails the schema is answered 400 before anything is read) and ends in
    the response it sends. *)

Inductive Json_body : Type :=
| JError (error : string)
| JSplitMismatch (error : string) (splitSum total : num)
| JOrder (order : Order.t)
| JItem (item : OrderItem.t)
| JOrderAction (order : Order.t) (shouldPrint : bool)
| JOrderInvoice (order : Order.t) (invoice : option Invoice.t) (shouldPrint : bool)
| JSuccess
| JWastage (wastage : Wastage.t).

Record Response := mkResponse { code : nat; json : Json_body }.

(** What the handlers of purchasing and reservations send. *)
Inductive Office_body : Type :=
| OError (error : string)
| OPurchaseOrder (order : PurchaseOrder.t)
| OReservation (reservation : Reservation.t)
| OSuccess.

Record OfficeResponse := mkOfficeResponse { ocode : nat; ojson : Office_body }.

Module CheckoutBody.
Record t := mk {
  paymentMode : option string;
  print : bool;
  splitPayments : option (list Split.t) }.
End CheckoutBody.

Module routes.

(** The table status an order's items stand for; [None] when no rule
    fires.  Both handlers below carry this cascade. *)
Definition deriveTableStatus (orderItems : list OrderItem.t) : option string :=
  let hasNew := existsb (fun i => OrderItem.status i =? "new") orderItems in
  let hasPreparing :=
    existsb (fun i => OrderItem.status i =? "preparing") orderItems in
  let allReady :=
    forallb (fun i => (OrderItem.status i =? "ready") ||
                      (OrderItem.status i =? "served")) orderItems in
  let allServed := forallb (fun i => OrderItem.status i =? "served") orderItems in
  if allServed then Some "served"
  else if allReady then Some "ready"
  else if hasPreparing then Some "preparing"
  else if hasNew then Some "occupied"
  else None.

(** POST /api/orders *)
Definition post_orders (body : InsertOrder.t) : M Response :=
  let* order := storage.createOrder body in
  do* match truthy_str (Order.tableId order) with
      | Some tableId =>
          do* storage.updateTableOrder tableId (Some (Order.id order)) in
          do* storage.updateTableStatus tableId "occupied" in
          ret tt
      | None => ret tt
      end in
  ret (mkResponse 200 (JOrder order)).

(** POST /api/orders/:id/items *)
Definition post_order_items (id : string) (body : InsertOrderItem.t)
  : M Response :=
  let* item := storage.createOrderItem body in
  let* orderItems := storage.getOrderItems id in
  let total := sumItems orderItems in
  do* storage.updateOrderTotal id (toFixed2 total) in
  let* order := storage.getOrder id in
  do* match order with
      | Some order =>
          match truthy_str (Order.tableId order) with
          | Some tableId =>
              match deriveTableStatus orderItems with
              | Some s => do* storage.updateTableStatus tableId s in ret tt
              | None => ret tt
              end
          | None => ret tt
          end
      | None => ret tt
      end in
  ret (mkResponse 200 (JItem item)).

(** PATCH /api/orders/:id/status *)
Definition patch_order_status (id : string) (status : string) : M Response :=
  let* order := storage.updateOrderStatus id status in
  match order with
  | None => ret (mkResponse 404 (JError "Order not found"))
  | Some order => ret (mkResponse 200 (JOrder order))
  end.

(** POST /api/orders/:id/complete *)
Definition post_order_complete (id : string) : M Response :=
  let* order := storage.completeOrder id in
  match order with
  | None => ret (mkResponse 404 (JError "Order not found"))
  | Some order =>
      do* match truthy_str (Order.tableId order) with
          | Some tableId =>
              do* storage.updateTableOrder tableId None in
              do* storage.updateTableStatus tableId "free" in
              ret tt
          | None => ret tt
          end in
      ret (mkResponse 200 (JOrder order))
  end.

(** POST /api/orders/:id/kot *)
Definition post_order_kot (id : string) (print : bool) : M Response :=
  let* order := storage.updateOrderStatus id "sent_to_kitchen" in
  match order with
  | None => ret (mkResponse 404 (JError "Order not found"))
  | Some order => ret (mkResponse 200 (JOrderAction order print))
  end.

(** The invoice that save, bill and checkout write for [order]. *)
Definition composeInvoice (order : Order.t) (orderItems : list OrderItem.t)
  (tableInfo : option Table.t) (paymentMode : string)
  (splitPayments : option (Json (list Split.t))) (status : string)
  : M Invoice.t :=
  let subtotal := sumItems orderItems in
  let tax := mul subtotal (Fin 5 2) in
  let total := add subtotal tax in
  let* invoices := storage.getInvoices in
  let invoiceNumber := invoiceNumberFor (List.length invoices) in
  let* floorName := floorNameOf tableInfo in
  storage.createInvoice
    (InsertInvoice.mk invoiceNumber (Order.id order)
       (tableNumberOf tableInfo) floorName
       (Order.customerName order) (Order.customerPhone order)
       (toFixed2 subtotal) (toFixed2 tax) (Some "0") (toFixed2 total)
       paymentMode splitPayments (Some status)
       (Stringified (invoiceItemsData orderItems)) None).

(** POST /api/orders/:id/save *)
Definition post_order_save (id : string) (print : bool) : M Response :=
  let* order := storage.updateOrderStatus id "saved" in
  match order with
  | None => ret (mkResponse 404 (JError "Order not found"))
  | Some order =>
      let* invoice :=
        if print then
          let* orderItems := storage.getOrderItems id in
          let* tableInfo :=
            match truthy_str (Order.tableId order) with
            | Some tableId => storage.getTable tableId
            | None => ret None
            end in
          let* invoice :=
            composeInvoice order orderItems tableInfo
              (or_str (Order.paymentMode order) "cash") None "Saved" in
          ret (Some invoice)
        else ret None in
      ret (mkResponse 200 (JOrderInvoice order invoice print))
  end.

(** POST /api/orders/:id/bill *)
Definition post_order_bill (id : string) (print : bool) : M Response :=
  let* order := storage.billOrder id in
  match order with
  | None => ret (mkResponse 404 (JError "Order not found"))
  | Some order =>
      let* orderItems := storage.getOrderItems id in
      let* tableInfo :=
        match truthy_str (Order.tableId order) with
        | Some tableId => storage.getTable tableId
        | None => ret None
        end in
      let* invoice :=
        composeInvoice order orderItems tableInfo
          (or_str (Order.paymentMode order) "cash") None "Billed" in
      ret (mkResponse 200 (JOrderInvoice order (Some invoice) print))
  end.

(** The split-payment check of checkout: the response that rejects the
    request, if any. *)
Definition checkSplitPayments (splitPayments : option (list Split.t))
  (total : num) : option Response :=
  match splitPayments with
  | Some ((_ :: _) as splits) =>
      let splitSum :=
        fold_left (fun sum split => add sum (Split.amount split)) splits zero in
      let tolerance := Fin 1 2 in
      if gtb (abs (sub splitSum total)) tolerance then
        Some (mkResponse 400
                (JSplitMismatch "Split payment amounts must equal the total bill"
                   splitSum total))
      else if existsb (fun split => leb (Split.amount split) zero) splits then
        Some (mkResponse 400 (JError "Split payment amounts must be positive"))
      else None
  | _ => None
  end.

(** POST /api/orders/:id/checkout *)
Definition post_order_checkout (id : string) (body : CheckoutBody.t)
  : M Response :=
  let* order := storage.getOrder id in
  match order with
  | None => ret (mkResponse 404 (JError "Order not found"))
  | Some _ =>
      let* orderItems := storage.getOrderItems id in
      let subtotal := sumItems orderItems in
      let tax := mul subtotal (Fin 5 2) in
      let total := add subtotal tax in
      match checkSplitPayments (CheckoutBody.splitPayments body) total with
      | Some rejection => ret rejection
      | None =>
          let* checkedOutOrder :=
            storage.checkoutOrder id (CheckoutBody.paymentMode body) in
          match checkedOutOrder with
          | None => ret (mkResponse 500 (JError "Failed to checkout order"))
          | Some checkedOutOrder =>
              let* tableInfo :=
                match truthy_str (Order.tableId checkedOutOrder) with
                | Some tableId =>
                    let* tableInfo := storage.getTable tableId in
                    do* storage.updateTableOrder tableId None in
                    do* storage.updateTableStatus tableId "free" in
                    ret tableInfo
                | None => ret None
                end in
              do* match truthy_str (Order.customerPhone checkedOutOrder) with
                  | Some customerPhone =>
                      digitalMenuSync.updateCustomerTableStatus customerPhone "free"
                  | None => ret tt
                  end in
              let* invoice :=
                composeInvoice checkedOutOrder orderItems tableInfo
                  (or_str (CheckoutBody.paymentMode body) "cash")
                  (option_map Stringified (CheckoutBody.splitPayments body))
                  "Paid" in
              do* try_catch
                    (storage.deductInventoryForOrder (Order.id checkedOutOrder))
                    (fun _ => ret tt) in
              ret (mkResponse 200
                     (JOrderInvoice checkedOutOrder (Some invoice)
                        (CheckoutBody.print body)))
          end
      end
  end.

(** PATCH /api/order-items/:id/status *)
Definition patch_order_item_status (id : string) (status : string)
  : M Response :=
  let* item := storage.updateOrderItemStatus id status in
  match item with
  | None => ret (mkResponse 404 (JError "Order item not found"))
  | Some item =>
      let* order := storage.getOrder (OrderItem.orderId item) in
      do* match order with
          | Some order =>
              match truthy_str (Order.tableId order) with
              | Some tableId =>
                  let* allItems := storage.getOrderItems (OrderItem.orderId item) in
                  match deriveTableStatus allItems with
                  | Some s => do* storage.updateTableStatus tableId s in ret tt
                  | None => ret tt
                  end
              | None => ret tt
              end
          | None => ret tt
          end in
      do* match order with
          | Some order =>
              match truthy_str (Order.customerPhone order) with
              | Some _ =>
                  digitalMenuSync.syncTableStatusFromPOSOrder (OrderItem.orderId item)
              | None => ret tt
              end
          | None => ret tt
          end in
      ret (mkResponse 200 (JItem item))
  end.

(** DELETE /api/order-items/:id *)
Definition delete_order_item (id : string) : M Response :=
  let* item := storage.getOrderItem id in
  match item with
  | None => ret (mkResponse 404 (JError "Order item not found"))
  | Some item =>
      let* success := storage.deleteOrderItem id in
      if negb success then
        ret (mkResponse 500 (JError "Failed to delete order item"))
      else
        let* orderItems := storage.getOrderItems (OrderItem.orderId item) in
        let total := sumItems orderItems in
        do* storage.updateOrderTotal (OrderItem.orderId item) (toFixed2 total) in
        ret (mkResponse 200 JSuccess)
  end.

(** POST /api/wastage *)
Definition post_wastage (body : InsertWastage.t) : M Response :=
  let* inventoryItem :=
    storage.getInventoryItem (InsertWastage.inventoryItemId body) in
  match inventoryItem with
  | None => ret (mkResponse 404 (JError "Inventory item not found"))
  | Some inventoryItem =>
      let newStock :=
        sub (parseFloat (InventoryItem.currentStock inventoryItem))
            (parseFloat (InsertWastage.quantity body)) in
      if ltb newStock zero then
        ret (mkResponse 400 (JError "Insufficient stock for wastage entry"))
      else
        do* storage.updateInventoryQuantity
              (InsertWastage.inventoryItemId body) (toString newStock) in
        let* wastage := storage.createWastage body in
        ret (mkResponse 200 (JWastage wastage))
  end.

(** DELETE /api/floors/:id; what [deleteFloor] throws is not caught. *)
Definition delete_floor (id : string) : M Response :=
  let* success := storage.deleteFloor id in
  if negb success then ret (mkResponse 404 (JError "Floor not found"))
  else ret (mkResponse 200 JSuccess).

(** DELETE /api/recipes/:id *)
Definition delete_recipe (id : string) : M Response :=
  try_catch
    (let* success := storage.deleteRecipe id in
     if negb success then ret (mkResponse 404 (JError "Recipe not found"))
     else ret (mkResponse 200 JSuccess))
    (fun message => ret (mkResponse 500 (JError message))).

(** POST /api/purchase-orders/:id/receive *)
Definition post_purchase_order_receive (id : string) : OM OfficeResponse :=
  fun s =>
    match storage.receivePurchaseOrder id s with
    | (Ok (Some order), s') => (Ok (mkOfficeResponse 200 (OPurchaseOrder order)), s')
    | (Ok None, s') =>
        (Ok (mkOfficeResponse 404 (OError "Purchase order not found")), s')
    | (Throw message, s') => (Ok (mkOfficeResponse 500 (OError message)), s')
    end.

(** POST /api/reservations *)
Definition post_reservations (body : InsertReservation.t) : OM OfficeResponse :=
  let+ existingReservations :=
    storage.getReservationsByTable (InsertReservation.tableId body) in
  if (0 <? List.length existingReservations)%nat then
    oret (mkOfficeResponse 409
            (OError "This table already has an active reservation"))
  else
    let+ reservation := storage.createReservation body in
    let+ table := lift (storage.getTable (Reservation.tableId reservation)) in
    do+ match table with
        | Some table =>
            if Table.status table =? "free" then
              do+ lift (storage.updateTableStatus
                          (Reservation.tableId reservation) "reserved") in
              oret tt
            else oret tt
        | None => oret tt
        end in
    oret (mkOfficeResponse 200 (OReservation reservation)).

(** DELETE /api/reservations/:id *)
Definition delete_reservation (id : string) : OM OfficeResponse :=
  let+ reservation := storage.getReservation id in
  match reservation with
  | None => oret (mkOfficeResponse 404 (OError "Reservation not found"))
  | Some reservation =>
      let+ success := storage.deleteReservation id in
      if negb success then
        oret (mkOfficeResponse 404 (OError "Failed to delete reservation"))
      else
        let+ tableReservations :=
          storage.getReservationsByTable (Reservation.tableId reservation) in
        do+ (if Nat.eqb (List.length tableReservations) 0 then
               let+ table :=
                 lift (storage.getTable (Reservation.tableId reservation)) in
               match table with
               | Some table =>
                   if (Table.status table =? "reserved") &&
                      match truthy_str (Table.currentOrderId table) with
                      | Some _ => false
                      | None => true
                      end
                   then
                     do+ lift (storage.updateTableStatus
                                 (Reservation.tableId reservation) "free") in
                     oret tt
                   else oret tt
               | None => oret tt
               end
             else oret tt) in
        oret (mkOfficeResponse 200 OSuccess)
  end.

End routes.

(** * Vocabulary of the properties *)

(** The world a computation leaves, and what it returns. *)
Definition exec {A} (m : M A) (w : World) : World := snd (m w).
Definition result {A} (m : M A) (w : World) : Res A := fst (m w).

(** What the store holds under an identifier. *)
Definition orderOf (w : World) (id : string) : option Order.t :=
  find (fun o => Order.id o =? id) (orders (db w)).

Definition itemsOf (w : World) (orderId : string) : list OrderItem.t :=
  filter (fun i => OrderItem.orderId i =? orderId) (orderItems (db w)).

Definition itemOf (w : World) (id : string) : option OrderItem.t :=
  find (fun i => OrderItem.id i =? id) (orderItems (db w)).

Definition tableOf (w : World) (id : string) : option Table.t :=
  find (fun t => Table.id t =? id) (tables (db w)).

Definition stockOf (w : World) (id : string) : option string :=
  option_map InventoryItem.currentStock
    (find (fun i => InventoryItem.id i =? id) (inventoryItems (db w))).


(** ** Sample worlds *)

Definition no_db : DB := mkDB [] [] [] [] [] [] [] [] [] [] [] [].

Definition no_sync : SyncMemory := mkSync ∅ ∅ ∅.

(** A supply of identifiers: [uuid-0], [uuid-1], ... *)
Definition sample_uuids (n : nat) : string := "uuid-" ++ print_nat (Z.of_nat n).

Definition world_of (d : DB) : World := mkWorld d no_sync sample_uuids 0 0 [].

Definition sample_order (id : string) (tableId : option string)
  (status : string) : Order.t :=
  Order.mk id tableId "dine-in" status "0" None None None None None None None
           0 None None None.

Definition sample_item (id orderId menuItemId : string) (quantity : Z)
  (price status : string) : OrderItem.t :=
  OrderItem.mk id orderId menuItemId menuItemId (of_Z quantity) price None
               status true.

Definition sample_body (orderId menuItemId : string) (quantity : Z)
  (price : string) : InsertOrderItem.t :=
  InsertOrderItem.mk orderId menuItemId menuItemId (of_Z quantity) price None
                     (Some "new") (Some true).

(** Order [o1] at table [t1] with one line, 199.00 x 2. *)
Definition world_one_line : World :=
  world_of
    (mkDB [Table.mk "t1" "1" 4 "occupied" (Some "o1") None] [] []
          [sample_order "o1" (Some "t1") "saved"]
          [sample_item "i1" "o1" "m1" 2 "199.00" "new"]
          [] [] [] [] [] [] []).

(** Order [o1] at table [t1] without a line yet, next to order [o2]. *)
Definition world_no_lines : World :=
  world_of
    (mkDB [Table.mk "t1" "1" 4 "occupied" (Some "o1") None] [] []
          [sample_order "o1" (Some "t1") "saved";
           sample_order "o2" None "saved"]
          [] [] [] [] [] [] [] []).

(** A kitchen: menu item [m1] with two recipes, the later one taking 150 of
    inventory item [inv1] per unit; stock 1000. *)
Definition kitchen_db (items : list OrderItem.t) : DB :=
  mkDB [Table.mk "t1" "1" 4 "occupied" (Some "o1") None] [] []
       [sample_order "o1" (Some "t1") "saved"]
       items
       [InventoryItem.mk "inv1" "Paneer" "Dairy" "1000" "g" "0" None "0" 0]
       [Recipe.mk "r0" "m1" 1; Recipe.mk "r1" "m1" 2]
       [RecipeIngredient.mk "g0" "r0" "inv1" "999" "g";
        RecipeIngredient.mk "g1" "r1" "inv1" "150" "g"]
       [] [] [] [].

(** One line of quantity 2. *)
Definition world_kitchen : World :=
  world_of (kitchen_db [sample_item "i1" "o1" "m1" 2 "100.00" "served"]).

(** Two lines of the same menu item, of quantity 2 and 3. *)
Definition world_kitchen_two_lines : World :=
  world_of (kitchen_db [sample_item "i1" "o1" "m1" 2 "100.00" "served";
                        sample_item "i2" "o1" "m1" 3 "100.00" "served"]).

Definition cash_checkout : CheckoutBody.t :=
  CheckoutBody.mk (Some "cash") false None.

(** An inventory item with stock 10, and a wastage entry of 3. *)
Definition world_stock_10 : World :=
  world_of
    (mkDB [] [] [] [] []
          [InventoryItem.mk "inv1" "Paneer" "Dairy" "10" "kg" "0" None "0" 0]
          [] [] [] [] [] []).

Definition wastage_of (quantity : string) : InsertWastage.t :=
  InsertWastage.mk "inv1" quantity "kg" "spoiled" None None.

(** ** Frames

    [keeps π m]: running [m] leaves the part [π] of the world as it was.
    [commutes patch m]: [m] neither reads nor writes what [patch] rewrites.
    [nothrow m]: [m] never throws. *)

Definition keeps {X A} (π : World -> X) (m : M A) : Prop :=
  forall w, π (snd (m w)) = π w.

Definition commutes {A} (patch : World -> World) (m : M A) : Prop :=
  forall w, m (patch w) = (fst (m w), patch (snd (m w))).

Definition nothrow {A} (m : M A) : Prop :=
  forall w, exists a, fst (m w) = Ok a.

(** ** Billing *)

(** [subtotal + subtotal * 0.05] over the items of an order. *)
Definition billTotal (items : list OrderItem.t) : num :=
  let subtotal := sumItems items in
  add subtotal (mul subtotal (Fin 5 2)).

Definition splitSum (splits : list Split.t) : num :=
  fold_left (fun sum split => add sum (Split.amount split)) splits zero.

(** [|splitSum - total| > 0.01] *)
Definition off_total (splits : list Split.t) (total : num) : bool :=
  gtb (abs (sub (splitSum splits) total)) (Fin 1 2).

(** Some split amount is [<= 0]. *)
Definition some_not_positive (splits : list Split.t) : bool :=
  existsb (fun split => leb (Split.amount split) zero) splits.

(** [returns P m]: [m] never throws and what it returns satisfies [P]. *)
Definition returns {A} (P : A -> Prop) (m : M A) : Prop :=
  forall w, exists a, fst (m w) = Ok a /\ P a.

(** Order [o1] with one line of 200.00: subtotal 200, tax 10, total 210. *)
Definition world_bill_210 : World :=
  world_of
    (mkDB [Table.mk "t1" "1" 4 "occupied" (Some "o1") None] [] []
          [sample_order "o1" (Some "t1") "billed"]
          [sample_item "i1" "o1" "m1" 1 "200.00" "served"]
          [] [] [] [] [] [] []).

(** Order [o1] with one line of 100.00: subtotal 100, tax 5, total 105. *)
Definition world_bill_105 : World :=
  world_of
    (mkDB [Table.mk "t1" "1" 4 "occupied" (Some "o1") None] [] []
          [sample_order "o1" (Some "t1") "billed"]
          [sample_item "i1" "o1" "m1" 1 "100.00" "served"]
          [] [] [] [] [] [] []).

(** A checkout split over payers, the amounts given in hundredths. *)
Definition split_checkout (hundredths : list Z) : CheckoutBody.t :=
  CheckoutBody.mk (Some "cash") false
    (Some (map (fun a => Split.mk (of_Z 1) (Fin a 2) "cash") hundredths)).

Definition with_splitPayments (s : option (Json (list Split.t)))
  (x : Invoice.t) : Invoice.t :=
  Invoice.mk (Invoice.id x) (Invoice.invoiceNumber x) (Invoice.orderId x)
    (Invoice.tableNumber x) (Invoice.floorName x) (Invoice.customerName x)
    (Invoice.customerPhone x) (Invoice.subtotal x) (Invoice.tax x)
    (Invoice.discount x) (Invoice.total x) (Invoice.paymentMode x) s
    (Invoice.status x) (Invoice.items x) (Invoice.notes x)
    (Invoice.createdAt x) (Invoice.updatedAt x).

(** The world after [createInvoice] stored [inv]. *)
Definition add_invoice (inv : Invoice.t) (w : World) : World :=
  mkWorld (with_invoices (fun l => (l ++ [inv])%list) (db w)) (sync w)
          (uuids w) (S (drawn w)) (clock w) (console w).

(** ** Recipe-based deduction *)

Definition latestRecipe (w : World) (menuItemId : string) : option Recipe.t :=
  fold_left storage.latest
    (filter (fun r => Recipe.menuItemId r =? menuItemId) (recipes (db w)))
    None.

Definition ingredientsOf (w : World) (recipeId : string)
  : list RecipeIngredient.t :=
  filter (fun g => RecipeIngredient.recipeId g =? recipeId)
         (recipeIngredients (db w)).

(** What one order line takes: for each ingredient of the latest recipe of
    its menu item, the inventory item and quantity per unit x quantity. *)
Definition lineDeductions (w : World) (item : OrderItem.t)
  : list (string * num) :=
  match latestRecipe w (OrderItem.menuItemId item) with
  | Some recipe =>
      map (fun g =>
             (RecipeIngredient.inventoryItemId g,
              mul (parseFloat (RecipeIngredient.quantity g))
                  (OrderItem.quantity item)))
          (ingredientsOf w (Recipe.id recipe))
  | None => []
  end.

(** The deductions of an order, in the order the loops make them. *)
Definition deductions (w : World) (orderId : string) : list (string * num) :=
  flat_map (lineDeductions w) (itemsOf w orderId).

(** The quantities taken from inventory item [inv]. *)
Definition usage (w : World) (orderId inv : string) : list num :=
  map snd (filter (fun d => fst d =? inv) (deductions w orderId)).

(** The stock [s] after the quantities [qs] were taken from it one after the
    other: each time the stored string is read with [parseFloat] and the
    difference is written back with [toString]. *)
Definition lowered (s : string) (qs : list num) : string :=
  fold_left (fun stock q => toString (sub (parseFloat stock) q)) qs s.

(** The same for quantities that are added. *)
Definition raised (s : string) (qs : list num) : string :=
  fold_left (fun stock q => toString (add (parseFloat stock) q)) qs s.

(** One deduction on the inventory collection; an unknown inventory item is
    skipped. *)
Definition deduct_one (now : Date) (l : list InventoryItem.t)
  (d : string * num) : list InventoryItem.t :=
  match find (fun i => InventoryItem.id i =? fst d) l with
  | Some inventoryItem =>
      update_first (fun i => InventoryItem.id i =? fst d)
        (InventoryItem.set_stock
           (toString (sub (parseFloat (InventoryItem.currentStock inventoryItem))
                          (snd d)))
           now)
        l
  | None => l
  end.

(** The collections that the deduction reads. *)
Definition kitchen (w : World) :=
  (orderItems (db w), recipes (db w), recipeIngredients (db w),
   inventoryItems (db w), clock w).

(** The bodies of the two loops of [deductInventoryForOrder]. *)
Definition deductIngredient (orderItem : OrderItem.t)
  (ingredient : RecipeIngredient.t) : M unit :=
  let* inventoryItem :=
    storage.getInventoryItem (RecipeIngredient.inventoryItemId ingredient) in
  match inventoryItem with
  | None => ret tt
  | Some inventoryItem =>
      let quantityToDeduct :=
        mul (parseFloat (RecipeIngredient.quantity ingredient))
            (OrderItem.quantity orderItem) in
      let newStock :=
        sub (parseFloat (InventoryItem.currentStock inventoryItem))
            quantityToDeduct in
      do* storage.updateInventoryQuantity
            (RecipeIngredient.inventoryItemId ingredient)
            (toString newStock) in
      ret tt
  end.

Definition deductLine (orderItem : OrderItem.t) : M unit :=
  let* recipe := storage.getRecipeByMenuItemId (OrderItem.menuItemId orderItem) in
  match recipe with
  | None => ret tt
  | Some recipe =>
      let* recipeIngredients := storage.getRecipeIngredients (Recipe.id recipe) in
      for_of recipeIngredients (deductIngredient orderItem)
  end.

(** The world after the deductions [ds]. *)
Definition deducted (w : World) (ds : list (string * num)) : World :=
  with_db (with_inventoryItems
             (fun l => fold_left (deduct_one (clock w)) ds l)) w.

(** The stock of [inv] in an inventory collection. *)
Definition stock_in (l : list InventoryItem.t) (inv : string) : option string :=
  option_map InventoryItem.currentStock
    (find (fun i => InventoryItem.id i =? inv) l).


(** ** Synchronizer *)

(** The external statuses that [statusMapping] knows. *)
Definition mapped_status (s : string) : bool :=
  (s =? "pending") || (s =? "confirmed") || (s =? "preparing") ||
  (s =? "completed") || (s =? "cancelled").

(** The names that an object literal inherits from [Object.prototype]. *)
Definition inherited_name (s : string) : bool :=
  existsb (String.eqb s) digitalMenuSync.objectPrototypeMethods ||
  (s =? "__proto__").

(** The status or the payment status of the external order differs from what
    the caches of the synchronizer hold for it. *)
Definition changed_since_last (w : World) (orderId : string)
  (o : DigitalOrder.t) : Prop :=
  (exists p, truthy_str (mjoin (orderStatusMap (sync w) !! orderId)) = Some p /\
             DigitalOrder.status o <> Some p) \/
  (exists p, truthy_str (orderPaymentStatusMap (sync w) !! orderId) = Some p /\
             p <> or_str (DigitalOrder.paymentStatus o) "pending").

(** The loop of [updatePOSOrderStatus] over the items of the native order. *)
Definition setItemStatus (newItemStatus : string) (item : OrderItem.t) : M unit :=
  if negb (OrderItem.status item =? newItemStatus)
  then do* storage.updateOrderItemStatus (OrderItem.id item) newItemStatus in
       ret tt
  else ret tt.

(** Every item of order [orderId] at status [s], the other items as they
    were. *)
Definition all_items_at (s orderId : string) (l : list OrderItem.t)
  : list OrderItem.t :=
  map (fun x => if OrderItem.orderId x =? orderId
                then OrderItem.set_status s x else x) l.

(** The items that the loop rewrites: those it meets at another status. *)
Definition touched (s : string) (its : list OrderItem.t) (x : OrderItem.t) : bool :=
  existsb (fun it => (OrderItem.id it =? OrderItem.id x) &&
                     negb (OrderItem.status it =? s)) its.


(** A native order [p1] with items being prepared and served, linked to the
    external order [d1], which the synchronizer last saw confirmed and which
    now reports a status outside the mapping. *)
Definition external_d1 : DigitalOrder.t :=
  DigitalOrder.mk (Some "d1") "2024-01-01" (Some "out_for_delivery")
    (Some "pending") None (Some "1") None [] (of_Z 0) (of_Z 0)
    true (Some 0) (Some "p1").

Definition customer_c1 : CustomerDoc.t :=
  CustomerDoc.mk "c1" (Some "cust-1") (Some "Asha") (Some "555") [external_d1].

Definition world_synced : World :=
  mkWorld
    (mkDB [] [] []
          [sample_order "p1" None "sent_to_kitchen";
           sample_order "p2" None "sent_to_kitchen"]
          [sample_item "i1" "p1" "m1" 1 "10.00" "preparing";
           sample_item "i2" "p1" "m2" 1 "10.00" "served";
           sample_item "i3" "p2" "m1" 1 "10.00" "served"]
          [] [] [] [] [] [] [customer_c1])
    (mkSync {[ "d1" ]} {[ "d1" := Some "confirmed" ]} {[ "d1" := "pending" ]})
    sample_uuids 0 0 [].

(** The same, the external order now reporting the status [constructor]. *)
Definition external_d5 : DigitalOrder.t :=
  DigitalOrder.mk (Some "d1") "2024-01-01" (Some "constructor")
    (Some "pending") None (Some "1") None [] (of_Z 0) (of_Z 0)
    true (Some 0) (Some "p1").

Definition customer_c5 : CustomerDoc.t :=
  CustomerDoc.mk "c1" (Some "cust-1") (Some "Asha") (Some "555") [external_d5].

Definition world_status_constructor : World :=
  with_db (with_digital (fun _ => [customer_c5])) world_synced.

(** The order a log line of the ingest pass is about. *)
Definition attempted_id (l : LogLine) : string :=
  match l with
  | LogSynced orderId _ => orderId
  | LogSyncFailed orderId => orderId
  end.

(** The orders a stretch of the log reports a conversion attempt for, and
    those it reports as converted. *)
Definition attempted_ids (log : list LogLine) : list string :=
  map attempted_id log.

Definition synced_ids (log : list LogLine) : list string :=
  flat_map (fun l => match l with
                     | LogSynced orderId _ => [orderId]
                     | LogSyncFailed _ => []
                     end) log.

(** What was logged between two worlds. *)
Definition new_log (w w' : World) : list LogLine :=
  skipn (List.length (console w)) (console w').

(** What the exactly-once argument observes of a world. *)
Definition observed (w : World) :=
  (console w, List.length (orders (db w)), processedOrderIds (sync w)).

(** Where a run of the synchronizer that started in [w0] stands in [w]:
    every attempt has logged one line and created one native order; no order
    was converted twice, the converted ones are in the processed set, and
    the orders that were in the set at the start still are and were not
    attempted. *)
Definition sync_inv (w0 w : World) : Prop :=
  exists log,
    console w = (console w0 ++ log)%list /\
    List.length (orders (db w))
      = (List.length (orders (db w0)) + List.length log)%nat /\
    NoDup (synced_ids log) /\
    (forall i, In i (synced_ids log) -> i ∈ processedOrderIds (sync w)) /\
    (forall i, i ∈ processedOrderIds (sync w0) ->
               i ∈ processedOrderIds (sync w) /\ ~ In i (attempted_ids log)).

Definition preserves {A} (I : World -> Prop) (m : M A) : Prop :=
  forall w, I w -> I (snd (m w)).

(** [bumps π m]: running [m] adds one to the count [π]. *)
Definition bumps {A} (π : World -> nat) (m : M A) : Prop :=
  forall w, π (snd (m w)) = S (π w).


(** A customer whose pending order [d2], two portions at 99.50 for table 1,
    has not been converted yet. *)
Definition external_d2 : DigitalOrder.t :=
  DigitalOrder.mk (Some "d2") "2024-01-02" (Some "pending") (Some "pending")
    None (Some "1") None
    [DigitalItem.mk (Some "Dal") (of_Z 2) (Fin 9950 2) None None]
    (Fin 19900 2) (of_Z 0) false None None.

Definition customer_c2 : CustomerDoc.t :=
  CustomerDoc.mk "c2" (Some "cust-2") (Some "Ravi") (Some "777") [external_d2].

Definition world_unsynced : World :=
  world_of
    (mkDB [Table.mk "t1" "1" 4 "free" None None] [] [] [] [] [] [] [] [] []
          [Customer.mk "777" None] [customer_c2]).

(** ** Invoice numbers *)

(** The invoices carry the numbers INV-0001, INV-0002, ... in the order in
    which they were written. *)
Definition numbered (l : list Invoice.t) : Prop :=
  map Invoice.invoiceNumber l = map invoiceNumberFor (seq 0 (List.length l)).

(** ** More of the synchronizer *)

(** An external order that the ingest pass would convert: not flagged as
    synced, and pending or confirmed. *)
Definition eligible (o : DigitalOrder.t) : bool :=
  negb (DigitalOrder.syncedToPOS o) &&
  digitalMenuSync.is_pending_or_confirmed (DigitalOrder.status o).

Definition eligible_ids (docs : list CustomerDoc.t) : list string :=
  flat_map (fun doc => map (digitalMenuSync.syntheticId doc)
                           (filter eligible (CustomerDoc.orders doc))) docs.

(** An external order with a line that has no name, and a menu with one
    item. *)
Definition external_d3 : DigitalOrder.t :=
  DigitalOrder.mk (Some "d3") "2024-01-03" (Some "pending") None None None None
    [DigitalItem.mk None (of_Z 1) (Fin 500 2) None None]
    (Fin 500 2) (of_Z 0) false None None.

Definition customer_c3 : CustomerDoc.t :=
  CustomerDoc.mk "c3" None (Some "Noor") None [external_d3].

Definition world_nameless : World :=
  world_of
    (mkDB [] [] [MenuItem.mk "m1" "Dal" true] [] [] [] [] [] [] [] []
          [customer_c3]).

(** The native order [p1], not yet paid, linked to the external order [d4]
    whose payment status went from pending to invoice_generated. *)
Definition external_d4 : DigitalOrder.t :=
  DigitalOrder.mk (Some "d4") "2024-01-04" (Some "confirmed")
    (Some "invoice_generated") None (Some "1") None [] (of_Z 0) (of_Z 0)
    true (Some 0) (Some "p1").

Definition customer_c4 : CustomerDoc.t :=
  CustomerDoc.mk "c4" (Some "cust-4") (Some "Asha") (Some "555") [external_d4].

Definition world_invoice_requested : World :=
  mkWorld
    (mkDB [] [] []
          [sample_order "p1" None "sent_to_kitchen"]
          [sample_item "i1" "p1" "m1" 1 "10.00" "served"]
          [] [] [] [] [] [] [customer_c4])
    (mkSync {[ "d4" ]} {[ "d4" := Some "confirmed" ]} {[ "d4" := "pending" ]})
    sample_uuids 0 0 [].

(** Order [p1] of the customer with phone 555 at table [t1], with one new
    and one ready item. *)
Definition world_new_and_ready : World :=
  world_of
    (mkDB [Table.mk "t1" "1" 4 "occupied" (Some "p1") None] [] []
          [Order.mk "p1" (Some "t1") "dine-in" "sent_to_kitchen" "0"
                    (Some "Asha") (Some "555") None None None None None
                    0 None None None]
          [sample_item "i1" "p1" "m1" 1 "10.00" "new";
           sample_item "i2" "p1" "m2" 1 "10.00" "ready"]
          [] [] [] [] [] [Customer.mk "555" None] []).

(** Table 7 exists on the ground floor and on the terrace. *)
Definition world_two_floors : World :=
  world_of
    (mkDB [Table.mk "t1" "7" 4 "free" None (Some "f1");
           Table.mk "t2" "7" 2 "free" None (Some "f2")]
          [Floor.mk "f1" "Ground"; Floor.mk "f2" "Terrace"]
          [] [] [] [] [] [] [] [] [] []).

(** What a native order line says about the order: the order it belongs to,
    the name, the quantity, the price and the status. *)
Definition line_view (i : OrderItem.t)
  : string * string * num * string * string :=
  (OrderItem.orderId i, OrderItem.name i, OrderItem.quantity i,
   OrderItem.price i, OrderItem.status i).

(** Every table that names a floor names a stored one. *)
Definition floors_known (w : World) : Prop :=
  forall t floorId,
    In t (tables (db w)) -> Table.floorId t = Some floorId ->
    exists floor, In floor (floors (db w)) /\ Floor.id floor = floorId.

(** The external orders that are flagged as synced, each with its synthetic
    identifier, in the order in which [loadSyncState] meets them. *)
Definition flagged (docs : list CustomerDoc.t)
  : list (string * DigitalOrder.t) :=
  flat_map (fun doc =>
              map (fun o => (digitalMenuSync.syntheticId doc o, o))
                  (filter DigitalOrder.syncedToPOS (CustomerDoc.orders doc)))
           docs.

(** The memory after the orders [fl] were remembered one after the other. *)
Definition remembered (fl : list (string * DigitalOrder.t)) (s : SyncMemory)
  : SyncMemory :=
  fold_left
    (fun s x =>
       digitalMenuSync.remember (fst x) (DigitalOrder.status (snd x))
         (or_str (DigitalOrder.paymentStatus (snd x)) "pending") true s)
    fl s.

(** ** Purchasing and reservations *)

Definition oexec {A} (m : OM A) (s : Office) : Office := snd (m s).
Definition oresult {A} (m : OM A) (s : Office) : Res A := fst (m s).

(** The quantities that purchase order [id] delivers for inventory item
    [inv], in the order of its lines. *)
Definition delivered (s : Office) (id inv : string) : list num :=
  map (fun i => parseFloat (PurchaseOrderItem.quantity i))
      (filter (fun i => PurchaseOrderItem.inventoryItemId i =? inv)
              (filter (fun i => PurchaseOrderItem.purchaseOrderId i =? id)
                      (purchaseOrderItems s))).

(** The body of the loop of [receivePurchaseOrder]. *)
Definition restock (item : PurchaseOrderItem.t) : M unit :=
  let* inventoryItem :=
    storage.getInventoryItem (PurchaseOrderItem.inventoryItemId item) in
  match inventoryItem with
  | Some inventoryItem =>
      let newStock :=
        add (parseFloat (InventoryItem.currentStock inventoryItem))
            (parseFloat (PurchaseOrderItem.quantity item)) in
      do* storage.updateInventoryQuantity
            (PurchaseOrderItem.inventoryItemId item) (toString newStock) in
      ret tt
  | None => ret tt
  end.

(** The active reservations of a table. *)
Definition active_on (s : Office) (tableId : string) : list Reservation.t :=
  filter (fun r => (Reservation.tableId r =? tableId) &&
                   (Reservation.status r =? "active"))
         (reservations s).

(** No table has two active reservations. *)
Definition one_active_each (s : Office) : Prop :=
  forall tableId, (List.length (active_on s tableId) <= 1)%nat.

(** Stock 10 of [inv1], and the purchase order [po1], already received, with
    two lines for it, of 2.5 and 4. *)
Definition office_po : Office :=
  mkOffice world_stock_10
    [PurchaseOrder.mk "po1" "PO-1" "s1" 0 None (Some 0) "received" "0" None 0]
    [PurchaseOrderItem.mk "l1" "po1" "inv1" "2.5" "kg" "1" "2.5";
     PurchaseOrderItem.mk "l2" "po1" "inv1" "4" "kg" "1" "4"]
    [].

(** The free table [t1] of [world_unsynced], without reservations, and a
    request to reserve it. *)
Definition office_free_table : Office := mkOffice world_unsynced [] [] [].

Definition reserve_t1 : InsertReservation.t :=
  InsertReservation.mk "t1" "Ravi" "777" (of_Z 2) 0 None None.


(** * Properties *)

(** ** Collections *)

Section CollectionFacts.
Context {A : Type}.
Implicit Types (p q : A -> bool) (f : A -> A) (l : list A).

Lemma update_first_none p f l :
  find p l = None -> update_first p f l = l.
Proof.
  induction l as [|x r IH]; cbn; [reflexivity|].
  destruct (p x); [discriminate|].
  intros H. rewrite (IH H). reflexivity.
Qed.

(** Looking up with the predicate that selected the update. *)
Lemma find_update_first p f l :
  (forall x, p (f x) = p x) ->
  find p (update_first p f l) = option_map f (find p l).
Proof.
  intros Hp. induction l as [|x r IH]; cbn; [reflexivity|].
  destruct (p x) eqn:E; cbn.
  - rewrite Hp, E. reflexivity.
  - rewrite E. assumption.
Qed.

Lemma length_update_first p f l :
  List.length (update_first p f l) = List.length l.
Proof.
  induction l as [|x r IH]; cbn; [reflexivity|].
  destruct (p x); cbn; congruence.
Qed.

End CollectionFacts.

(** ** Unfolding the storage gateway *)

Ltac unfold_storage :=
  unfold storage.createOrderItem, storage.getOrderItems, storage.getOrderItem,
    storage.deleteOrderItem, storage.updateOrderTotal,
    storage.updateOrderStatus, storage.completeOrder, storage.billOrder,
    storage.checkoutOrder, storage.getOrder, storage.updateTableStatus,
    storage.updateTableOrder, storage.getTable, storage.getInventoryItem,
    storage.updateInventoryQuantity, storage.update_order,
    storage.update_table, updated_doc in *.

Ltac unfold_monad :=
  unfold bind, ret, get_db, modify_db, randomUUID, new_Date in *.

(** ** The stored total *)





(** ** The derived table status *)

(** With no item every [every] holds, and the cascade answers "served". *)
Lemma deriveTableStatus_nil : routes.deriveTableStatus [] = Some "served".
Proof. reflexivity. Qed.

(** What the cascade answers, in the order of its tests. *)
Lemma deriveTableStatus_cases (items : list OrderItem.t) :
  let at_ s i := OrderItem.status i =? s in
  routes.deriveTableStatus items =
    if forallb (at_ "served") items then Some "served"
    else if forallb (fun i => at_ "ready" i || at_ "served" i) items
         then Some "ready"
    else if existsb (at_ "preparing") items then Some "preparing"
    else if existsb (at_ "new") items then Some "occupied"
    else None.
Proof. reflexivity. Qed.

(** After add-item the table of order [:id] carries the status derived from
    the items of [:id], whatever order the new item went to. *)
Lemma add_item_table_status w id body o tid t s :
  orderOf w id = Some o ->
  truthy_str (Order.tableId o) = Some tid ->
  tableOf w tid = Some t ->
  let w' := exec (routes.post_order_items id body) w in
  routes.deriveTableStatus (itemsOf w' id) = Some s ->
  option_map Table.status (tableOf w' tid) = Some s.
Proof.
  unfold exec, orderOf, itemsOf, tableOf, routes.post_order_items.
  unfold_storage. unfold_monad. cbn. intros Ho Htid Ht.
  rewrite find_update_first by reflexivity. rewrite Ho. cbn. rewrite Htid.
  set (items := filter _ (orderItems (db w) ++ _)%list).
  destruct (routes.deriveTableStatus items) as [s'|] eqn:Hd; cbn; fold items.
  - rewrite Hd. intros [= <-].
    rewrite find_update_first by reflexivity. rewrite Ht. reflexivity.
  - rewrite Hd. discriminate.
Qed.

(** C2, at the input where the code departs from it: order [o1] is bound to
    table [t1] and has no item; an add-item request on [o1] whose body names
    order [o2] leaves [o1] without items, and the table, occupied before, is
    set to served. *)
Theorem table_served_when_order_has_no_items :
  let w := world_no_lines in
  let w' := exec (routes.post_order_items "o1"
                    (sample_body "o2" "m1" 1 "10.00")) w in
  itemsOf w' "o1" = [] /\
  option_map Table.status (tableOf w "t1") = Some "occupied" /\
  option_map Table.status (tableOf w' "t1") = Some "served".
Proof. vm_compute. repeat split. Qed.

(** ** Unknown orders *)

Lemma with_db_id (w : World) (f : DB -> DB) : f (db w) = db w -> with_db f w = w.
Proof. destruct w. unfold with_db. cbn. intros ->. reflexivity. Qed.

Lemma with_orders_id (d : DB) f : f (orders d) = orders d -> with_orders f d = d.
Proof. destruct d. unfold with_orders. cbn. intros ->. reflexivity. Qed.

Lemma update_order_unknown w id f :
  orderOf w id = None -> storage.update_order id f w = (Ok None, w).
Proof.
  unfold orderOf, storage.update_order, updated_doc. intros H. rewrite H. cbn.
  f_equal. apply with_db_id, with_orders_id, update_first_none, H.
Qed.

Lemma unknown_order_run w id :
  orderOf w id = None ->
  let not_found := (Ok (mkResponse 404 (JError "Order not found")), w) in
  (forall status, routes.patch_order_status id status w = not_found) /\
  routes.post_order_complete id w = not_found /\
  (forall print, routes.post_order_kot id print w = not_found) /\
  (forall print, routes.post_order_save id print w = not_found) /\
  (forall print, routes.post_order_bill id print w = not_found) /\
  (forall body, routes.post_order_checkout id body w = not_found).
Proof.
  intros H. cbn zeta.
  unfold routes.patch_order_status, routes.post_order_complete,
    routes.post_order_kot, routes.post_order_save, routes.post_order_bill,
    routes.post_order_checkout, storage.updateOrderStatus,
    storage.completeOrder, storage.billOrder, storage.getOrder.
  repeat split; intros; unfold bind, new_Date, get_db, ret;
    cbn -[storage.update_order];
    rewrite ?update_order_unknown by assumption; try reflexivity.
  fold (orderOf w id). rewrite H. reflexivity.
Qed.

(** Every transition that looks the order up first answers 404 for an order
    that does not exist and leaves the store and the memory of the
    synchronizer as they were. *)
Theorem unknown_order_not_found :
  forall (w : World) (id : string),
    orderOf w id = None ->
    let not_found (m : M Response) :=
      result m w = Ok (mkResponse 404 (JError "Order not found")) /\
      db (exec m w) = db w /\ sync (exec m w) = sync w in
    (forall status, not_found (routes.patch_order_status id status)) /\
    not_found (routes.post_order_complete id) /\
    (forall print, not_found (routes.post_order_kot id print)) /\
    (forall print, not_found (routes.post_order_save id print)) /\
    (forall print, not_found (routes.post_order_bill id print)) /\
    (forall body, not_found (routes.post_order_checkout id body)).
Proof.
  intros w id H not_found.
  destruct (unknown_order_run w id H) as (H1 & H2 & H3 & H4 & H5 & H6).
  subst not_found. cbv beta. unfold result, exec.
  repeat split; intros;
    rewrite ?H1, ?H2, ?H3, ?H4, ?H5, ?H6; reflexivity.
Qed.

(** Add-item never answers 404: it answers 200 with the item it stored. *)
Lemma add_item_always_200 w id body :
  exists item,
    result (routes.post_order_items id body) w = Ok (mkResponse 200 (JItem item)) /\
    In item (orderItems (db (exec (routes.post_order_items id body) w))).
Proof.
  unfold exec, result, routes.post_order_items.
  unfold_storage. unfold_monad. cbn.
  eexists. split.
  - destruct (find _ _) as [o|]; cbn; [|reflexivity].
    destruct (truthy_str _); cbn; [|reflexivity].
    destruct (routes.deriveTableStatus _); reflexivity.
  - destruct (find _ _) as [o|]; cbn; [|apply in_or_app; right; left; reflexivity].
    destruct (truthy_str _); cbn; [|apply in_or_app; right; left; reflexivity].
    destruct (routes.deriveTableStatus _); cbn;
      apply in_or_app; right; left; reflexivity.
Qed.

(** C6, at the input where the code departs from it: no order [nope] exists,
    yet add-item on [nope] answers 200 and stores a line for it. *)
Theorem add_item_to_unknown_order :
  let w := world_one_line in
  let body := sample_body "nope" "m1" 1 "10.00" in
  orderOf w "nope" = None /\
  result (routes.post_order_items "nope" body) w
    = Ok (mkResponse 200
            (JItem (OrderItem.mk "uuid-0" "nope" "m1" "m1" (of_Z 1) "10.00"
                                 None "new" true))) /\
  List.length (itemsOf (exec (routes.post_order_items "nope" body) w) "nope") = 1%nat.
Proof. vm_compute. repeat split. Qed.

(** ** Checking out twice *)

(** C4, at the input where the code departs from it: the second checkout of
    the same order is answered 200 like the first, writes a second invoice
    and deducts the recipe from the stock a second time. *)
Theorem second_checkout_succeeds :
  let w1 := exec (routes.post_order_checkout "o1" cash_checkout) world_kitchen in
  let w2 := exec (routes.post_order_checkout "o1" cash_checkout) w1 in
  option_map Order.status (orderOf w1 "o1") = Some "paid" /\
  (exists o inv,
      result (routes.post_order_checkout "o1" cash_checkout) w1
        = Ok (mkResponse 200 (JOrderInvoice o (Some inv) false)) /\
      Invoice.invoiceNumber inv = "INV-0002") /\
  map Invoice.invoiceNumber (invoices (db w2)) = ["INV-0001"; "INV-0002"] /\
  stockOf w1 "inv1" = Some "700" /\
  stockOf w2 "inv1" = Some "400".
Proof.
  vm_compute. split; [reflexivity|]. split; [|repeat split].
  do 2 eexists. split; reflexivity.
Qed.

(** ** Wastage *)

(** A wastage entry that would take the stock below zero is answered 400 and
    changes nothing. *)
Lemma wastage_rejected w body inv :
  storage.getInventoryItem (InsertWastage.inventoryItemId body) w = (Ok (Some inv), w) ->
  ltb (sub (parseFloat (InventoryItem.currentStock inv))
           (parseFloat (InsertWastage.quantity body))) zero = true ->
  routes.post_wastage body w
    = (Ok (mkResponse 400 (JError "Insufficient stock for wastage entry")), w).
Proof.
  intros Hget Hneg. unfold routes.post_wastage. unfold bind at 1.
  rewrite Hget, Hneg. reflexivity.
Qed.

(** C8, at the input where the code departs from it: stock 10, wastage 3.
    The handler writes 10 - 3 and [createWastage] then deducts the quantity
    once more: the stock ends at 4, not at 7. *)
Theorem wastage_deducted_twice :
  let w' := exec (routes.post_wastage (wastage_of "3")) world_stock_10 in
  stockOf world_stock_10 "inv1" = Some "10" /\
  (exists wastage,
      result (routes.post_wastage (wastage_of "3")) world_stock_10
        = Ok (mkResponse 200 (JWastage wastage))) /\
  stockOf w' "inv1" = Some "4".
Proof.
  vm_compute. split; [reflexivity|]. split; [|reflexivity].
  eexists. reflexivity.
Qed.

(** ** Running computations *)

Lemma bind_ok {A B} (m : M A) (k : A -> M B) w a w' :
  m w = (Ok a, w') -> bind m k w = k a w'.
Proof. unfold bind. intros ->. reflexivity. Qed.

Lemma bind_throw {A B} (m : M A) (k : A -> M B) w e w' :
  m w = (Throw e, w') -> bind m k w = (Throw e, w').
Proof. unfold bind. intros ->. reflexivity. Qed.

Lemma run_eta {A} (m : M A) w : m w = (fst (m w), snd (m w)).
Proof. destruct (m w). reflexivity. Qed.

Section Frames.
Context {X : Type} (π : World -> X) (patch : World -> World).

Lemma keeps_ret {A} (a : A) : keeps π (ret a).
Proof. intros w. reflexivity. Qed.

Lemma keeps_throw {A} e : keeps π (@throw A e).
Proof. intros w. reflexivity. Qed.

Lemma keeps_bind {A B} (m : M A) (k : A -> M B) :
  keeps π m -> (forall a, keeps π (k a)) -> keeps π (bind m k).
Proof.
  intros Hm Hk w. unfold bind. specialize (Hm w).
  destruct (m w) as [[a|e] w']; cbn in *; [|assumption].
  rewrite Hk. assumption.
Qed.

Lemma keeps_try_catch {A} (m : M A) h :
  keeps π m -> (forall e, keeps π (h e)) -> keeps π (try_catch m h).
Proof.
  intros Hm Hh w. unfold try_catch. specialize (Hm w).
  destruct (m w) as [[a|e] w']; cbn in *; [assumption|].
  rewrite Hh. assumption.
Qed.

Lemma keeps_for_of {A} (l : list A) body :
  (forall x, keeps π (body x)) -> keeps π (for_of l body).
Proof.
  intros Hb. induction l as [|x r IH]; cbn [for_of].
  - apply keeps_ret.
  - apply keeps_bind; [apply Hb | intros _; apply IH].
Qed.

Lemma keeps_sum_of {A} (l : list A) body :
  (forall x, keeps π (body x)) ->
  keeps π (digitalMenuSync.sum_of l body).
Proof.
  intros Hb. induction l as [|x r IH]; cbn [digitalMenuSync.sum_of].
  - apply keeps_ret.
  - apply keeps_bind; [apply Hb | intros n].
    apply keeps_bind; [apply IH | intros m; apply keeps_ret].
Qed.

Lemma commutes_ret {A} (a : A) : commutes patch (ret a).
Proof. intros w. reflexivity. Qed.

Lemma commutes_bind {A B} (m : M A) (k : A -> M B) :
  commutes patch m -> (forall a, commutes patch (k a)) ->
  commutes patch (bind m k).
Proof.
  intros Hm Hk w. unfold bind. rewrite Hm.
  destruct (m w) as [[a|e] w']; cbn; [|reflexivity].
  rewrite Hk. reflexivity.
Qed.

Lemma commutes_try_catch {A} (m : M A) h :
  commutes patch m -> (forall e, commutes patch (h e)) ->
  commutes patch (try_catch m h).
Proof.
  intros Hm Hh w. unfold try_catch. rewrite Hm.
  destruct (m w) as [[a|e] w']; cbn; [reflexivity|].
  rewrite Hh. reflexivity.
Qed.

Lemma commutes_for_of {A} (l : list A) body :
  (forall x, commutes patch (body x)) -> commutes patch (for_of l body).
Proof.
  intros Hb. induction l as [|x r IH]; cbn [for_of].
  - apply commutes_ret.
  - apply commutes_bind; [apply Hb | intros _; apply IH].
Qed.

End Frames.

Lemma returns_ret {A} (P : A -> Prop) a : P a -> returns P (ret a).
Proof. intros H w. exists a. split; [reflexivity | assumption]. Qed.

Lemma returns_bind {A B} (P : B -> Prop) (m : M A) (k : A -> M B) :
  nothrow m -> (forall a, returns P (k a)) -> returns P (bind m k).
Proof.
  intros Hm Hk w. unfold bind. destruct (Hm w) as [a Ha].
  destruct (m w) as [r w']. cbn in Ha. subst r. apply Hk.
Qed.

Lemma nothrow_ret {A} (a : A) : nothrow (ret a).
Proof. intros w. exists a. reflexivity. Qed.

Lemma nothrow_bind {A B} (m : M A) (k : A -> M B) :
  nothrow m -> (forall a, nothrow (k a)) -> nothrow (bind m k).
Proof.
  intros Hm Hk w. unfold bind. destruct (Hm w) as [a Ha].
  destruct (m w) as [r w']. cbn in Ha. subst r. apply Hk.
Qed.

Lemma nothrow_try_catch {A} (m : M A) h :
  (forall e, nothrow (h e)) -> nothrow (try_catch m h).
Proof.
  intros Hh w. unfold try_catch.
  destruct (m w) as [[a|e] w']; [exists a; reflexivity | apply Hh].
Qed.

Lemma nothrow_for_of {A} (l : list A) body :
  (forall x, nothrow (body x)) -> nothrow (for_of l body).
Proof.
  intros Hb. induction l as [|x r IH]; cbn [for_of].
  - apply nothrow_ret.
  - apply nothrow_bind; [apply Hb | intros _; apply IH].
Qed.

Lemma nothrow_sum_of {A} (l : list A) body :
  (forall x, nothrow (body x)) -> nothrow (digitalMenuSync.sum_of l body).
Proof.
  intros Hb. induction l as [|x r IH]; cbn [digitalMenuSync.sum_of].
  - apply nothrow_ret.
  - apply nothrow_bind; [apply Hb | intros n].
    apply nothrow_bind; [apply IH | intros m; apply nothrow_ret].
Qed.

(** A computation is taken apart along its binds, loops and branches; what
    is left are storage calls, which are settled by running them. *)
Ltac split_branch :=
  first
    [ match goal with
      | |- context [match ?x with _ => _ end] =>
          lazymatch x with
          | context [match _ with _ => _ end] => fail
          | _ => destruct x
          end
      end
    | match goal with
      | |- context [match ?x with _ => _ end] => destruct x
      end ].

Ltac head_of t :=
  lazymatch t with
  | ?f _ => head_of f
  | _ => t
  end.

Ltac unfold_head :=
  lazymatch goal with
  | |- keeps _ ?m => let h := head_of m in progress unfold h
  | |- commutes _ ?m => let h := head_of m in progress unfold h
  | |- nothrow ?m => let h := head_of m in progress unfold h
  | |- returns _ ?m => let h := head_of m in progress unfold h
  end.

Ltac frame_leaf :=
  let w := fresh "w" in
  intros w;
  first [ reflexivity
        | eexists; reflexivity
        | unfold observed; cbn; rewrite ?length_update_first; reflexivity ].

Ltac frame :=
  repeat first
    [ apply keeps_ret | apply commutes_ret | apply nothrow_ret
    | apply keeps_throw
    | frame_leaf
    | apply keeps_for_of; intros ?
    | apply commutes_for_of; intros ?
    | apply nothrow_for_of; intros ?
    | apply keeps_sum_of; intros ?
    | apply nothrow_sum_of; intros ?
    | apply keeps_try_catch; [|intros ?]
    | apply commutes_try_catch; [|intros ?]
    | apply nothrow_try_catch; intros ?
    | apply keeps_bind; [|intros ?]
    | apply commutes_bind; [|intros ?]
    | apply nothrow_bind; [|intros ?]
    | progress cbv beta zeta
    | split_branch
    | unfold_head ].

Lemma deductInventory_keeps_orders id :
  keeps (fun w => orders (db w)) (storage.deductInventoryForOrder id).
Proof. unfold storage.deductInventoryForOrder. frame. Qed.

Lemma deductInventory_keeps_invoices id :
  keeps (fun w => invoices (db w)) (storage.deductInventoryForOrder id).
Proof. unfold storage.deductInventoryForOrder. frame. Qed.

Lemma deductInventory_commutes_invoices id g :
  commutes (with_db (with_invoices g)) (storage.deductInventoryForOrder id).
Proof. unfold storage.deductInventoryForOrder. frame. Qed.

Lemma deductInventory_nothrow id : nothrow (storage.deductInventoryForOrder id).
Proof. unfold storage.deductInventoryForOrder. frame. Qed.

(** ** Checkout and split payments *)

Lemma getOrder_run w id : storage.getOrder id w = (Ok (orderOf w id), w).
Proof. reflexivity. Qed.

Lemma getOrderItems_run w id :
  storage.getOrderItems id w = (Ok (itemsOf w id), w).
Proof. reflexivity. Qed.

Lemma checkSplit_spec splits total :
  splits <> [] ->
  routes.checkSplitPayments (Some splits) total =
    if off_total splits total then
      Some (mkResponse 400
              (JSplitMismatch "Split payment amounts must equal the total bill"
                 (splitSum splits) total))
    else if some_not_positive splits then
      Some (mkResponse 400 (JError "Split payment amounts must be positive"))
    else None.
Proof. destruct splits; [congruence|]. reflexivity. Qed.

(** A rejected checkout has read the order and its items, nothing more. *)
Lemma checkout_rejected w id body o r :
  orderOf w id = Some o ->
  routes.checkSplitPayments (CheckoutBody.splitPayments body)
    (billTotal (itemsOf w id)) = Some r ->
  routes.post_order_checkout id body w = (Ok r, w).
Proof.
  intros Ho Hc. unfold routes.post_order_checkout.
  rewrite (bind_ok _ _ _ _ _ (getOrder_run w id)), Ho.
  rewrite (bind_ok _ _ _ _ _ (getOrderItems_run w id)).
  fold (billTotal (itemsOf w id)). rewrite Hc. reflexivity.
Qed.

(** A checkout that passes the check is answered 200 and leaves the order
    paid. *)
Lemma checkout_accepted w id body o :
  orderOf w id = Some o ->
  routes.checkSplitPayments (CheckoutBody.splitPayments body)
    (billTotal (itemsOf w id)) = None ->
  (exists o' inv,
      result (routes.post_order_checkout id body) w
        = Ok (mkResponse 200
                (JOrderInvoice o' (Some inv) (CheckoutBody.print body)))) /\
  option_map Order.status
    (orderOf (exec (routes.post_order_checkout id body) w) id) = Some "paid".
Proof.
  intros Ho Hc. unfold result, exec, routes.post_order_checkout.
  rewrite (bind_ok _ _ _ _ _ (getOrder_run w id)), Ho.
  rewrite (bind_ok _ _ _ _ _ (getOrderItems_run w id)).
  fold (billTotal (itemsOf w id)). rewrite Hc.
  erewrite bind_ok by reflexivity.
  unfold updated_doc. fold (orderOf w id). rewrite Ho. cbn [option_map].
  match goal with
  | |- context [bind ?m ?k ?w1] => set (rest := bind m k); set (w' := w1)
  end.
  assert (Hr : returns
                 (fun r => exists inv,
                      r = mkResponse 200
                            (JOrderInvoice
                               (Order.set_paid (CheckoutBody.paymentMode body)
                                               (clock w) o)
                               (Some inv) (CheckoutBody.print body)))
                 rest).
  { subst rest. repeat (apply returns_bind; [solve [frame] | intros ?]).
    apply returns_ret. eauto. }
  assert (Hk : keeps (fun w => orders (db w)) rest) by (subst rest; frame).
  split.
  - destruct (Hr w') as (r & -> & inv & ->). eauto.
  - unfold orderOf. rewrite (Hk w'). subst w'. cbn.
    rewrite find_update_first by reflexivity.
    fold (orderOf w id). rewrite Ho. reflexivity.
Qed.

(** Split amounts that add up to the total itself pass the first test,
    whatever the total is. *)
Lemma exact_sum_within_tolerance x : gtb (abs (sub x x)) (Fin 1 2) = false.
Proof.
  destruct x as [[]|[]| |s m e]; try reflexivity.
  unfold sub, SpecFloat.SFsub. rewrite Z.sub_diag. reflexivity.
Qed.

(** C3, amended.  A checkout of an existing order that carries a non-empty
    split list is answered 400, the world unchanged, when
    [Math.abs(splitSum - total) > 0.01] holds of the doubles (the total being
    subtotal plus 5% tax) or when some amount is not positive; otherwise it
    is answered 200 and the order is paid.  Amounts that add up to the total
    itself pass the first test. *)
Theorem split_payment_validation :
  forall (w : World) (id : string) (body : CheckoutBody.t) (o : Order.t)
         (splits : list Split.t),
    orderOf w id = Some o ->
    CheckoutBody.splitPayments body = Some splits ->
    splits <> [] ->
    let total := billTotal (itemsOf w id) in
    let checkout := routes.post_order_checkout id body in
    (off_total splits total = true \/ some_not_positive splits = true ->
       exists r, checkout w = (Ok r, w) /\ code r = 400%nat) /\
    (off_total splits total = false -> some_not_positive splits = false ->
       (exists o' inv,
           result checkout w
             = Ok (mkResponse 200
                     (JOrderInvoice o' (Some inv) (CheckoutBody.print body)))) /\
       option_map Order.status (orderOf (exec checkout w) id) = Some "paid") /\
    (splitSum splits = total -> off_total splits total = false).
Proof.
  intros w id body o splits Ho Hs Hne total checkout.
  pose proof (checkSplit_spec splits total Hne) as Hc.
  split; [|split].
  - intros Hbad.
    destruct (off_total splits total) eqn:E1.
    + eexists. split.
      * eapply checkout_rejected; [exact Ho | rewrite Hs; exact Hc].
      * reflexivity.
    + destruct Hbad as [Hbad|Hbad]; [discriminate|]. rewrite Hbad in Hc.
      eexists. split.
      * eapply checkout_rejected; [exact Ho | rewrite Hs; exact Hc].
      * reflexivity.
  - intros E1 E2. rewrite E1, E2 in Hc.
    apply (checkout_accepted w id body o Ho). rewrite Hs. exact Hc.
  - intros E. unfold off_total. rewrite E. apply exact_sum_within_tolerance.
Qed.

(** Total 210.00: the splits 100 + 110 are accepted and 100 + 100 rejected;
    100 + 110.01 is accepted and 100 + 110.02 rejected. *)
Lemma split_payment_validation_witness :
  toFixed2 (billTotal (itemsOf world_bill_210 "o1")) = "210.00" /\
  (exists o' inv,
      result (routes.post_order_checkout "o1" (split_checkout [10000; 11000]%Z))
             world_bill_210
        = Ok (mkResponse 200 (JOrderInvoice o' (Some inv) false))) /\
  (exists r,
      routes.post_order_checkout "o1" (split_checkout [10000; 10000]%Z)
                                 world_bill_210
        = (Ok r, world_bill_210) /\ code r = 400%nat) /\
  (exists o' inv,
      result (routes.post_order_checkout "o1" (split_checkout [10000; 11001]%Z))
             world_bill_210
        = Ok (mkResponse 200 (JOrderInvoice o' (Some inv) false))) /\
  (exists r,
      routes.post_order_checkout "o1" (split_checkout [10000; 11002]%Z)
                                 world_bill_210
        = (Ok r, world_bill_210) /\ code r = 400%nat).
Proof.
  pose (o := sample_order "o1" (Some "t1") "billed").
  pose (mk := map (fun a => Split.mk (of_Z 1) (Fin a 2) "cash")).
  split; [vm_compute; reflexivity|].
  split; [|split; [|split]].
  - refine (proj1 (proj1 (proj2
      (split_payment_validation world_bill_210 "o1"
         (split_checkout [10000; 11000]%Z) o (mk [10000; 11000]%Z)
         eq_refl eq_refl _)) _ _));
      [discriminate | vm_compute; reflexivity | vm_compute; reflexivity].
  - refine (proj1
      (split_payment_validation world_bill_210 "o1"
         (split_checkout [10000; 10000]%Z) o (mk [10000; 10000]%Z)
         eq_refl eq_refl _) _); [discriminate | left; vm_compute; reflexivity].
  - refine (proj1 (proj1 (proj2
      (split_payment_validation world_bill_210 "o1"
         (split_checkout [10000; 11001]%Z) o (mk [10000; 11001]%Z)
         eq_refl eq_refl _)) _ _));
      [discriminate | vm_compute; reflexivity | vm_compute; reflexivity].
  - refine (proj1
      (split_payment_validation world_bill_210 "o1"
         (split_checkout [10000; 11002]%Z) o (mk [10000; 11002]%Z)
         eq_refl eq_refl _) _); [discriminate | left; vm_compute; reflexivity].
Defined.

(** C3 as stated fails at the boundary: the total is 105.00 and the one split
    amount is 105.01, so the amounts add up to the total plus 0.01, and the
    checkout is rejected without a change: the doubles give
    [105.01 - 105 = 0.010000000000005116]. *)
Lemma split_boundary_counterexample :
  let w := world_bill_105 in
  let body := split_checkout [10501]%Z in
  toFixed2 (billTotal (itemsOf w "o1")) = "105.00" /\
  billTotal (itemsOf w "o1") = of_Z 105 /\
  CheckoutBody.splitPayments body
    = Some [Split.mk (of_Z 1) (Fin 10501 2) "cash"] /\
  toString (abs (sub (Fin 10501 2) (of_Z 105))) = "0.010000000000005116" /\
  routes.post_order_checkout "o1" body w
    = (Ok (mkResponse 400
             (JSplitMismatch "Split payment amounts must equal the total bill"
                (Fin 10501 2) (of_Z 105))), w).
Proof. vm_compute. repeat split. Qed.

Lemma bind_try_unit {B} (m : M unit) (k : unit -> M B) w :
  bind (try_catch m (fun _ => ret tt)) k w = k tt (snd (m w)).
Proof.
  unfold bind, try_catch. destruct (m w) as [[[]|e] w']; reflexivity.
Qed.

Lemma nothrow_run {A} (m : M A) w :
  nothrow m -> exists a w', m w = (Ok a, w').
Proof.
  intros H. destruct (H w) as [a Ha]. exists a, (snd (m w)).
  rewrite <- Ha. apply run_eta.
Qed.

Lemma floorNameOf_run ti w : exists fn, floorNameOf ti w = (Ok fn, w).
Proof.
  unfold floorNameOf. destruct ti as [t|]; [|eexists; reflexivity].
  destruct (truthy_str _); eexists; reflexivity.
Qed.

Lemma composeInvoice_run order items ti pmode status w :
  exists inv,
    Invoice.splitPayments inv = None /\
    forall sp,
      routes.composeInvoice order items ti pmode sp status w
        = (Ok (with_splitPayments sp inv),
           add_invoice (with_splitPayments sp inv) w).
Proof.
  unfold routes.composeInvoice.
  destruct (floorNameOf_run ti w) as [fn Efn].
  eexists (Invoice.mk _ _ _ _ _ _ _ _ _ _ _ _ None _ _ _ _ _).
  split; [reflexivity|]. intros sp.
  rewrite (bind_ok _ _ w (invoices (db w)) w) by reflexivity.
  rewrite (bind_ok _ _ _ _ _ Efn).
  unfold storage.createInvoice, bind, randomUUID, new_Date, modify_db, ret,
    with_splitPayments, add_invoice, with_db.
  cbn. reflexivity.
Qed.

(** C10.  A checkout whose [splitPayments] is the empty list skips the
    split-payment check and, on an existing order, does what the same
    checkout without [splitPayments] does, answer and world alike, except
    that the invoice it writes stores the serialized empty list where the
    other stores [null]. *)
Theorem empty_split_list_not_validated :
  forall (w : World) (id : string) (pm : option string) (pr : bool)
         (o : Order.t),
    orderOf w id = Some o ->
    let none := routes.post_order_checkout id (CheckoutBody.mk pm pr None) in
    let empty := routes.post_order_checkout id (CheckoutBody.mk pm pr (Some [])) in
    let stored := Some (Stringified (@nil Split.t)) in
    (forall total, routes.checkSplitPayments (Some []) total = None) /\
    exists paid inv others,
      result none w = Ok (mkResponse 200 (JOrderInvoice paid (Some inv) pr)) /\
      Invoice.splitPayments inv = None /\
      result empty w
        = Ok (mkResponse 200
                (JOrderInvoice paid (Some (with_splitPayments stored inv)) pr)) /\
      invoices (db (exec none w)) = (others ++ [inv])%list /\
      exec empty w
        = with_db (with_invoices
                     (fun _ => (others ++ [with_splitPayments stored inv])%list))
                  (exec none w).
Proof.
  intros w id pm pr o Ho none empty stored. split; [reflexivity|].
  subst none empty. unfold result, exec, routes.post_order_checkout.
  rewrite !(bind_ok _ _ _ _ _ (getOrder_run w id)), Ho.
  rewrite !(bind_ok _ _ _ _ _ (getOrderItems_run w id)).
  cbn [CheckoutBody.splitPayments CheckoutBody.paymentMode CheckoutBody.print
       routes.checkSplitPayments option_map].
  set (w1 := snd (storage.checkoutOrder id pm w)).
  rewrite !(bind_ok _ _ w (Some (Order.set_paid pm (clock w) o)) w1)
    by (unfold storage.checkoutOrder, storage.update_order, new_Date, bind,
          updated_doc; cbn; fold (orderOf w id); rewrite Ho; reflexivity).
  set (paid := Order.set_paid pm (clock w) o).
  match goal with
  | |- context [bind ?m _ w1] =>
      destruct (nothrow_run m w1 ltac:(frame)) as (ti & w2 & E2)
  end.
  rewrite !(bind_ok _ _ _ _ _ E2).
  match goal with
  | |- context [bind ?m _ w2] =>
      destruct (nothrow_run m w2 ltac:(frame)) as (u & w3 & E3)
  end.
  rewrite !(bind_ok _ _ _ _ _ E3).
  destruct (composeInvoice_run paid (itemsOf w id) ti (or_str pm "cash") "Paid" w3)
    as (inv & Hnone & Hinv).
  rewrite !(bind_ok _ _ _ _ _ (Hinv _)), !bind_try_unit.
  exists paid, (with_splitPayments None inv), (invoices (db w3)).
  subst stored. cbn [ret fst snd].
  set (D := storage.deductInventoryForOrder (Order.id paid)).
  set (patch := with_db (with_invoices
         (fun _ => (invoices (db w3)
                      ++ [with_splitPayments (Some (Stringified [])) inv])%list))).
  replace (add_invoice (with_splitPayments (Some (Stringified [])) inv) w3)
    with (patch (add_invoice (with_splitPayments None inv) w3))
    by reflexivity.
  rewrite (deductInventory_commutes_invoices (Order.id paid) _ _ : D (patch _) = _).
  repeat split.
  apply (deductInventory_keeps_invoices (Order.id paid)).
Qed.

(** On the bill of 210.00 (a positive total against a split sum of zero). *)
Lemma empty_split_list_witness :
  orderOf world_bill_210 "o1" = Some (sample_order "o1" (Some "t1") "billed") /\
  exists paid inv others,
    result (routes.post_order_checkout "o1"
              (CheckoutBody.mk (Some "cash") false None)) world_bill_210
      = Ok (mkResponse 200 (JOrderInvoice paid (Some inv) false)) /\
    Invoice.splitPayments inv = None /\
    result (routes.post_order_checkout "o1"
              (CheckoutBody.mk (Some "cash") false (Some []))) world_bill_210
      = Ok (mkResponse 200
              (JOrderInvoice paid
                 (Some (with_splitPayments (Some (Stringified [])) inv)) false)) /\
    invoices (db (exec (routes.post_order_checkout "o1"
                          (CheckoutBody.mk (Some "cash") false None))
                       world_bill_210))
      = (others ++ [inv])%list /\
    exec (routes.post_order_checkout "o1"
            (CheckoutBody.mk (Some "cash") false (Some []))) world_bill_210
      = with_db (with_invoices
                   (fun _ => (others
                                ++ [with_splitPayments (Some (Stringified [])) inv])%list))
                (exec (routes.post_order_checkout "o1"
                         (CheckoutBody.mk (Some "cash") false None))
                      world_bill_210).
Proof.
  split; [reflexivity|].
  exact (proj2 (empty_split_list_not_validated world_bill_210 "o1"
                  (Some "cash") false _ eq_refl)).
Defined.

(** ** Printing and reading digits *)

Module NumFacts.
Local Open Scope Z_scope.

Lemma pow10_pos k : 0 < pow10 k.
Proof. unfold pow10. apply Z.pow_pos_nonneg; lia. Qed.

(** *** Decimal strings *)


Lemma pow10_S k : pow10 (S k) = 10 * pow10 k.
Proof. unfold pow10. rewrite Nat2Z.inj_succ, Z.pow_succ_r by lia. reflexivity. Qed.

Lemma digit_cases d :
  0 <= d < 10 ->
  d = 0 \/ d = 1 \/ d = 2 \/ d = 3 \/ d = 4 \/ d = 5 \/ d = 6 \/ d = 7 \/
  d = 8 \/ d = 9.
Proof. lia. Qed.

Lemma digit_val_char d : 0 <= d < 10 -> digit_val (digit_char d) = Some d.
Proof.
  intros H. destruct (digit_cases d H) as [->|[->|[->|[->|[->|[->|[->|[->|[->| ->]]]]]]]]];
    reflexivity.
Qed.

Lemma mod10_digit n : 0 <= n mod 10 < 10.
Proof. apply Z.mod_pos_bound. lia. Qed.

(** Printing in front of a longer tail. *)
Lemma print_digits_app fuel n acc rest :
  print_digits fuel n acc ++ rest = print_digits fuel n (acc ++ rest).
Proof.
  revert n acc. induction fuel as [|f IH]; intros n acc; cbn; [reflexivity|].
  destruct (n / 10 =? 0); [reflexivity|]. apply IH.
Qed.

Lemma print_fixed_app k n acc rest :
  print_fixed k n acc ++ rest = print_fixed k n (acc ++ rest).
Proof.
  revert n acc. induction k as [|k IH]; intros n acc; cbn; [reflexivity|].
  apply IH.
Qed.

(** Reading back [k] printed digits. *)
Lemma parse_print_fixed k n acc a c :
  0 <= n ->
  parse_digits (print_fixed k n acc) a c
  = parse_digits acc (a * pow10 k + n mod pow10 k) (c + k).
Proof.
  revert n acc. induction k as [|k IH]; intros n acc Hn.
  - cbn [print_fixed]. change (pow10 0) with 1. rewrite Z.mod_1_r.
    f_equal; [ring | lia].
  - cbn [print_fixed]. rewrite IH by (apply Z.div_pos; lia).
    cbn [parse_digits]. rewrite digit_val_char by apply mod10_digit.
    f_equal; [|lia].
    rewrite pow10_S. pose proof (pow10_pos k).
    rewrite (Z.rem_mul_r n 10 (pow10 k)) by lia. ring.
Qed.

(** Reading back a printed natural number: it has at least one digit. *)
Lemma parse_print_digits f n acc :
  0 <= n < 2 ^ Z.of_nat (S f) ->
  exists d, (1 <= d)%nat /\
    forall a c,
      parse_digits (print_digits (S f) n acc) a c
      = parse_digits acc (a * pow10 d + n) (c + d).
Proof.
  revert n acc. induction f as [|f IH]; intros n acc Hn.
  - exists 1%nat. split; [lia|]. intros a c.
    assert (n / 10 = 0) as E by (apply Z.div_small; cbn in Hn; lia).
    cbn [print_digits]. rewrite E. cbn [Z.eqb parse_digits].
    rewrite digit_val_char by apply mod10_digit.
    rewrite Z.mod_small by (cbn in Hn; lia).
    f_equal; [|lia]. change (pow10 1) with 10. ring.
  - cbn [print_digits]. destruct (n / 10 =? 0) eqn:E.
    + apply Z.eqb_eq in E. exists 1%nat. split; [lia|]. intros a c.
      cbn [parse_digits]. rewrite digit_val_char by apply mod10_digit.
      f_equal; [|lia]. change (pow10 1) with 10.
      pose proof (Z.div_mod n 10). lia.
    + apply Z.eqb_neq in E.
      destruct (IH (n / 10) (String (digit_char (n mod 10)) acc)) as (d & Hd & H).
      { split; [apply Z.div_pos; lia|].
        rewrite (Nat2Z.inj_succ (S f)), Z.pow_succ_r in Hn by lia.
        apply Z.div_lt_upper_bound; lia. }
      exists (S d). split; [lia|]. intros a c. rewrite H.
      cbn [parse_digits]. rewrite digit_val_char by apply mod10_digit.
      f_equal; [|lia]. rewrite pow10_S.
      pose proof (Z.div_mod n 10). lia.
Qed.

Lemma parse_print_nat n rest :
  0 <= n ->
  exists d, (1 <= d)%nat /\
    forall a c,
      parse_digits (print_nat n ++ rest) a c
      = parse_digits rest (a * pow10 d + n) (c + d).
Proof.
  intros Hn. unfold print_nat. rewrite print_digits_app.
  apply parse_print_digits. split; [assumption|].
  destruct (Z.eq_dec n 0) as [->|Hne]; [cbn; lia|].
  rewrite Nat2Z.inj_succ, Z2Nat.id by apply Z.log2_nonneg.
  apply Z.log2_spec. lia.
Qed.

(** A printed natural number starts with a digit. *)
Lemma print_nat_head n rest :
  0 <= n ->
  exists d r, 0 <= d < 10 /\ print_nat n ++ rest = String (digit_char d) r.
Proof.
  intros Hn. unfold print_nat. rewrite print_digits_app.
  generalize (Z.to_nat (Z.log2 n)). intros f. revert n Hn.
  generalize ("" ++ rest). 
  induction f as [|f IH]; intros acc n Hn; cbn [print_digits].
  - destruct (n / 10 =? 0); exists (n mod 10); eexists; (split; [apply mod10_digit|reflexivity]).
  - destruct (n / 10 =? 0).
    + exists (n mod 10); eexists; (split; [apply mod10_digit|reflexivity]).
    + apply IH. apply Z.div_pos; lia.
Qed.

End NumFacts.

(** ** Recipe-based deduction *)

Lemma deduct_unfold id :
  storage.deductInventoryForOrder id
  = (let* orderItems := storage.getOrderItems id in for_of orderItems deductLine).
Proof. reflexivity. Qed.

Lemma with_inventory_same w f :
  f (inventoryItems (db w)) = inventoryItems (db w) ->
  with_db (with_inventoryItems f) w = w.
Proof.
  destruct w as [[] ? ? ? ? ?]. unfold with_db, with_inventoryItems. cbn.
  intros ->. reflexivity.
Qed.

Lemma deducted_nil w : deducted w [] = w.
Proof. apply with_inventory_same. reflexivity. Qed.

Lemma deducted_cons w d ds : deducted w (d :: ds) = deducted (deducted w [d]) ds.
Proof. reflexivity. Qed.

Lemma deducted_app w ds1 ds2 : deducted w (ds1 ++ ds2) = deducted (deducted w ds1) ds2.
Proof.
  unfold deducted, with_db, with_inventoryItems. rewrite fold_left_app.
  reflexivity.
Qed.

(** One turn of the inner loop. *)
Lemma deductIngredient_run item g w :
  deductIngredient item g w
  = (Ok tt,
     deducted w [(RecipeIngredient.inventoryItemId g,
              mul (parseFloat (RecipeIngredient.quantity g))
                  (OrderItem.quantity item))]).
Proof.
  unfold deductIngredient, deducted, storage.getInventoryItem,
    storage.updateInventoryQuantity, bind, get_db, ret, new_Date, updated_doc.
  cbn [fold_left fst snd db]. unfold deduct_one. cbn [fst snd].
  destruct (find _ (inventoryItems (db w))) as [it|] eqn:E.
  - unfold with_db, with_inventoryItems. rewrite E. reflexivity.
  - rewrite with_inventory_same; [reflexivity|]. rewrite E. reflexivity.
Qed.

Lemma ingredients_run item gs w :
  for_of gs (deductIngredient item) w
  = (Ok tt,
     deducted w (map (fun g =>
                    (RecipeIngredient.inventoryItemId g,
                     mul (parseFloat (RecipeIngredient.quantity g))
                         (OrderItem.quantity item))) gs)).
Proof.
  revert w. induction gs as [|g gs IH]; intros w.
  - cbn. rewrite deducted_nil. reflexivity.
  - cbn [for_of map].
    rewrite (bind_ok _ _ _ _ _ (deductIngredient_run item g w)), IH.
    rewrite (deducted_cons w). reflexivity.
Qed.

(** One turn of the outer loop, in a world [w0] that has the recipes of [w]. *)
Lemma deductLine_run w w0 item :
  recipes (db w0) = recipes (db w) ->
  recipeIngredients (db w0) = recipeIngredients (db w) ->
  deductLine item w0 = (Ok tt, deducted w0 (lineDeductions w item)).
Proof.
  intros HR HG.
  unfold deductLine, lineDeductions, storage.getRecipeByMenuItemId,
    storage.getRecipeIngredients, latestRecipe, ingredientsOf.
  unfold bind at 1. unfold get_db at 1, bind at 1, ret at 1. cbn [db fst snd].
  rewrite HR. destruct (fold_left storage.latest _ None) as [r|].
  - unfold bind at 1. unfold bind at 1, get_db at 1, ret at 1. cbn [db fst snd].
    rewrite HG. apply ingredients_run.
  - rewrite deducted_nil. reflexivity.
Qed.

Lemma deduct_run id w :
  storage.deductInventoryForOrder id w = (Ok tt, deducted w (deductions w id)).
Proof.
  rewrite deduct_unfold, (bind_ok _ _ _ _ _ (getOrderItems_run w id)).
  unfold deductions. generalize (itemsOf w id). intros items.
  enough (H : forall w0,
             recipes (db w0) = recipes (db w) ->
             recipeIngredients (db w0) = recipeIngredients (db w) ->
             for_of items deductLine w0
             = (Ok tt, deducted w0 (flat_map (lineDeductions w) items)))
    by (apply H; reflexivity).
  induction items as [|item items IH]; intros w0 HR HG.
  - cbn. rewrite deducted_nil. reflexivity.
  - cbn [for_of flat_map].
    rewrite (bind_ok _ _ _ _ _ (deductLine_run w w0 item HR HG)).
    rewrite deducted_app. apply IH; assumption.
Qed.

Lemma find_update_first_other {A} (p q : A -> bool) f (l : list A) :
  (forall x, p x = true -> q x = false) ->
  (forall x, q (f x) = q x) ->
  find q (update_first p f l) = find q l.
Proof.
  intros Hpq Hf. induction l as [|x r IH]; cbn; [reflexivity|].
  destruct (p x) eqn:Ep; cbn.
  - rewrite Hf, (Hpq x Ep). reflexivity.
  - rewrite IH. reflexivity.
Qed.

Lemma stock_deduct_one now l d inv :
  stock_in (deduct_one now l d) inv
  = if fst d =? inv
    then option_map (fun s => toString (sub (parseFloat s) (snd d)))
                    (stock_in l inv)
    else stock_in l inv.
Proof.
  unfold stock_in, deduct_one. destruct (fst d =? inv) eqn:E.
  - apply String.eqb_eq in E. rewrite E.
    destruct (find _ l) as [it|] eqn:F.
    + rewrite find_update_first by reflexivity. rewrite F. reflexivity.
    + rewrite F. reflexivity.
  - destruct (find (fun i => InventoryItem.id i =? fst d) l) as [it|];
      [|reflexivity].
    rewrite find_update_first_other; [reflexivity| |reflexivity].
    intros x Hx. apply String.eqb_eq in Hx. rewrite Hx. exact E.
Qed.

Lemma stock_after_deductions now ds l inv s :
  stock_in l inv = Some s ->
  stock_in (fold_left (deduct_one now) ds l) inv
  = Some (lowered s (map snd (filter (fun d => fst d =? inv) ds))).
Proof.
  revert l s. induction ds as [|d ds IH]; intros l s Hs; [exact Hs|].
  cbn [fold_left filter].
  pose proof (stock_deduct_one now l d inv) as H1. rewrite Hs in H1.
  destruct (fst d =? inv); cbn [option_map] in H1.
  - rewrite (IH _ _ H1). reflexivity.
  - apply (IH _ _ H1).
Qed.

Lemma keeps_run {X A} (π : World -> X) (m : M A) w r w' :
  keeps π m -> m w = (r, w') -> π w' = π w.
Proof. intros H E. specialize (H w). rewrite E in H. exact H. Qed.

(** An accepted checkout ends in the deduction, run on a world that has the
    kitchen of the start. *)
Lemma checkout_deducts w id body o :
  orderOf w id = Some o ->
  routes.checkSplitPayments (CheckoutBody.splitPayments body)
    (billTotal (itemsOf w id)) = None ->
  exists w4,
    kitchen w4 = kitchen w /\
    exec (routes.post_order_checkout id body) w
    = snd (storage.deductInventoryForOrder id w4).
Proof.
  intros Ho Hc.
  assert (Hid : Order.id o = id).
  { apply find_some in Ho. apply String.eqb_eq, Ho. }
  unfold exec, routes.post_order_checkout.
  rewrite (bind_ok _ _ _ _ _ (getOrder_run w id)), Ho.
  rewrite (bind_ok _ _ _ _ _ (getOrderItems_run w id)).
  fold (billTotal (itemsOf w id)). rewrite Hc.
  set (w1 := snd (storage.checkoutOrder id (CheckoutBody.paymentMode body) w)).
  rewrite (bind_ok _ _ w
             (Some (Order.set_paid (CheckoutBody.paymentMode body) (clock w) o)) w1)
    by (unfold storage.checkoutOrder, storage.update_order, new_Date, bind,
          updated_doc; cbn; fold (orderOf w id); rewrite Ho; reflexivity).
  set (paid := Order.set_paid (CheckoutBody.paymentMode body) (clock w) o).
  match goal with
  | |- context [bind ?m _ w1] =>
      destruct (nothrow_run m w1 ltac:(frame)) as (ti & w2 & E2);
      pose proof (keeps_run kitchen m w1 _ _ ltac:(frame) E2) as K2
  end.
  rewrite (bind_ok _ _ _ _ _ E2).
  match goal with
  | |- context [bind ?m _ w2] =>
      destruct (nothrow_run m w2 ltac:(frame)) as (u & w3 & E3);
      pose proof (keeps_run kitchen m w2 _ _ ltac:(frame) E3) as K3
  end.
  rewrite (bind_ok _ _ _ _ _ E3).
  destruct (composeInvoice_run paid (itemsOf w id) ti
              (or_str (CheckoutBody.paymentMode body) "cash") "Paid" w3)
    as (inv & _ & Hinv).
  rewrite (bind_ok _ _ _ _ _ (Hinv _)), bind_try_unit.
  eexists. split; [|cbn [ret snd]; change (Order.id paid) with (Order.id o); rewrite Hid; reflexivity].
  change (kitchen w3 = kitchen w). rewrite K3, K2. reflexivity.
Qed.

(** C7, amended.  A checkout that is accepted lowers the stock of every
    inventory item once for each line of the order and each ingredient of the
    latest recipe of the line's menu item that names this inventory item, in
    the order of the lines: the stored stock is read, (quantity per unit x
    line quantity) is subtracted and the difference is written back.  When a
    single line and ingredient name the inventory item, the stock is lowered
    by exactly that product.  Nothing floors the result at zero. *)
Theorem stock_after_checkout :
  forall (w : World) (id : string) (body : CheckoutBody.t) (o : Order.t)
         (inv s : string),
    orderOf w id = Some o ->
    routes.checkSplitPayments (CheckoutBody.splitPayments body)
      (billTotal (itemsOf w id)) = None ->
    stockOf w inv = Some s ->
    let w' := exec (routes.post_order_checkout id body) w in
    stockOf w' inv = Some (lowered s (usage w id inv)) /\
    (forall q, usage w id inv = [q] ->
               stockOf w' inv = Some (toString (sub (parseFloat s) q))).
Proof.
  intros w id body o inv s Ho Hc Hs w'.
  assert (E : stockOf w' inv = Some (lowered s (usage w id inv))).
  { subst w'.
    destruct (checkout_deducts w id body o Ho Hc) as (w4 & K & ->).
    rewrite deduct_run. cbn [snd]. unfold kitchen in K.
    injection K as K1 K2 K3 K4 K5.
    assert (Hd : deductions w4 id = deductions w id).
    { unfold deductions, itemsOf, lineDeductions, latestRecipe, ingredientsOf.
      rewrite K1, K2, K3. reflexivity. }
    rewrite Hd.
    apply (stock_after_deductions (clock w4) (deductions w id)
             (inventoryItems (db w4)) inv s).
    unfold stock_in. rewrite K4. exact Hs. }
  split; [exact E|].
  intros q Hq. rewrite E, Hq. reflexivity.
Qed.

(** 150 per unit, quantity 2, stock 1000: the stock ends at 700; with a
    second line of quantity 3 it ends at 250. *)
Lemma stock_after_checkout_witness :
  usage world_kitchen "o1" "inv1" = [mul (parseFloat "150") (of_Z 2)] /\
  stockOf (exec (routes.post_order_checkout "o1" cash_checkout) world_kitchen)
          "inv1" = Some "700" /\
  stockOf (exec (routes.post_order_checkout "o1" cash_checkout)
                world_kitchen_two_lines)
          "inv1" = Some "250".
Proof.
  pose (o := sample_order "o1" (Some "t1") "saved").
  split; [vm_compute; reflexivity|]. split.
  - rewrite (proj2 (stock_after_checkout world_kitchen "o1" cash_checkout o
                      "inv1" "1000" eq_refl eq_refl eq_refl)
               (mul (parseFloat "150") (of_Z 2)))
      by (vm_compute; reflexivity).
    vm_compute. reflexivity.
  - rewrite (proj1 (stock_after_checkout world_kitchen_two_lines "o1"
                      cash_checkout o "inv1" "1000" eq_refl eq_refl eq_refl)).
    vm_compute. reflexivity.
Defined.

(** Nothing floors the stock: from 100 the same order takes it to -200. *)
Example stock_goes_negative :
  stockOf (exec (routes.post_order_checkout "o1" cash_checkout)
                (world_of (with_inventoryItems
                             (map (InventoryItem.set_stock "100" 0))
                             (db world_kitchen))))
          "inv1" = Some "-200".
Proof. vm_compute. reflexivity. Qed.

(** C7 as stated fails when two lines use the same ingredient: the line of
    quantity 2, at 150 per unit, does not lower the stock by exactly 300; the
    stock goes from 1000 to 250. *)
Lemma deduction_counterexample :
  let w := world_kitchen_two_lines in
  let w' := exec (routes.post_order_checkout "o1" cash_checkout) w in
  In (sample_item "i1" "o1" "m1" 2 "100.00" "served") (itemsOf w "o1") /\
  latestRecipe w "m1" = Some (Recipe.mk "r1" "m1" 2) /\
  ingredientsOf w "r1" = [RecipeIngredient.mk "g1" "r1" "inv1" "150" "g"] /\
  stockOf w "inv1" = Some "1000" /\
  stockOf w' "inv1" = Some "250" /\
  ~ same (parseFloat "250")
         (sub (parseFloat "1000") (mul (parseFloat "150") (of_Z 2))).
Proof.
  vm_compute. repeat split; [left; reflexivity | discriminate].
Qed.

(** ** The update pass of the synchronizer *)

Lemma statusMapping_unknown s :
  mapped_status s = false -> digitalMenuSync.statusMapping !! s = None.
Proof.
  unfold mapped_status. rewrite !orb_false_iff, !String.eqb_neq.
  intros [[[[H1 H2] H3] H4] H5].
  unfold digitalMenuSync.statusMapping. cbn [list_to_map foldr uncurry fst snd].
  rewrite !lookup_insert_ne by congruence. apply lookup_empty.
Qed.

Lemma newItemStatus_unknown status :
  (forall s, status = Some s ->
             mapped_status s = false /\ inherited_name s = false) ->
  digitalMenuSync.newItemStatusFor status = digitalMenuSync.Text "new".
Proof.
  intros H. unfold digitalMenuSync.newItemStatusFor, digitalMenuSync.member.
  destruct status as [s|]; cbn [default from_option id].
  - destruct (H s eq_refl) as [Hm Hi].
    unfold inherited_name in Hi. apply orb_false_iff in Hi as [Hi1 Hi2].
    rewrite statusMapping_unknown, Hi1, Hi2 by assumption. reflexivity.
  - rewrite statusMapping_unknown by reflexivity. reflexivity.
Qed.

(** A method of [Object.prototype] is no key of [statusMapping], and it is
    what the lookup gives. *)
Lemma newItemStatus_method name :
  In name digitalMenuSync.objectPrototypeMethods ->
  mapped_status name = false /\
  digitalMenuSync.is_invoice_generated name = false /\
  digitalMenuSync.newItemStatusFor (Some name) = digitalMenuSync.Method name.
Proof.
  unfold digitalMenuSync.objectPrototypeMethods. cbn [In].
  intros H.
  repeat (destruct H as [<-|H]; [repeat split; vm_compute; reflexivity|]).
  contradiction.
Qed.

(** Under unique identifiers an update by identifier is a map. *)
Lemma update_first_by_id (l : list OrderItem.t) k f :
  NoDup (map OrderItem.id l) ->
  (forall x, OrderItem.id (f x) = OrderItem.id x) ->
  update_first (fun i => OrderItem.id i =? k) f l
  = map (fun x => if OrderItem.id x =? k then f x else x) l.
Proof.
  intros Hnd Hf. induction l as [|x r IH]; cbn; [reflexivity|].
  inversion Hnd as [|? ? Hx Hr]; subst.
  destruct (OrderItem.id x =? k) eqn:E.
  - f_equal. apply String.eqb_eq in E. subst k.
    rewrite <- (map_id r) at 1. apply map_ext_in. intros y Hy.
    destruct (OrderItem.id y =? OrderItem.id x) eqn:E'; [|reflexivity].
    apply String.eqb_eq in E'. exfalso. apply Hx. rewrite <- E'. apply in_map, Hy.
  - f_equal. apply IH, Hr.
Qed.

Lemma with_orderItems_ext w f g :
  f (orderItems (db w)) = g (orderItems (db w)) ->
  with_db (with_orderItems f) w = with_db (with_orderItems g) w.
Proof. unfold with_db, with_orderItems. intros ->. reflexivity. Qed.

Lemma with_orderItems_comp w f g :
  with_db (with_orderItems f) (with_db (with_orderItems g) w)
  = with_db (with_orderItems (fun l => f (g l))) w.
Proof. reflexivity. Qed.

Lemma with_orderItems_same w f :
  f (orderItems (db w)) = orderItems (db w) ->
  with_db (with_orderItems f) w = w.
Proof.
  destruct w as [[] ? ? ? ? ?]. unfold with_db, with_orderItems. cbn.
  intros ->. reflexivity.
Qed.

Lemma set_status_same s x :
  OrderItem.status x = s -> OrderItem.set_status s x = x.
Proof. destruct x. cbn. intros ->. reflexivity. Qed.

Lemma setItemStatus_loop s its w :
  NoDup (map OrderItem.id (orderItems (db w))) ->
  for_of its (setItemStatus s) w
  = (Ok tt,
     with_db (with_orderItems
                (map (fun x => if touched s its x
                               then OrderItem.set_status s x else x))) w).
Proof.
  revert w. induction its as [|it its IH]; intros w Hnd.
  - cbn [for_of]. rewrite with_orderItems_same; [reflexivity|].
    cbn. apply map_id.
  - cbn [for_of]. unfold setItemStatus at 1.
    destruct (negb (OrderItem.status it =? s)) eqn:E.
    + unfold bind at 1. unfold bind at 1.
      unfold storage.updateOrderItemStatus at 1. cbn [fst snd].
      unfold ret at 1. rewrite IH.
      2:{ cbn. rewrite update_first_by_id by (assumption || reflexivity).
          rewrite map_map. erewrite map_ext; [exact Hnd|].
          intros x. cbn.
          destruct (OrderItem.id x =? OrderItem.id it); reflexivity. }
      f_equal. rewrite with_orderItems_comp. apply with_orderItems_ext.
      rewrite update_first_by_id by (assumption || reflexivity).
      rewrite map_map. apply map_ext. intros x.
      unfold touched. cbn [existsb]. rewrite E, andb_true_r.
      rewrite (String.eqb_sym (OrderItem.id it)).
      destruct (OrderItem.id x =? OrderItem.id it) eqn:Ex; cbn [orb].
      * destruct (existsb _ its); reflexivity.
      * reflexivity.
    + unfold bind at 1, ret at 1. rewrite IH by assumption.
      f_equal. apply with_orderItems_ext. apply map_ext. intros x.
      unfold touched. cbn [existsb]. rewrite E, andb_false_r. reflexivity.
Qed.

Lemma NoDup_id_inj (l : list OrderItem.t) x y :
  NoDup (map OrderItem.id l) -> In x l -> In y l ->
  OrderItem.id x = OrderItem.id y -> x = y.
Proof.
  induction l as [|z r IH]; cbn; [tauto|].
  intros Hnd Hx Hy E. inversion Hnd as [|? ? Hz Hr]; subst.
  destruct Hx as [->|Hx], Hy as [->|Hy]; auto.
  - exfalso. apply Hz. rewrite E. apply in_map, Hy.
  - exfalso. apply Hz. rewrite <- E. apply in_map, Hx.
Qed.

Lemma touched_filter s pid (l : list OrderItem.t) x :
  NoDup (map OrderItem.id l) -> In x l ->
  (if touched s (filter (fun i => OrderItem.orderId i =? pid) l) x
   then OrderItem.set_status s x else x)
  = if OrderItem.orderId x =? pid then OrderItem.set_status s x else x.
Proof.
  intros Hnd Hx. unfold touched.
  destruct (existsb _ _) eqn:E.
  - apply existsb_exists in E as (it & Hit & Hc).
    apply filter_In in Hit as [Hit Hp].
    apply andb_true_iff in Hc as [Hid _]. apply String.eqb_eq in Hid.
    rewrite <- (NoDup_id_inj l it x Hnd Hit Hx Hid), Hp. reflexivity.
  - destruct (OrderItem.orderId x =? pid) eqn:Hp; [|reflexivity].
    destruct (OrderItem.status x =? s) eqn:Hs.
    + apply String.eqb_eq in Hs. symmetry. apply set_status_same, Hs.
    + exfalso. apply not_true_iff_false in E. apply E.
      apply existsb_exists. exists x. split.
      * apply filter_In. auto.
      * rewrite String.eqb_refl, Hs. reflexivity.
Qed.

Lemma setItemStatus_order s pid w :
  NoDup (map OrderItem.id (orderItems (db w))) ->
  for_of (itemsOf w pid) (setItemStatus s) w
  = (Ok tt, with_db (with_orderItems (all_items_at s pid)) w).
Proof.
  intros Hnd. rewrite setItemStatus_loop by assumption. f_equal.
  apply with_orderItems_ext. unfold all_items_at. apply map_ext_in.
  intros x Hx. apply touched_filter; assumption.
Qed.

Lemma invoice_generated_pending p :
  digitalMenuSync.is_invoice_generated (or_str p "") = false ->
  digitalMenuSync.is_invoice_generated (or_str p "pending") = false.
Proof.
  unfold or_str. destruct (truthy_str p); [auto|]. reflexivity.
Qed.

Lemma updatePOSOrderStatus_unknown w o pid posOrder :
  digitalMenuSync.is_invoice_generated (or_str (DigitalOrder.paymentStatus o) "") = false ->
  digitalMenuSync.is_invoice_generated (or_str (DigitalOrder.status o) "") = false ->
  (forall s, DigitalOrder.status o = Some s ->
             mapped_status s = false /\ inherited_name s = false) ->
  truthy_str (DigitalOrder.posOrderId o) = Some pid ->
  orderOf w pid = Some posOrder ->
  NoDup (map OrderItem.id (orderItems (db w))) ->
  digitalMenuSync.updatePOSOrderStatus o w
  = (Ok tt, with_db (with_orderItems (all_items_at "new" pid)) w).
Proof.
  intros Hp Hs Hm Hpid Ho Hnd.
  assert (Hid : Order.id posOrder = pid).
  { apply find_some in Ho. apply String.eqb_eq, Ho. }
  unfold digitalMenuSync.updatePOSOrderStatus. rewrite Hpid.
  rewrite (bind_ok _ _ _ _ _ (getOrder_run w pid)), Ho.
  rewrite Hp, Hs. cbn [orb]. rewrite newItemStatus_unknown by assumption.
  rewrite Hid, (bind_ok _ _ _ _ _ (getOrderItems_run w pid)).
  apply (setItemStatus_order "new" pid w Hnd).
Qed.

Lemma updatePOSOrderStatus_method w o pid posOrder name :
  digitalMenuSync.is_invoice_generated (or_str (DigitalOrder.paymentStatus o) "") = false ->
  DigitalOrder.status o = Some name ->
  In name digitalMenuSync.objectPrototypeMethods ->
  truthy_str (DigitalOrder.posOrderId o) = Some pid ->
  orderOf w pid = Some posOrder ->
  digitalMenuSync.updatePOSOrderStatus o w = (Ok tt, w).
Proof.
  intros Hp Hs Hin Hpid Ho.
  destruct (newItemStatus_method name Hin) as (_ & Hg & Hm).
  unfold digitalMenuSync.updatePOSOrderStatus. rewrite Hpid.
  rewrite (bind_ok _ _ _ _ _ (getOrder_run w pid)), Ho.
  rewrite Hp, Hs.
  assert (or_str (Some name) "" = name) as ->.
  { unfold or_str, truthy_str. destruct name; [discriminate|reflexivity]. }
  rewrite Hg, Hm. cbn [orb].
  rewrite (bind_ok _ _ _ _ _ (getOrderItems_run w _)).
  generalize (itemsOf w (Order.id posOrder)). intros items.
  induction items as [|item items IH]; [reflexivity|].
  cbn [for_of digitalMenuSync.setItemStatusTo].
  unfold bind at 1, ret at 1. exact IH.
Qed.

Lemma refreshOrder_changed doc o w :
  DigitalOrder.syncedToPOS o = true ->
  changed_since_last w (digitalMenuSync.syntheticId doc o) o ->
  digitalMenuSync.is_invoice_generated
    (or_str (DigitalOrder.paymentStatus o) "") = false ->
  forall w1,
    digitalMenuSync.updatePOSOrderStatus o w = (Ok tt, w1) ->
    digitalMenuSync.refreshOrder doc o w
    = (Ok 1%nat,
       with_sync
         (digitalMenuSync.remember
            (digitalMenuSync.syntheticId doc o) (DigitalOrder.status o)
            (or_str (DigitalOrder.paymentStatus o) "pending") false)
         w1).
Proof.
  intros Hsync Hch Hp w1 Hrun.
  unfold digitalMenuSync.refreshOrder. rewrite Hsync. cbn [negb].
  unfold bind at 1. unfold get_sync at 1.
  rewrite (invoice_generated_pending _ Hp).
  set (changed := orb _ _).
  assert (changed = true) as ->.
  { subst changed. apply orb_true_iff.
    destruct Hch as [(p & -> & Hne)|(p & -> & Hne)]; [left|right].
    - apply negb_true_iff. unfold digitalMenuSync.same_id.
      destruct (DigitalOrder.status o) as [s|]; [|reflexivity].
      apply String.eqb_neq. congruence.
    - apply negb_true_iff, String.eqb_neq, Hne. }
  rewrite (bind_ok _ _ _ _ _ Hrun). reflexivity.
Qed.

(** In the update pass, for an external order that is already synced, whose
    status or payment status differs from the cached observation, whose
    status and payment status are no invoice_generated variant and whose
    status is neither a key of the mapping nor a name that the mapping
    inherits: every item of the linked native order is set to status new
    (item identifiers being unique), and the order counts as updated. *)
Lemma unmapped_status_resets_items
  (w : World) (doc : CustomerDoc.t) (o : DigitalOrder.t)
  (pid : string) (posOrder : Order.t) :
  DigitalOrder.syncedToPOS o = true ->
  changed_since_last w (digitalMenuSync.syntheticId doc o) o ->
  digitalMenuSync.is_invoice_generated
    (or_str (DigitalOrder.paymentStatus o) "") = false ->
  digitalMenuSync.is_invoice_generated
    (or_str (DigitalOrder.status o) "") = false ->
  (forall s, DigitalOrder.status o = Some s ->
             mapped_status s = false /\ inherited_name s = false) ->
  truthy_str (DigitalOrder.posOrderId o) = Some pid ->
  orderOf w pid = Some posOrder ->
  NoDup (map OrderItem.id (orderItems (db w))) ->
  let w' := exec (digitalMenuSync.refreshOrder doc o) w in
  result (digitalMenuSync.refreshOrder doc o) w = Ok 1%nat /\
  orderItems (db w') = all_items_at "new" pid (orderItems (db w)) /\
  (forall item, In item (itemsOf w' pid) -> OrderItem.status item = "new").
Proof.
  intros Hsync Hch Hp Hs Hm Hpid Ho Hnd w'.
  pose proof (refreshOrder_changed doc o w Hsync Hch Hp _
                (updatePOSOrderStatus_unknown w o pid posOrder Hp Hs Hm Hpid
                   Ho Hnd)) as Hrun.
  subst w'. unfold exec, result. rewrite Hrun. cbn [fst snd].
  split; [reflexivity|]. split; [reflexivity|].
  intros item Hin. unfold itemsOf in Hin. cbn in Hin.
  apply filter_In in Hin as [Hin Hpid']. unfold all_items_at in Hin.
  apply in_map_iff in Hin as (x & <- & Hx).
  destruct (OrderItem.orderId x =? pid) eqn:E; [reflexivity|].
  rewrite E in Hpid'. discriminate.
Qed.

(** The external order [d1] moved from confirmed to out_for_delivery: the
    items of [p1] go from preparing and served to new, the item of [p2]
    stays served; a whole [syncOrders] does the same. *)
Example unmapped_status_example :
  map OrderItem.status
      (orderItems (db (exec (digitalMenuSync.refreshOrder customer_c1 external_d1)
                            world_synced)))
    = ["new"; "new"; "served"] /\
  map OrderItem.status
      (orderItems (db (exec digitalMenuSync.syncOrders world_synced)))
    = ["new"; "new"; "served"].
Proof. split; vm_compute; reflexivity. Qed.

(** C9.  The fallback to new misses the names that the mapping inherits.  In
    the update pass, for an external order that is already synced, whose
    status or payment status differs from the cached observation, whose
    payment status is no invoice_generated variant and whose status is the
    name of a method of [Object.prototype] ([constructor], [toString], ...):
    the status lies outside the mapped set, the lookup gives the inherited
    method and not new, the order counts as updated, and the items of the
    linked native order are left as they were. *)
Theorem inherited_status_is_not_reset :
  forall (w : World) (doc : CustomerDoc.t) (o : DigitalOrder.t)
         (pid name : string) (posOrder : Order.t),
    DigitalOrder.syncedToPOS o = true ->
    changed_since_last w (digitalMenuSync.syntheticId doc o) o ->
    digitalMenuSync.is_invoice_generated
      (or_str (DigitalOrder.paymentStatus o) "") = false ->
    DigitalOrder.status o = Some name ->
    In name digitalMenuSync.objectPrototypeMethods ->
    truthy_str (DigitalOrder.posOrderId o) = Some pid ->
    orderOf w pid = Some posOrder ->
    let w' := exec (digitalMenuSync.refreshOrder doc o) w in
    mapped_status name = false /\
    digitalMenuSync.newItemStatusFor (DigitalOrder.status o)
      = digitalMenuSync.Method name /\
    result (digitalMenuSync.refreshOrder doc o) w = Ok 1%nat /\
    orderItems (db w') = orderItems (db w).
Proof.
  intros w doc o pid name posOrder Hsync Hch Hp Hs Hin Hpid Ho w'.
  destruct (newItemStatus_method name Hin) as (Hm & _ & Hl).
  pose proof (refreshOrder_changed doc o w Hsync Hch Hp _
                (updatePOSOrderStatus_method w o pid posOrder name Hp Hs Hin
                   Hpid Ho)) as Hrun.
  subst w'. unfold exec, result. rewrite Hrun, Hs. cbn [fst snd].
  repeat split; assumption.
Qed.

(** The external order [d1] moved from confirmed to constructor: the items of
    [p1] stay at preparing and served, none of them is set to new; a whole
    [syncOrders] does the same. *)
Lemma inherited_status_witness :
  map OrderItem.status
      (orderItems (db (exec (digitalMenuSync.refreshOrder customer_c5 external_d5)
                            world_status_constructor)))
    = ["preparing"; "served"; "served"] /\
  map OrderItem.status
      (orderItems (db (exec digitalMenuSync.syncOrders world_status_constructor)))
    = ["preparing"; "served"; "served"].
Proof.
  split; [|vm_compute; reflexivity].
  destruct (inherited_status_is_not_reset world_status_constructor customer_c5
              external_d5 "p1" "constructor"
              (sample_order "p1" None "sent_to_kitchen")) as (_ & _ & _ & ->).
  - reflexivity.
  - left. exists "confirmed". split; [vm_compute; reflexivity | discriminate].
  - reflexivity.
  - reflexivity.
  - left. reflexivity.
  - reflexivity.
  - reflexivity.
  - reflexivity.
Defined.

(** ** The ingest pass converts an external order once *)


Lemma bumps_bind {A B} π (m : M A) (k : A -> M B) :
  keeps π m -> nothrow m -> (forall a, bumps π (k a)) -> bumps π (bind m k).
Proof.
  intros Hk Hn Hb w. unfold bind. specialize (Hk w).
  destruct (Hn w) as [a Ha]. destruct (m w) as [r w']. cbn in *. subst r.
  rewrite Hb, Hk. reflexivity.
Qed.

Lemma bumps_then_keeps {A B} π (m : M A) (k : A -> M B) :
  bumps π m -> (forall a, keeps π (k a)) -> bumps π (bind m k).
Proof.
  intros Hb Hk w. unfold bind. specialize (Hb w).
  destruct (m w) as [[a|e] w']; cbn in *; [|assumption].
  rewrite Hk. assumption.
Qed.

Lemma createOrder_bumps x :
  bumps (fun w => List.length (orders (db w))) (storage.createOrder x).
Proof. intros w. cbn. rewrite length_app. cbn. lia. Qed.

Lemma convert_creates_one o cn cp :
  bumps (fun w => List.length (orders (db w)))
        (digitalMenuSync.convertAndCreatePOSOrder o cn cp).
Proof.
  unfold digitalMenuSync.convertAndCreatePOSOrder.
  apply bumps_bind; [solve [frame] | solve [frame] | intros tableId].
  cbv zeta. apply bumps_then_keeps; [apply createOrder_bumps | intros posOrder].
  solve [frame].
Qed.

Lemma convert_keeps_memory o cn cp :
  keeps (fun w => (sync w, console w))
        (digitalMenuSync.convertAndCreatePOSOrder o cn cp).
Proof. unfold digitalMenuSync.convertAndCreatePOSOrder. frame. Qed.

Lemma ingest_skip doc o w :
  DigitalOrder.syncedToPOS o = true \/
  digitalMenuSync.is_pending_or_confirmed (DigitalOrder.status o) = false \/
  digitalMenuSync.syntheticId doc o ∈ processedOrderIds (sync w) ->
  digitalMenuSync.ingestOrder doc o w = (Ok 0%nat, w).
Proof.
  unfold digitalMenuSync.ingestOrder. intros [H|[H|H]].
  - rewrite H. reflexivity.
  - rewrite H. destruct (DigitalOrder.syncedToPOS o); reflexivity.
  - destruct (DigitalOrder.syncedToPOS o); [reflexivity|].
    destruct (negb _); [reflexivity|].
    unfold bind, get_sync. rewrite bool_decide_eq_true_2 by assumption.
    reflexivity.
Qed.

Lemma ingest_attempt doc o w :
  DigitalOrder.syncedToPOS o = false ->
  digitalMenuSync.is_pending_or_confirmed (DigitalOrder.status o) = true ->
  digitalMenuSync.syntheticId doc o ∉ processedOrderIds (sync w) ->
  exists n line w',
    digitalMenuSync.ingestOrder doc o w = (Ok n, w') /\
    console w' = (console w ++ [line])%list /\
    attempted_id line = digitalMenuSync.syntheticId doc o /\
    List.length (orders (db w')) = S (List.length (orders (db w))) /\
    processedOrderIds (sync w')
    = match line with
      | LogSynced _ _ =>
          {[ digitalMenuSync.syntheticId doc o ]} ∪ processedOrderIds (sync w)
      | LogSyncFailed _ => processedOrderIds (sync w)
      end.
Proof.
  intros H1 H2 H3. unfold digitalMenuSync.ingestOrder. rewrite H1, H2.
  cbn [negb]. set (oid := digitalMenuSync.syntheticId doc o) in *.
  unfold bind at 1. unfold get_sync at 1.
  rewrite bool_decide_eq_false_2 by assumption.
  unfold try_catch. unfold bind at 1. unfold modify_sync at 1.
  set (wa := with_sync _ w).
  pose proof (convert_keeps_memory o (CustomerDoc.customerName doc)
                (CustomerDoc.customerPhone doc) wa) as Hk.
  pose proof (convert_creates_one o (CustomerDoc.customerName doc)
                (CustomerDoc.customerPhone doc) wa) as Hb.
  unfold bind at 1.
  destruct (digitalMenuSync.convertAndCreatePOSOrder _ _ _ wa) as [[pid|e] wb].
  - cbn [fst snd] in Hk, Hb. injection Hk as Hs Hc.
    eexists _, (LogSynced oid _), _. split; [reflexivity|].
    cbn. rewrite Hs, Hc. repeat split. exact Hb.
  - cbn [fst snd] in Hk, Hb. injection Hk as Hs Hc.
    eexists _, (LogSyncFailed oid), _. split; [reflexivity|].
    cbn. rewrite Hs, Hc. repeat split; [exact Hb|].
    cbn. set_solver.
Qed.

Lemma preserves_ret {A} I (a : A) : preserves I (ret a).
Proof. intros w H. exact H. Qed.

Lemma preserves_bind {A B} I (m : M A) (k : A -> M B) :
  preserves I m -> (forall a, preserves I (k a)) -> preserves I (bind m k).
Proof.
  intros Hm Hk w H. unfold bind. specialize (Hm w H).
  destruct (m w) as [[a|e] w']; cbn in *; [|assumption].
  apply Hk, Hm.
Qed.

Lemma preserves_try_catch {A} I (m : M A) h :
  preserves I m -> (forall e, preserves I (h e)) -> preserves I (try_catch m h).
Proof.
  intros Hm Hh w H. unfold try_catch. specialize (Hm w H).
  destruct (m w) as [[a|e] w']; cbn in *; [assumption|].
  apply Hh, Hm.
Qed.

Lemma preserves_sum_of {A} I (l : list A) body :
  (forall x, preserves I (body x)) ->
  preserves I (digitalMenuSync.sum_of l body).
Proof.
  intros Hb. induction l as [|x r IH]; cbn [digitalMenuSync.sum_of].
  - apply preserves_ret.
  - apply preserves_bind; [apply Hb | intros n].
    apply preserves_bind; [apply IH | intros m; apply preserves_ret].
Qed.

Lemma keeps_preserves {A} w0 (m : M A) :
  keeps observed m -> preserves (sync_inv w0) m.
Proof.
  intros Hk w (log & Hc & Hl & Hnd & Hin & Hst). specialize (Hk w).
  unfold observed in Hk. injection Hk as Hc' Hl' Hp'.
  exists log. rewrite Hc', Hl', Hp'. auto.
Qed.

Lemma synced_ids_app l1 l2 : synced_ids (l1 ++ l2) = (synced_ids l1 ++ synced_ids l2)%list.
Proof. apply flat_map_app. Qed.

Lemma ingest_preserves w0 doc o :
  preserves (sync_inv w0) (digitalMenuSync.ingestOrder doc o).
Proof.
  intros w (log & Hc & Hl & Hnd & Hin & Hst).
  set (oid := digitalMenuSync.syntheticId doc o).
  destruct (DigitalOrder.syncedToPOS o) eqn:H1;
    [rewrite ingest_skip by auto; exists log; auto|].
  destruct (digitalMenuSync.is_pending_or_confirmed (DigitalOrder.status o)) eqn:H2;
    [|rewrite ingest_skip by auto; exists log; auto].
  destruct (decide (oid ∈ processedOrderIds (sync w))) as [H3|H3];
    [rewrite ingest_skip by auto; exists log; auto|].
  destruct (ingest_attempt doc o w H1 H2 H3)
    as (n & line & w' & -> & Hc' & Hid & Hl' & Hp).
  fold oid in Hid, Hp. cbn [snd]. exists (log ++ [line])%list.
  assert (Hfresh : ~ In oid (synced_ids log)) by (intros H; apply H3, Hin, H).
  split; [rewrite Hc', Hc, app_assoc; reflexivity|].
  split; [rewrite Hl', Hl, length_app; cbn; lia|].
  rewrite synced_ids_app. unfold attempted_ids. rewrite Hp.
  destruct line as [i c|i]; cbn in Hid; subst i; cbn [synced_ids flat_map app].
  - split; [|split].
    + apply NoDup_app; [assumption | repeat constructor; intros [] |].
      intros a Ha [<-|[]]. contradiction.
    + intros i [Hi|[<-|[]]]%in_app_or; [|set_solver].
      apply Hin in Hi. set_solver.
    + intros i Hi. destruct (Hst i Hi) as [Hi' Hna]. split; [set_solver|].
      rewrite map_app. intros [H|[<-|[]]]%in_app_or; contradiction.
  - rewrite app_nil_r. split; [assumption|]. split; [assumption|].
    intros i Hi. destruct (Hst i Hi) as [Hi' Hna]. split; [assumption|].
    rewrite map_app. intros [H|[<-|[]]]%in_app_or; contradiction.
Qed.

Lemma sync_inv_refl w : sync_inv w w.
Proof.
  exists []. rewrite app_nil_r. cbn. repeat split; try constructor; try tauto.
  lia.
Qed.

Lemma updatePass_keeps : keeps observed digitalMenuSync.updatePass.
Proof. unfold digitalMenuSync.updatePass. frame. Qed.

Lemma syncOrders_preserves w0 : preserves (sync_inv w0) digitalMenuSync.syncOrders.
Proof.
  unfold digitalMenuSync.syncOrders, digitalMenuSync.ingestPass.
  apply preserves_try_catch; [|intros e; apply preserves_ret].
  apply preserves_bind.
  - apply preserves_bind; [apply keeps_preserves; frame | intros docs].
    apply preserves_sum_of. intros doc. apply preserves_sum_of. intros o.
    apply ingest_preserves.
  - intros synced. apply preserves_bind; [|intros u; apply preserves_ret].
    apply keeps_preserves, updatePass_keeps.
Qed.






Lemma skipn_length_app {A} (l r : list A) : skipn (List.length l) (l ++ r) = r.
Proof. induction l; [reflexivity | assumption]. Qed.




(** * Further properties of the code *)

(** ** Transitions on unknown identifiers *)

(** No order [nope] in the world with one line: completing it is answered
    404 and the store is as before. *)
Lemma unknown_order_witness :
  result (routes.post_order_complete "nope") world_one_line
    = Ok (mkResponse 404 (JError "Order not found")) /\
  db (exec (routes.post_order_complete "nope") world_one_line)
    = db world_one_line.
Proof.
  destruct (unknown_order_not_found world_one_line "nope" eq_refl)
    as (_ & (H1 & H2 & _) & _).
  split; [exact H1 | exact H2].
Defined.

Lemma with_orderItems_id (d : DB) f :
  f (orderItems d) = orderItems d -> with_orderItems f d = d.
Proof. destruct d. unfold with_orderItems. cbn. intros ->. reflexivity. Qed.

Lemma delete_first_none {A} (p : A -> bool) l :
  find p l = None -> delete_first p l = l.
Proof.
  induction l as [|x r IH]; cbn; [reflexivity|].
  destruct (p x); [discriminate|]. intros H. rewrite IH by assumption.
  reflexivity.
Qed.

(** Changing the status of an item, or deleting an item, that does not exist
    is answered 404 and leaves the world as it was. *)
Theorem unknown_item_not_found :
  forall (w : World) (id : string),
    itemOf w id = None ->
    let not_found := (Ok (mkResponse 404 (JError "Order item not found")), w) in
    (forall status, routes.patch_order_item_status id status w = not_found) /\
    routes.delete_order_item id w = not_found.
Proof.
  intros w id H. cbn zeta. unfold itemOf in H. split.
  - intros status. unfold routes.patch_order_item_status. unfold bind at 1.
    unfold storage.updateOrderItemStatus, updated_doc. rewrite H. cbn.
    f_equal. apply with_db_id, with_orderItems_id, update_first_none, H.
  - unfold routes.delete_order_item, storage.getOrderItem, bind, get_db, ret.
    cbn. rewrite H. reflexivity.
Qed.

Lemma unknown_item_witness :
  routes.delete_order_item "nope" world_one_line
  = (Ok (mkResponse 404 (JError "Order item not found")), world_one_line).
Proof.
  apply (unknown_item_not_found world_one_line "nope"). reflexivity.
Defined.

(** ** Orders and their table *)

Lemma find_update_first_twice {A} (p : A -> bool) f g (l : list A) :
  (forall x, p (f x) = p x) -> (forall x, p (g x) = p x) ->
  find p (update_first p g (update_first p f l))
  = option_map (fun x => g (f x)) (find p l).
Proof.
  intros Hf Hg. rewrite find_update_first by assumption.
  rewrite find_update_first by assumption.
  destruct (find p l); reflexivity.
Qed.

(** POST /api/orders with a table: the order is stored under the next
    identifier with the defaults of [createOrder], and the table is bound to
    it and occupied. *)
Theorem new_order_occupies_table :
  forall (w : World) (body : InsertOrder.t) (tid : string) (t : Table.t),
    truthy_str (InsertOrder.tableId body) = Some tid ->
    tableOf w tid = Some t ->
    let w' := exec (routes.post_orders body) w in
    exists order,
      result (routes.post_orders body) w = Ok (mkResponse 200 (JOrder order)) /\
      Order.id order = uuids w (drawn w) /\
      Order.status order = default "saved" (InsertOrder.status body) /\
      orders (db w') = (orders (db w) ++ [order])%list /\
      tableOf w' tid
      = Some (Table.set_status "occupied"
                (Table.set_currentOrderId (Some (Order.id order)) t)).
Proof.
  intros w body tid t Htid Ht w'. subst w'.
  unfold exec, result, routes.post_orders, storage.createOrder.
  unfold_storage. unfold_monad. cbn.
  rewrite Htid. cbn. eexists. split; [reflexivity|].
  split; [reflexivity|]. split; [reflexivity|]. split; [reflexivity|].
  unfold tableOf in *. cbn.
  rewrite find_update_first_twice by reflexivity. rewrite Ht. reflexivity.
Qed.

Lemma new_order_occupies_table_witness :
  tableOf (exec (routes.post_orders
                   (InsertOrder.mk (Some "t1") "dine-in" None None None None
                                   None None None None None))
                world_unsynced) "t1"
  = Some (Table.mk "t1" "1" 4 "occupied" (Some "uuid-0") None).
Proof.
  destruct (new_order_occupies_table world_unsynced
              (InsertOrder.mk (Some "t1") "dine-in" None None None None
                              None None None None None)
              "t1" (Table.mk "t1" "1" 4 "free" None None)
              eq_refl eq_refl) as (o & _ & Hid & _ & _ & Ht).
  rewrite Ht, Hid. reflexivity.
Defined.

(** POST /api/orders/:id/complete on an order with a table: the order is
    completed at the current time, the table is free and bound to no order;
    items, invoices and inventory are as they were. *)
Theorem complete_frees_table :
  forall (w : World) (id tid : string) (o : Order.t) (t : Table.t),
    orderOf w id = Some o ->
    truthy_str (Order.tableId o) = Some tid ->
    tableOf w tid = Some t ->
    let w' := exec (routes.post_order_complete id) w in
    result (routes.post_order_complete id) w
      = Ok (mkResponse 200 (JOrder (Order.set_completed (clock w) o))) /\
    orderOf w' id = Some (Order.set_completed (clock w) o) /\
    tableOf w' tid
      = Some (Table.set_status "free" (Table.set_currentOrderId None t)) /\
    orderItems (db w') = orderItems (db w) /\
    invoices (db w') = invoices (db w) /\
    inventoryItems (db w') = inventoryItems (db w).
Proof.
  intros w id tid o t Ho Htid Ht w'. subst w'.
  unfold exec, result, routes.post_order_complete.
  unfold_storage. unfold_monad. cbn.
  unfold orderOf, tableOf in *. rewrite Ho. cbn. rewrite Htid. cbn.
  split; [reflexivity|]. split.
  { rewrite find_update_first by reflexivity. rewrite Ho. reflexivity. }
  split; [|repeat split].
  rewrite find_update_first_twice by reflexivity. rewrite Ht. reflexivity.
Qed.

Lemma complete_frees_table_witness :
  tableOf (exec (routes.post_order_complete "o1") world_one_line) "t1"
  = Some (Table.mk "t1" "1" 4 "free" None None).
Proof.
  destruct (complete_frees_table world_one_line "o1" "t1"
              (sample_order "o1" (Some "t1") "saved")
              (Table.mk "t1" "1" 4 "occupied" (Some "o1") None)
              eq_refl eq_refl eq_refl) as (_ & _ & Ht & _).
  rewrite Ht. reflexivity.
Defined.

Lemma find_app_none {A} (p : A -> bool) l x :
  find p l = None -> find p (l ++ [x])%list = if p x then Some x else None.
Proof.
  induction l as [|y r IH]; cbn; [reflexivity|].
  destruct (p y); [discriminate | exact IH].
Qed.

Lemma update_first_app_none {A} (p : A -> bool) f l x :
  find p l = None ->
  update_first p f (l ++ [x])%list = (l ++ [if p x then f x else x])%list.
Proof.
  induction l as [|y r IH]; cbn.
  - destruct (p x); reflexivity.
  - destruct (p y); [discriminate|]. intros H. rewrite IH by assumption.
    reflexivity.
Qed.

(** An order placed on a free table and then completed leaves the table as
    it found it: free and bound to no order. *)
Theorem place_then_complete_restores_table :
  forall (w : World) (body : InsertOrder.t) (tid : string) (t : Table.t),
    truthy_str (InsertOrder.tableId body) = Some tid ->
    tableOf w tid = Some t ->
    Table.status t = "free" ->
    Table.currentOrderId t = None ->
    orderOf w (uuids w (drawn w)) = None ->
    let id := uuids w (drawn w) in
    let w1 := exec (routes.post_orders body) w in
    let w2 := exec (routes.post_order_complete id) w1 in
    option_map Order.status (orderOf w2 id) = Some "completed" /\
    tableOf w1 tid <> Some t /\
    tableOf w2 tid = Some t.
Proof.
  intros w body tid t Htid Ht Hfree Hnone Hfresh id w1 w2.
  subst w1 w2 id.
  unfold exec, routes.post_orders, routes.post_order_complete,
    storage.createOrder.
  unfold_storage. unfold_monad. cbn.
  rewrite Htid. cbn.
  unfold orderOf, tableOf in *. cbn.
  rewrite find_app_none by assumption. cbn. rewrite String.eqb_refl. cbn.
  rewrite Htid. cbn.
  rewrite update_first_app_none by assumption. cbn. rewrite String.eqb_refl.
  rewrite find_app_none by assumption. cbn. rewrite String.eqb_refl. cbn.
  split; [reflexivity|].
  rewrite !find_update_first_twice by reflexivity.
  rewrite Ht. cbn.
  split.
  - destruct t. cbn in *. subst. intros [=].
  - destruct t. cbn in *. subst. reflexivity.
Qed.

Lemma place_then_complete_witness :
  let body := InsertOrder.mk (Some "t1") "dine-in" None None None None
                             None None None None None in
  tableOf (exec (routes.post_order_complete "uuid-0")
                (exec (routes.post_orders body) world_unsynced)) "t1"
  = tableOf world_unsynced "t1".
Proof.
  intros body.
  destruct (place_then_complete_restores_table world_unsynced body "t1"
              (Table.mk "t1" "1" 4 "free" None None)
              eq_refl eq_refl eq_refl eq_refl eq_refl) as (_ & _ & H).
  exact H.
Defined.

(** ** Invoices *)

Lemma parse_zeros k s :
  parse_digits (String.concat "" (repeat "0" k) ++ s) 0 0
  = let '(v, c, r) := parse_digits s 0 0 in (v, (k + c)%nat, r).
Proof.
  assert (Hc : forall s a c c',
             parse_digits s a (c + c')
             = let '(v, n, r) := parse_digits s a c in (v, (n + c')%nat, r)).
  { clear. induction s as [|ch s IH]; intros a c c'; cbn; [reflexivity|].
    destruct (digit_val ch); [|reflexivity].
    change (S (c + c')) with (S c + c')%nat. apply IH. }
  induction k as [|k IH].
  - change (String.concat "" (repeat "0" 0) ++ s) with s.
    destruct (parse_digits s 0 0) as [[v c] r]. reflexivity.
  - assert (E : String.concat "" (repeat "0" (S k)) ++ s
                = String "0" (String.concat "" (repeat "0" k) ++ s)).
    { clear. cbn [repeat]. destruct k; cbn; reflexivity. }
    rewrite E. cbn [parse_digits]. change (digit_val "0") with (Some 0%Z).
    cbv iota beta. change (10 * 0 + 0)%Z with 0%Z.
    rewrite (Hc _ 0%Z 0%nat 1%nat), IH.
    destruct (parse_digits s 0 0) as [[v c] r].
    f_equal. f_equal. lia.
Qed.

(** The number of an invoice can be read back from its name. *)
Lemma invoiceNumber_value n :
  fst (fst (parse_digits (padStart0 4 (print_nat (Z.of_nat (n + 1)))) 0 0))
  = Z.of_nat (n + 1).
Proof.
  unfold padStart0. rewrite parse_zeros.
  destruct (NumFacts.parse_print_nat (Z.of_nat (n + 1)) "") as (d & _ & H);
    [lia|].
  assert (E : print_nat (Z.of_nat (n + 1)) ++ "" = print_nat (Z.of_nat (n + 1))).
  { generalize (print_nat (Z.of_nat (n + 1))). clear.
    induction s as [|ch s IH]; [reflexivity|].
    change (String ch s ++ "") with (String ch (s ++ "")). rewrite IH.
    reflexivity. }
  rewrite E in H. rewrite H. cbn. lia.
Qed.

Lemma invoiceNumberFor_inj n m : invoiceNumberFor n = invoiceNumberFor m -> n = m.
Proof.
  intros H. unfold invoiceNumberFor in H. apply String.app_inj in H.
  pose proof (invoiceNumber_value n) as Hn.
  pose proof (invoiceNumber_value m) as Hm.
  rewrite H in Hn. lia.
Qed.

(** Different counts give different invoice numbers, also beyond the four
    digits of the padding. *)
Theorem invoiceNumberFor_distinct :
  forall n m : nat, n <> m -> invoiceNumberFor n <> invoiceNumberFor m.
Proof. intros n m Hne H. apply Hne, invoiceNumberFor_inj, H. Qed.

Lemma invoiceNumberFor_witness :
  invoiceNumberFor 8 = "INV-0009" /\ invoiceNumberFor 9 = "INV-0010" /\
  invoiceNumberFor 8 <> invoiceNumberFor 9.
Proof.
  split; [reflexivity|]. split; [reflexivity|].
  apply invoiceNumberFor_distinct. discriminate.
Defined.

Lemma numbered_NoDup l : numbered l -> NoDup (map Invoice.invoiceNumber l).
Proof.
  unfold numbered. intros ->. apply Finite.Injective_map_NoDup.
  - intros n m. apply invoiceNumberFor_inj.
  - apply seq_NoDup.
Qed.

Lemma numbered_app l inv :
  numbered l ->
  Invoice.invoiceNumber inv = invoiceNumberFor (List.length l) ->
  numbered (l ++ [inv]).
Proof.
  unfold numbered. intros Hl Hi.
  rewrite map_app, length_app, seq_app, map_app, Hl. cbn. rewrite Hi.
  reflexivity.
Qed.

(** What [composeInvoice] writes. *)
Lemma composeInvoice_appends order items ti pmode sp status w :
  exists inv,
    routes.composeInvoice order items ti pmode sp status w
      = (Ok inv, add_invoice inv w) /\
    Invoice.invoiceNumber inv = invoiceNumberFor (List.length (invoices (db w))) /\
    Invoice.orderId inv = Order.id order /\
    Invoice.status inv = status /\
    Invoice.subtotal inv = toFixed2 (sumItems items) /\
    Invoice.total inv = toFixed2 (billTotal items).
Proof.
  unfold routes.composeInvoice.
  destruct (floorNameOf_run ti w) as [fn Efn].
  eexists. split.
  - rewrite (bind_ok _ _ w (invoices (db w)) w) by reflexivity.
    rewrite (bind_ok _ _ _ _ _ Efn).
    unfold storage.createInvoice, bind, randomUUID, new_Date, modify_db, ret,
      add_invoice, with_db.
    cbn. reflexivity.
  - cbn. repeat split.
Qed.

Lemma tableInfo_run (tableId : option string) w :
  exists t,
    match truthy_str tableId with
    | Some tableId => storage.getTable tableId
    | None => ret None
    end w = (Ok t, w).
Proof. destruct (truthy_str _); eexists; reflexivity. Qed.

Lemma order_id_found w id o : orderOf w id = Some o -> Order.id o = id.
Proof. intros H. apply find_some in H. apply String.eqb_eq, H. Qed.

Lemma orderOf_updated w id f o :
  orderOf w id = Some o -> (forall x, Order.id (f x) = Order.id x) ->
  orderOf (with_db (with_orders
                      (update_first (fun o => Order.id o =? id) f)) w) id
  = Some (f o).
Proof.
  intros Ho Hf. unfold orderOf in *. cbn.
  rewrite find_update_first by (intros x; rewrite Hf; reflexivity).
  rewrite Ho. reflexivity.
Qed.

Lemma bill_run w id print o :
  orderOf w id = Some o ->
  let w1 := with_db (with_orders
                       (update_first (fun o => Order.id o =? id)
                                     (Order.set_billed (clock w)))) w in
  exists inv,
    routes.post_order_bill id print w
      = (Ok (mkResponse 200
               (JOrderInvoice (Order.set_billed (clock w) o) (Some inv) print)),
         add_invoice inv w1) /\
    Invoice.invoiceNumber inv = invoiceNumberFor (List.length (invoices (db w))) /\
    Invoice.orderId inv = id /\
    Invoice.status inv = "Billed" /\
    Invoice.total inv = toFixed2 (billTotal (itemsOf w id)).
Proof.
  intros Ho w1. pose proof (order_id_found _ _ _ Ho) as Hid.
  unfold routes.post_order_bill, storage.billOrder.
  unfold bind at 1. unfold bind at 1. unfold new_Date at 1.
  unfold storage.update_order at 1. unfold updated_doc.
  fold (orderOf w id). rewrite Ho. cbn [option_map fst snd]. fold w1.
  rewrite (bind_ok _ _ _ _ _ (getOrderItems_run w1 id)).
  destruct (tableInfo_run (Order.tableId (Order.set_billed (clock w) o)) w1)
    as [t Et].
  rewrite (bind_ok _ _ _ _ _ Et).
  destruct (composeInvoice_appends (Order.set_billed (clock w) o)
              (itemsOf w1 id) t
              (or_str (Order.paymentMode (Order.set_billed (clock w) o)) "cash")
              None "Billed" w1) as (inv & E & Hn & Hoid & Hs & _ & Ht).
  rewrite (bind_ok _ _ _ _ _ E).
  exists inv. split; [reflexivity|]. split; [exact Hn|].
  split; [rewrite Hoid; exact Hid|]. split; [exact Hs | exact Ht].
Qed.

(** POST /api/orders/:id/bill on an existing order: the order is billed at
    the current time and one invoice is written for it, with the next number,
    status Billed and the total of the bill; the tables and the inventory are
    as they were. *)
Theorem bill_writes_next_invoice :
  forall (w : World) (id : string) (print : bool) (o : Order.t),
    orderOf w id = Some o ->
    let w' := exec (routes.post_order_bill id print) w in
    exists inv,
      result (routes.post_order_bill id print) w
        = Ok (mkResponse 200
                (JOrderInvoice (Order.set_billed (clock w) o) (Some inv) print)) /\
      invoices (db w') = (invoices (db w) ++ [inv])%list /\
      Invoice.invoiceNumber inv = invoiceNumberFor (List.length (invoices (db w))) /\
      Invoice.orderId inv = id /\
      Invoice.status inv = "Billed" /\
      Invoice.total inv = toFixed2 (billTotal (itemsOf w id)) /\
      orderOf w' id = Some (Order.set_billed (clock w) o) /\
      tables (db w') = tables (db w) /\
      inventoryItems (db w') = inventoryItems (db w).
Proof.
  intros w id print o Ho w'. subst w'.
  destruct (bill_run w id print o Ho) as (inv & E & Hn & Hoid & Hs & Ht).
  unfold exec, result. rewrite E. cbn [fst snd].
  exists inv. do 5 (split; [first [reflexivity | assumption]|]).
  split; [assumption|]. split; [|split; reflexivity].
  apply (orderOf_updated w id (Order.set_billed (clock w)) o Ho).
  reflexivity.
Qed.

Lemma bill_writes_next_invoice_witness :
  exists inv,
    invoices (db (exec (routes.post_order_bill "o1" true) world_one_line))
    = [inv] /\
    Invoice.invoiceNumber inv = "INV-0001" /\ Invoice.total inv = "417.90".
Proof.
  destruct (bill_writes_next_invoice world_one_line "o1" true
              (sample_order "o1" (Some "t1") "saved") eq_refl)
    as (inv & _ & E & Hn & _ & _ & Ht & _).
  exists inv. split; [exact E|]. split; [exact Hn | exact Ht].
Defined.

Lemma save_run w id o :
  orderOf w id = Some o ->
  let w1 := with_db (with_orders
                       (update_first (fun o => Order.id o =? id)
                                     (Order.set_status "saved"))) w in
  routes.post_order_save id false w
    = (Ok (mkResponse 200
             (JOrderInvoice (Order.set_status "saved" o) None false)), w1) /\
  exists inv,
    routes.post_order_save id true w
      = (Ok (mkResponse 200
               (JOrderInvoice (Order.set_status "saved" o) (Some inv) true)),
         add_invoice inv w1) /\
    Invoice.invoiceNumber inv = invoiceNumberFor (List.length (invoices (db w))) /\
    Invoice.orderId inv = id /\
    Invoice.status inv = "Saved" /\
    Invoice.total inv = toFixed2 (billTotal (itemsOf w id)).
Proof.
  intros Ho w1. pose proof (order_id_found _ _ _ Ho) as Hid.
  assert (Hup : storage.updateOrderStatus id "saved" w
                = (Ok (Some (Order.set_status "saved" o)), w1)).
  { unfold storage.updateOrderStatus, storage.update_order, updated_doc.
    fold (orderOf w id). rewrite Ho. reflexivity. }
  unfold routes.post_order_save. rewrite !(bind_ok _ _ _ _ _ Hup).
  split; [reflexivity|].
  cbv beta iota. unfold bind at 1.
  rewrite (bind_ok _ _ _ _ _ (getOrderItems_run w1 id)).
  destruct (tableInfo_run (Order.tableId (Order.set_status "saved" o)) w1)
    as [t Et].
  rewrite (bind_ok _ _ _ _ _ Et).
  destruct (composeInvoice_appends (Order.set_status "saved" o)
              (itemsOf w1 id) t
              (or_str (Order.paymentMode (Order.set_status "saved" o)) "cash")
              None "Saved" w1) as (inv & E & Hn & Hoid & Hs & _ & Ht).
  rewrite (bind_ok _ _ _ _ _ E).
  exists inv. split; [reflexivity|]. split; [exact Hn|].
  split; [rewrite Hoid; exact Hid|]. split; [exact Hs | exact Ht].
Qed.

(** POST /api/orders/:id/save on an existing order: the order is saved; an
    invoice is written only when printing is asked for, then with the next
    number and status Saved. *)
Theorem save_writes_invoice_when_printing :
  forall (w : World) (id : string) (o : Order.t),
    orderOf w id = Some o ->
    let quiet := exec (routes.post_order_save id false) w in
    let printed := exec (routes.post_order_save id true) w in
    result (routes.post_order_save id false) w
      = Ok (mkResponse 200
              (JOrderInvoice (Order.set_status "saved" o) None false)) /\
    invoices (db quiet) = invoices (db w) /\
    orderOf quiet id = Some (Order.set_status "saved" o) /\
    exists inv,
      result (routes.post_order_save id true) w
        = Ok (mkResponse 200
                (JOrderInvoice (Order.set_status "saved" o) (Some inv) true)) /\
      invoices (db printed) = (invoices (db w) ++ [inv])%list /\
      Invoice.invoiceNumber inv = invoiceNumberFor (List.length (invoices (db w))) /\
      Invoice.orderId inv = id /\
      Invoice.status inv = "Saved" /\
      Invoice.total inv = toFixed2 (billTotal (itemsOf w id)).
Proof.
  intros w id o Ho quiet printed. subst quiet printed.
  destruct (save_run w id o Ho) as (Eq & inv & Ep & Hn & Hoid & Hs & Ht).
  unfold exec, result. rewrite Eq, Ep. cbn [fst snd].
  split; [reflexivity|]. split; [reflexivity|].
  split; [apply (orderOf_updated w id (Order.set_status "saved") o Ho);
          reflexivity|].
  exists inv. repeat split; assumption.
Qed.

Lemma save_writes_invoice_witness :
  List.length (invoices (db (exec (routes.post_order_save "o1" false)
                                  world_one_line))) = 0%nat /\
  List.length (invoices (db (exec (routes.post_order_save "o1" true)
                                  world_one_line))) = 1%nat.
Proof.
  destruct (save_writes_invoice_when_printing world_one_line "o1"
              (sample_order "o1" (Some "t1") "saved") eq_refl)
    as (_ & -> & _ & inv & _ & -> & _).
  split; reflexivity.
Defined.

Lemma keeps_numbered {A} (m : M A) :
  keeps (fun w => invoices (db w)) m ->
  preserves (fun w => numbered (invoices (db w))) m.
Proof. intros Hk w H. rewrite (Hk w). exact H. Qed.

Lemma composeInvoice_numbered order items ti pmode sp status :
  preserves (fun w => numbered (invoices (db w)))
            (routes.composeInvoice order items ti pmode sp status).
Proof.
  intros w H.
  destruct (composeInvoice_appends order items ti pmode sp status w)
    as (inv & -> & Hn & _).
  cbn. apply numbered_app; assumption.
Qed.

Lemma createInvoice_numbered ti (mk : nat -> option string -> InsertInvoice.t) :
  (forall n fn, InsertInvoice.invoiceNumber (mk n fn) = invoiceNumberFor n) ->
  preserves (fun w => numbered (invoices (db w)))
    (let* invoices := storage.getInvoices in
     let* floorName := floorNameOf ti in
     do* storage.createInvoice (mk (List.length invoices) floorName) in
     ret tt).
Proof.
  intros Hmk w H.
  rewrite (bind_ok _ _ w (invoices (db w)) w) by reflexivity.
  destruct (floorNameOf_run ti w) as [fn Efn].
  rewrite (bind_ok _ _ _ _ _ Efn).
  unfold storage.createInvoice, bind, randomUUID, new_Date, modify_db, ret.
  cbn. apply numbered_app; [assumption|]. cbn. apply Hmk.
Qed.

Ltac unfold_preserved :=
  lazymatch goal with
  | |- preserves _ ?m => let h := head_of m in progress unfold h
  end.

Ltac numbered_frame :=
  repeat first
    [ apply preserves_ret
    | apply composeInvoice_numbered
    | apply keeps_numbered; solve [frame]
    | apply preserves_try_catch; [|intros ?]
    | apply preserves_bind; [|intros ?]
    | progress cbv beta zeta
    | split_branch
    | unfold_preserved ].

Lemma autoCheckout_numbered d o :
  preserves (fun w => numbered (invoices (db w)))
            (digitalMenuSync.autoCheckoutAndGenerateInvoice d o).
Proof.
  unfold digitalMenuSync.autoCheckoutAndGenerateInvoice.
  apply preserves_bind; [apply keeps_numbered; solve [frame] | intros items].
  cbv zeta.
  apply preserves_bind; [apply keeps_numbered; solve [frame] | intros [c|]];
    [|apply preserves_ret].
  apply preserves_bind; [apply keeps_numbered; solve [frame] | intros ti].
  apply preserves_bind; [apply keeps_numbered; solve [frame] | intros _].
  apply (createInvoice_numbered ti
           (fun n fn =>
              InsertInvoice.mk (invoiceNumberFor n) (Order.id c)
                (tableNumberOf ti) fn (Order.customerName c)
                (Order.customerPhone c) (toFixed2 (sumItems items))
                (toFixed2 (mul (sumItems items) (Fin 5 2))) (Some "0")
                (toFixed2 (add (sumItems items) (mul (sumItems items) (Fin 5 2))))
                (toLowerCase (or_str (DigitalOrder.paymentMethod d) "cash"))
                None (Some "Paid")
                (Stringified (invoiceItemsData items)) None)).
  reflexivity.
Qed.

(** Starting from invoices numbered INV-0001, INV-0002, ... in the order of
    writing, the transitions that write invoices (save, bill, checkout, the
    checkout of the synchronizer, a whole synchronizer run) keep them so; in
    particular no two invoices share a number. *)
Theorem invoice_numbers_stay_distinct :
  forall w : World,
    numbered (invoices (db w)) ->
    forall after : World,
      (exists id print, after = exec (routes.post_order_save id print) w) \/
      (exists id print, after = exec (routes.post_order_bill id print) w) \/
      (exists id body, after = exec (routes.post_order_checkout id body) w) \/
      after = exec digitalMenuSync.syncOrders w ->
      numbered (invoices (db after)) /\
      NoDup (map Invoice.invoiceNumber (invoices (db after))).
Proof.
  intros w H after Hafter.
  assert (G : numbered (invoices (db after))); [|split; [exact G|]; apply numbered_NoDup, G].
  unfold exec in Hafter.
  destruct Hafter as [(id & print & ->)|[(id & print & ->)|[(id & body & ->)| ->]]];
    revert w H.
  - change (preserves (fun w => numbered (invoices (db w)))
                      (routes.post_order_save id print)).
    numbered_frame.
  - change (preserves (fun w => numbered (invoices (db w)))
                      (routes.post_order_bill id print)).
    numbered_frame.
  - change (preserves (fun w => numbered (invoices (db w)))
                      (routes.post_order_checkout id body)).
    numbered_frame.
  - change (preserves (fun w => numbered (invoices (db w)))
                      digitalMenuSync.syncOrders).
    unfold digitalMenuSync.syncOrders, digitalMenuSync.ingestPass,
      digitalMenuSync.updatePass.
    apply preserves_try_catch; [|intros ?; apply preserves_ret].
    apply preserves_bind; [apply keeps_numbered; solve [frame] | intros ?].
    apply preserves_bind; [|intros ?; apply preserves_ret].
    apply preserves_bind; [apply keeps_numbered; solve [frame] | intros ?].
    apply preserves_sum_of; intros doc. apply preserves_sum_of; intros o.
    unfold digitalMenuSync.refreshOrder, digitalMenuSync.updatePOSOrderStatus.
    repeat first
      [ apply preserves_ret
      | apply autoCheckout_numbered
      | apply keeps_numbered; solve [frame]
      | apply preserves_bind; [|intros ?]
      | progress cbv beta zeta
      | split_branch ].
Qed.

Lemma invoice_numbers_witness :
  let w1 := exec (routes.post_order_bill "o1" true) world_kitchen in
  let w2 := exec (routes.post_order_checkout "o1" cash_checkout) w1 in
  NoDup (map Invoice.invoiceNumber (invoices (db w2))).
Proof.
  intros w1 w2.
  destruct (invoice_numbers_stay_distinct world_kitchen eq_refl w1) as [N1 _].
  { right. left. exists "o1", true. reflexivity. }
  destruct (invoice_numbers_stay_distinct w1 N1 w2) as [_ N2].
  { right. right. left. exists "o1", cash_checkout. reflexivity. }
  exact N2.
Defined.

(** ** Inventory *)

Lemma getInventoryItem_run w id :
  storage.getInventoryItem id w
  = (Ok (find (fun i => InventoryItem.id i =? id) (inventoryItems (db w))), w).
Proof. reflexivity. Qed.

(** POST /api/wastage is refused without any change when the inventory item
    is unknown (404) and when the quantity exceeds the stock (400). *)
Theorem refused_wastage_changes_nothing :
  forall (w : World) (body : InsertWastage.t),
    let id := InsertWastage.inventoryItemId body in
    (stockOf w id = None ->
     routes.post_wastage body w
     = (Ok (mkResponse 404 (JError "Inventory item not found")), w)) /\
    (forall s,
        stockOf w id = Some s ->
        ltb (sub (parseFloat s) (parseFloat (InsertWastage.quantity body)))
            zero = true ->
        routes.post_wastage body w
        = (Ok (mkResponse 400 (JError "Insufficient stock for wastage entry")),
           w)).
Proof.
  intros w body id. unfold stockOf. split.
  - intros H. unfold routes.post_wastage.
    rewrite (bind_ok _ _ _ _ _ (getInventoryItem_run w id)).
    fold id. destruct (find _ _); [discriminate | reflexivity].
  - intros s Hs Hneg.
    destruct (find _ _) as [inv|] eqn:E; [|discriminate].
    injection Hs as <-.
    apply (wastage_rejected w body inv); [|exact Hneg].
    rewrite getInventoryItem_run. fold id. rewrite E. reflexivity.
Qed.

Lemma refused_wastage_witness :
  routes.post_wastage (wastage_of "10.5") world_stock_10
  = (Ok (mkResponse 400 (JError "Insufficient stock for wastage entry")),
     world_stock_10).
Proof.
  apply (proj2 (refused_wastage_changes_nothing world_stock_10
                  (wastage_of "10.5")) "10"); reflexivity.
Defined.

Lemma stock_updated w id q inv :
  find (fun i => InventoryItem.id i =? id) (inventoryItems (db w)) = Some inv ->
  stockOf (with_db (with_inventoryItems
                      (update_first (fun i => InventoryItem.id i =? id)
                                    (InventoryItem.set_stock q (clock w)))) w) id
  = Some q.
Proof.
  intros H. unfold stockOf. cbn. rewrite find_update_first by reflexivity.
  rewrite H. reflexivity.
Qed.

(** POST /api/wastage, when accepted, takes the quantity from the stock
    twice: the handler writes stock minus quantity, and [createWastage] reads
    that back and subtracts the quantity once more; one wastage entry is
    stored. *)
Theorem accepted_wastage_takes_twice :
  forall (w : World) (body : InsertWastage.t) (s : string),
    let id := InsertWastage.inventoryItemId body in
    let q := parseFloat (InsertWastage.quantity body) in
    stockOf w id = Some s ->
    ltb (sub (parseFloat s) q) zero = false ->
    let w' := exec (routes.post_wastage body) w in
    exists wastage,
      result (routes.post_wastage body) w
        = Ok (mkResponse 200 (JWastage wastage)) /\
      wastages (db w') = (wastages (db w) ++ [wastage])%list /\
      Wastage.quantity wastage = InsertWastage.quantity body /\
      stockOf w' id = Some (lowered s [q; q]).
Proof.
  intros w body s id q Hs Hok w'. subst w'.
  unfold stockOf in Hs.
  destruct (find _ (inventoryItems (db w))) as [inv|] eqn:E; [|discriminate].
  injection Hs as <-.
  unfold exec, result, routes.post_wastage.
  rewrite !(bind_ok _ _ _ _ _ (getInventoryItem_run w id)).
  fold id. rewrite E. fold q. rewrite Hok.
  set (s1 := toString (sub (parseFloat (InventoryItem.currentStock inv)) q)).
  unfold storage.updateInventoryQuantity, storage.createWastage,
    storage.getInventoryItem.
  unfold bind, new_Date, randomUUID, get_db, ret, modify_db, updated_doc.
  cbn [fst snd db with_db inventoryItems with_inventoryItems clock].
  fold id. rewrite find_update_first by reflexivity. rewrite E.
  cbn [option_map fst snd]. fold q.
  eexists. split; [reflexivity|]. split; [reflexivity|].
  split; [reflexivity|].
  unfold lowered. cbn [fold_left]. fold s1.
  clearbody s1. unfold stockOf. cbn -[toString sub parseFloat].
  rewrite find_update_first by reflexivity.
  rewrite find_update_first by reflexivity. rewrite E. reflexivity.
Qed.

(** Stock 10, wastage 2.5: the stock ends at 5. *)
Lemma accepted_wastage_witness :
  stockOf (exec (routes.post_wastage (wastage_of "2.5")) world_stock_10) "inv1"
  = Some "5".
Proof.
  destruct (accepted_wastage_takes_twice world_stock_10 (wastage_of "2.5") "10"
              eq_refl eq_refl) as (wst & _ & _ & _ & Hs).
  transitivity (Some (lowered "10" [parseFloat "2.5"; parseFloat "2.5"]));
    [exact Hs | vm_compute; reflexivity].
Defined.

Lemma map_update_first {A B} (g : A -> B) (p : A -> bool) f (l : list A) :
  (forall x, g (f x) = g x) -> map g (update_first p f l) = map g l.
Proof.
  intros H. induction l as [|x r IH]; cbn; [reflexivity|].
  destruct (p x); cbn; [rewrite H | rewrite IH]; reflexivity.
Qed.

Lemma ids_deduct_one now l d :
  map InventoryItem.id (deduct_one now l d) = map InventoryItem.id l.
Proof.
  unfold deduct_one. destruct (find _ l); [|reflexivity].
  apply map_update_first. reflexivity.
Qed.

Lemma ids_deductions now ds l :
  map InventoryItem.id (fold_left (deduct_one now) ds l) = map InventoryItem.id l.
Proof.
  revert l. induction ds as [|d ds IH]; intros l; [reflexivity|].
  cbn [fold_left]. rewrite IH. apply ids_deduct_one.
Qed.

Lemma stock_untouched now ds l inv :
  (forall d, In d ds -> fst d <> inv) ->
  stock_in (fold_left (deduct_one now) ds l) inv = stock_in l inv.
Proof.
  revert l. induction ds as [|d ds IH]; intros l H; [reflexivity|].
  cbn [fold_left]. rewrite IH by (intros d' Hd'; apply H; right; exact Hd').
  rewrite stock_deduct_one.
  destruct (fst d =? inv) eqn:E; [|reflexivity].
  apply String.eqb_eq in E. exfalso. apply (H d); [left; reflexivity | exact E].
Qed.

(** The recipe-based deduction never throws and writes stocks only: every
    other collection, the memory of the synchronizer and the console are as
    they were, no inventory item appears or disappears, and an inventory item
    that no ingredient of the order's recipes names keeps its stock. *)
Theorem deduction_writes_stocks_only :
  forall (w : World) (orderId : string),
    let w' := exec (storage.deductInventoryForOrder orderId) w in
    result (storage.deductInventoryForOrder orderId) w = Ok tt /\
    with_db (with_inventoryItems (fun _ => inventoryItems (db w))) w' = w /\
    map InventoryItem.id (inventoryItems (db w'))
    = map InventoryItem.id (inventoryItems (db w)) /\
    (forall inv,
        (forall d, In d (deductions w orderId) -> fst d <> inv) ->
        stockOf w' inv = stockOf w inv).
Proof.
  intros w orderId w'. subst w'. unfold exec, result. rewrite deduct_run.
  cbn [fst snd]. split; [reflexivity|]. split.
  { destruct w as [[] ? ? ? ? ?]. reflexivity. }
  split.
  - unfold deducted. cbn. apply ids_deductions.
  - intros inv H. unfold stockOf, deducted. cbn.
    apply (stock_untouched (clock w) (deductions w orderId)
             (inventoryItems (db w)) inv H).
Qed.

Lemma latest_fold (l : list Recipe.t) (best : option Recipe.t) :
  match fold_left storage.latest l best with
  | Some r =>
      (In r l \/ best = Some r) /\
      (forall r', In r' l -> (Recipe.createdAt r' <= Recipe.createdAt r)%nat) /\
      (forall b, best = Some b -> (Recipe.createdAt b <= Recipe.createdAt r)%nat)
  | None => l = [] /\ best = None
  end.
Proof.
  revert best. induction l as [|x l IH]; intros best.
  - cbn. destruct best; [|auto]. repeat split; auto.
    + intros r' [].
    + intros b [= <-]. lia.
  - cbn [fold_left]. specialize (IH (storage.latest best x)).
    destruct (fold_left storage.latest l (storage.latest best x)) as [r|].
    + destruct IH as (Hin & Hmax & Hb).
      unfold storage.latest in Hin, Hb.
      destruct best as [b|].
      * destruct (Nat.ltb_spec (Recipe.createdAt b) (Recipe.createdAt x)).
        -- specialize (Hb x eq_refl). repeat split.
           ++ destruct Hin as [Hin|[= <-]]; [left; right; exact Hin|].
              left; left; reflexivity.
           ++ intros r' [<-|Hr']; [exact Hb | apply Hmax, Hr'].
           ++ intros b' [= <-]. lia.
        -- specialize (Hb b eq_refl). repeat split.
           ++ destruct Hin as [Hin|[= <-]]; [left; right; exact Hin|].
              right; reflexivity.
           ++ intros r' [<-|Hr']; [lia | apply Hmax, Hr'].
           ++ intros b' [= <-]. exact Hb.
      * specialize (Hb x eq_refl). repeat split.
        -- destruct Hin as [Hin|[= <-]]; [left; right; exact Hin|].
           left; left; reflexivity.
        -- intros r' [<-|Hr']; [exact Hb | apply Hmax, Hr'].
        -- intros b' [=].
    + destruct IH as [_ Hb]. unfold storage.latest in Hb.
      destruct best as [b|]; [destruct (_ <? _)%nat|]; discriminate.
Qed.

(** [getRecipeByMenuItemId] answers with a recipe of the menu item that no
    other recipe of the menu item is younger than, and with none only when
    the menu item has no recipe. *)
Theorem latest_recipe_is_youngest :
  forall (w : World) (menuItemId : string),
    exists found,
      storage.getRecipeByMenuItemId menuItemId w = (Ok found, w) /\
      match found with
      | Some r =>
          In r (recipes (db w)) /\ Recipe.menuItemId r = menuItemId /\
          forall r', In r' (recipes (db w)) ->
                     Recipe.menuItemId r' = menuItemId ->
                     (Recipe.createdAt r' <= Recipe.createdAt r)%nat
      | None =>
          forall r', In r' (recipes (db w)) -> Recipe.menuItemId r' <> menuItemId
      end.
Proof.
  intros w menuItemId. eexists. split; [reflexivity|].
  pose proof (latest_fold
                (filter (fun r => Recipe.menuItemId r =? menuItemId)
                        (recipes (db w))) None) as H.
  cbn [db]. destruct (fold_left _ _ None) as [r|].
  - destruct H as ([Hin|[=]] & Hmax & _).
    apply filter_In in Hin as [Hin Hm]. apply String.eqb_eq in Hm.
    repeat split; [assumption..|].
    intros r' Hr' Hm'. apply Hmax, filter_In. split; [exact Hr'|].
    apply String.eqb_eq, Hm'.
  - destruct H as [Hnil _]. intros r' Hr' Hm'.
    assert (Hf : In r' (filter (fun r => Recipe.menuItemId r =? menuItemId)
                               (recipes (db w)))).
    { apply filter_In. split; [exact Hr'|]. apply String.eqb_eq, Hm'. }
    rewrite Hnil in Hf. exact Hf.
Qed.

(** ** What the ingest pass attempts *)

Lemma ingest_line_eligible doc o w :
  exists n log w',
    digitalMenuSync.ingestOrder doc o w = (Ok n, w') /\
    console w' = (console w ++ log)%list /\
    forall i, In i (attempted_ids log) ->
              i = digitalMenuSync.syntheticId doc o /\ eligible o = true.
Proof.
  assert (Hskip : digitalMenuSync.ingestOrder doc o w = (Ok 0%nat, w) ->
                  exists n log w',
                    digitalMenuSync.ingestOrder doc o w = (Ok n, w') /\
                    console w' = (console w ++ log)%list /\
                    forall i, In i (attempted_ids log) ->
                              i = digitalMenuSync.syntheticId doc o /\
                              eligible o = true).
  { intros E. exists 0%nat, [], w. rewrite app_nil_r.
    repeat split; [exact E | destruct H | destruct H]. }
  destruct (DigitalOrder.syncedToPOS o) eqn:H1;
    [apply Hskip, ingest_skip; auto|].
  destruct (digitalMenuSync.is_pending_or_confirmed (DigitalOrder.status o)) eqn:H2;
    [|apply Hskip, ingest_skip; auto].
  destruct (decide (digitalMenuSync.syntheticId doc o ∈ processedOrderIds (sync w)))
    as [H3|H3]; [apply Hskip, ingest_skip; auto|].
  destruct (ingest_attempt doc o w H1 H2 H3)
    as (n & line & w' & E & Hc' & Hid & _).
  exists n, [line], w'. repeat split; [exact E | exact Hc' | |].
  - destruct H as [<-|[]]. exact Hid.
  - unfold eligible. rewrite H1, H2. reflexivity.
Qed.

Lemma ingest_orders_eligible doc os w :
  exists n log w',
    digitalMenuSync.sum_of os (digitalMenuSync.ingestOrder doc) w = (Ok n, w') /\
    console w' = (console w ++ log)%list /\
    forall i, In i (attempted_ids log) ->
              In i (map (digitalMenuSync.syntheticId doc) (filter eligible os)).
Proof.
  revert w. induction os as [|o os IH]; intros w.
  - exists 0%nat, [], w. rewrite app_nil_r. repeat split. intros i [].
  - destruct (ingest_line_eligible doc o w) as (n1 & log1 & w1 & E1 & C1 & N1).
    destruct (IH w1) as (n2 & log2 & w2 & E2 & C2 & N2).
    exists (n1 + n2)%nat, (log1 ++ log2)%list, w2.
    cbn [digitalMenuSync.sum_of].
    rewrite (bind_ok _ _ _ _ _ E1), (bind_ok _ _ _ _ _ E2).
    repeat split; [rewrite C2, C1, app_assoc; reflexivity|].
    intros i. unfold attempted_ids. rewrite map_app.
    intros [Hi|Hi]%in_app_or; cbn [filter].
    + destruct (N1 i Hi) as [-> ->]. left. reflexivity.
    + specialize (N2 i Hi). destruct (eligible o); [right|]; exact N2.
Qed.

Lemma ingest_docs_eligible docs w :
  exists n log w',
    digitalMenuSync.sum_of docs
      (fun doc => digitalMenuSync.sum_of (CustomerDoc.orders doc)
                    (digitalMenuSync.ingestOrder doc)) w = (Ok n, w') /\
    console w' = (console w ++ log)%list /\
    forall i, In i (attempted_ids log) -> In i (eligible_ids docs).
Proof.
  revert w. induction docs as [|doc docs IH]; intros w.
  - exists 0%nat, [], w. rewrite app_nil_r. repeat split. intros i [].
  - destruct (ingest_orders_eligible doc (CustomerDoc.orders doc) w)
      as (n1 & log1 & w1 & E1 & C1 & N1).
    destruct (IH w1) as (n2 & log2 & w2 & E2 & C2 & N2).
    exists (n1 + n2)%nat, (log1 ++ log2)%list, w2.
    cbn [digitalMenuSync.sum_of].
    rewrite (bind_ok _ _ _ _ _ E1), (bind_ok _ _ _ _ _ E2).
    repeat split; [rewrite C2, C1, app_assoc; reflexivity|].
    intros i. unfold attempted_ids, eligible_ids. cbn [flat_map].
    rewrite map_app. intros [Hi|Hi]%in_app_or; apply in_or_app.
    + left. apply N1, Hi.
    + right. apply N2, Hi.
Qed.

Lemma eligible_ids_nonempty docs :
  eligible_ids
    (filter (fun c => negb (Nat.eqb (List.length (CustomerDoc.orders c)) 0)) docs)
  = eligible_ids docs.
Proof.
  induction docs as [|doc docs IH]; [reflexivity|]. cbn [filter].
  destruct (CustomerDoc.orders doc) as [|o os] eqn:E; cbn [List.length Nat.eqb negb].
  - unfold eligible_ids in *. cbn [flat_map]. rewrite E. exact IH.
  - unfold eligible_ids in *. cbn [flat_map]. rewrite IH. reflexivity.
Qed.

(** A run of [syncOrders] attempts to convert only external orders that, when
    the run started, were not flagged as synced, were pending or confirmed
    and were not in the processed set; a flagged order, an order in another
    status and a processed order are never converted. *)
Theorem only_eligible_orders_are_attempted :
  forall (w : World) (id : string),
    In id (attempted_ids (new_log w (exec digitalMenuSync.syncOrders w))) ->
    In id (eligible_ids (digital_menu_customer_orders (db w))) /\
    id ∉ processedOrderIds (sync w).
Proof.
  intros w id Hin.
  destruct (syncOrders_preserves w w (sync_inv_refl w))
    as (l & C & _ & _ & _ & S).
  change (snd (digitalMenuSync.syncOrders w))
    with (exec digitalMenuSync.syncOrders w) in C, S.
  assert (El : new_log w (exec digitalMenuSync.syncOrders w) = l)
    by (unfold new_log; rewrite C; apply skipn_length_app).
  rewrite El in Hin. split; [|intros Hp; apply (S id Hp), Hin].
  pose (docs := filter (fun c => negb (Nat.eqb (List.length (CustomerDoc.orders c)) 0))
                       (digital_menu_customer_orders (db w))).
  assert (Ed : digitalMenuSync.find_customer_docs w = (Ok docs, w))
    by reflexivity.
  destruct (ingest_docs_eligible docs w) as (n & log & w1 & E & C1 & N).
  assert (C2 : console (exec digitalMenuSync.syncOrders w) = (console w ++ log)%list).
  { unfold exec, digitalMenuSync.syncOrders, digitalMenuSync.ingestPass.
    unfold try_catch. unfold bind at 1.
    rewrite (bind_ok _ _ _ _ _ Ed), E.
    pose proof (updatePass_keeps w1) as K. unfold observed in K.
    injection K as K _ _. unfold bind.
    destruct (digitalMenuSync.updatePass w1) as [[u|e] w2]; cbn in *; congruence. }
  rewrite C in C2. apply app_inv_head in C2. subst l.
  rewrite <- eligible_ids_nonempty. apply N. rewrite <- C2. exact Hin.
Qed.

Lemma only_eligible_witness :
  In "d2" (eligible_ids (digital_menu_customer_orders (db world_unsynced))) /\
  "d2" ∉ processedOrderIds (sync world_unsynced).
Proof.
  apply only_eligible_orders_are_attempted. vm_compute. left. reflexivity.
Defined.

(** ** A conversion that fails *)

Lemma findMenuItem_nameless w :
  menuItems (db w) <> [] ->
  digitalMenuSync.findMenuItemByName None w
  = (Throw "TypeError: Cannot read properties of undefined", w).
Proof.
  intros H. unfold digitalMenuSync.findMenuItemByName, storage.getMenuItems.
  unfold bind, get_db, ret. cbn. destruct (menuItems (db w)); [congruence|].
  reflexivity.
Qed.

(** A loop whose bodies keep the menu throws when it reaches a line without
    a name, unless it threw before. *)
Lemma for_of_throws_on_nameless {A} (l : list A) (body : A -> M unit)
  (nameless : A -> Prop) w :
  (forall x, keeps (fun w => menuItems (db w)) (body x)) ->
  (forall x w, nameless x -> menuItems (db w) <> [] ->
               exists e, fst (body x w) = Throw e) ->
  (exists x, In x l /\ nameless x) ->
  menuItems (db w) <> [] ->
  exists e, fst (for_of l body w) = Throw e.
Proof.
  intros Hk Ht (x & Hx & Hn). revert w.
  induction l as [|y r IH]; intros w Hm; [destruct Hx|].
  cbn [for_of]. unfold bind.
  destruct (body y w) as [[[]|e] w'] eqn:E.
  - destruct Hx as [->|Hx].
    + destruct (Ht x w Hn Hm) as [e He]. rewrite E in He. discriminate.
    + apply IH; [exact Hx|]. pose proof (Hk y w) as K. rewrite E in K.
      cbn in K. rewrite K. exact Hm.
  - exists e. reflexivity.
Qed.

Lemma bind_throws_later {A B} (m : M A) (k : A -> M B) (I : World -> Prop) w :
  nothrow m -> preserves I m -> I w ->
  (forall a w', I w' -> exists e, fst (k a w') = Throw e) ->
  exists e, fst (bind m k w) = Throw e.
Proof.
  intros Hn Hp Hw Hk. unfold bind. destruct (Hn w) as [a Ha].
  specialize (Hp w Hw). destruct (m w) as [r w']. cbn in *. subst r.
  apply Hk, Hp.
Qed.

Lemma keeps_menu_preserves {A} (m : M A) :
  keeps (fun w => menuItems (db w)) m ->
  preserves (fun w => menuItems (db w) <> []) m.
Proof. intros Hk w H. rewrite (Hk w). exact H. Qed.

Lemma convert_throws o cn cp w :
  menuItems (db w) <> [] ->
  (exists item, In item (DigitalOrder.items o) /\
                DigitalItem.menuItemName item = None) ->
  exists e, fst (digitalMenuSync.convertAndCreatePOSOrder o cn cp w) = Throw e.
Proof.
  intros Hm Hitem. unfold digitalMenuSync.convertAndCreatePOSOrder.
  apply (bind_throws_later _ _ (fun w => menuItems (db w) <> []));
    [solve [frame] | apply keeps_menu_preserves; solve [frame] | exact Hm |].
  intros tableId w1 H1. cbv zeta.
  apply (bind_throws_later _ _ (fun w => menuItems (db w) <> []));
    [solve [frame] | apply keeps_menu_preserves; solve [frame] | exact H1 |].
  intros posOrder w2 H2.
  apply (bind_throws_later _ _ (fun w => menuItems (db w) <> []));
    [solve [frame] | apply keeps_menu_preserves; solve [frame] | exact H2 |].
  intros _ w3 H3.
  unfold bind at 1.
  match goal with
  | |- context [for_of ?l ?body w3] =>
      destruct (for_of_throws_on_nameless l body
                  (fun item => DigitalItem.menuItemName item = None) w3)
        as [e He]
  end.
  - intros x. solve [frame].
  - intros x w' Hx Hw'. rewrite Hx. unfold bind at 1.
    rewrite findMenuItem_nameless by assumption. eexists. reflexivity.
  - exact Hitem.
  - exact H3.
  - destruct (for_of _ _ w3) as [[[]|e'] w4]; [discriminate|].
    exists e'. reflexivity.
Qed.

Lemma convert_keeps_external o cn cp :
  keeps (fun w => (digital_menu_customer_orders (db w), menuItems (db w)))
        (digitalMenuSync.convertAndCreatePOSOrder o cn cp).
Proof. unfold digitalMenuSync.convertAndCreatePOSOrder. frame. Qed.

(** The conversion of an external order that has a line without a name
    fails as soon as the menu has an item, after the native order was
    created: the attempt is logged as failed and counts for nothing, the
    native order stays behind, and the identifier leaves the processed set.
    The external collection and the menu are as before, so the next pass
    attempts the order again, and leaves one more native order behind. *)
Theorem failed_conversion_leaves_order_behind :
  forall (w : World) (doc : CustomerDoc.t) (o : DigitalOrder.t),
    eligible o = true ->
    digitalMenuSync.syntheticId doc o ∉ processedOrderIds (sync w) ->
    menuItems (db w) <> [] ->
    (exists item, In item (DigitalOrder.items o) /\
                  DigitalItem.menuItemName item = None) ->
    let id := digitalMenuSync.syntheticId doc o in
    let w1 := exec (digitalMenuSync.ingestOrder doc o) w in
    let w2 := exec (digitalMenuSync.ingestOrder doc o) w1 in
    result (digitalMenuSync.ingestOrder doc o) w = Ok 0%nat /\
    console w1 = (console w ++ [LogSyncFailed id])%list /\
    List.length (orders (db w1)) = S (List.length (orders (db w))) /\
    processedOrderIds (sync w1) = processedOrderIds (sync w) /\
    digital_menu_customer_orders (db w1) = digital_menu_customer_orders (db w) /\
    menuItems (db w1) = menuItems (db w) /\
    console w2 = (console w ++ [LogSyncFailed id; LogSyncFailed id])%list /\
    List.length (orders (db w2)) = S (S (List.length (orders (db w)))).
Proof.
  intros w doc o He Hp Hm Hitem id w1 w2.
  assert (Step : forall w,
             id ∉ processedOrderIds (sync w) -> menuItems (db w) <> [] ->
             exists w',
               digitalMenuSync.ingestOrder doc o w = (Ok 0%nat, w') /\
               console w' = (console w ++ [LogSyncFailed id])%list /\
               List.length (orders (db w')) = S (List.length (orders (db w))) /\
               processedOrderIds (sync w') = processedOrderIds (sync w) /\
               digital_menu_customer_orders (db w')
               = digital_menu_customer_orders (db w) /\
               menuItems (db w') = menuItems (db w)).
  { clear w Hp Hm w1 w2. intros w Hp Hm.
    unfold eligible in He. apply andb_true_iff in He as [H1 H2].
    apply negb_true_iff in H1.
    unfold digitalMenuSync.ingestOrder. rewrite H1, H2. cbn [negb]. fold id.
    unfold bind at 1. unfold get_sync at 1.
    rewrite bool_decide_eq_false_2 by assumption.
    unfold try_catch. unfold bind at 1. unfold modify_sync at 1.
    set (wa := with_sync _ w).
    pose proof (convert_keeps_memory o (CustomerDoc.customerName doc)
                  (CustomerDoc.customerPhone doc) wa) as Hk.
    pose proof (convert_creates_one o (CustomerDoc.customerName doc)
                  (CustomerDoc.customerPhone doc) wa) as Hb.
    pose proof (convert_keeps_external o (CustomerDoc.customerName doc)
                  (CustomerDoc.customerPhone doc) wa) as Hx.
    destruct (convert_throws o (CustomerDoc.customerName doc)
                (CustomerDoc.customerPhone doc) wa Hm Hitem) as [e Hthrow].
    unfold bind at 1.
    destruct (digitalMenuSync.convertAndCreatePOSOrder _ _ _ wa) as [[pid|e'] wb];
      [discriminate|].
    cbn [fst snd] in Hk, Hb, Hx. injection Hk as Hs Hc. injection Hx as Hd Hmn.
    eexists. split; [reflexivity|]. cbn.
    rewrite Hs, Hc, Hd, Hmn. repeat split; [exact Hb|]. cbn. set_solver. }
  destruct (Step w Hp Hm) as (wa & E1 & C1 & L1 & P1 & D1 & M1).
  assert (Ew1 : w1 = wa) by (subst w1; unfold exec; rewrite E1; reflexivity).
  destruct (Step wa) as (wb & E2 & C2 & L2 & _);
    [rewrite P1; exact Hp | rewrite M1; exact Hm |].
  assert (Ew2 : w2 = wb)
    by (subst w2; rewrite Ew1; unfold exec; rewrite E2; reflexivity).
  unfold result. rewrite E1, Ew2, Ew1. cbn [fst].
  repeat split; try assumption.
  - rewrite C2, C1, <- app_assoc. reflexivity.
  - rewrite L2, L1. reflexivity.
Qed.

Lemma failed_conversion_witness :
  List.length
    (orders (db (exec (digitalMenuSync.ingestOrder customer_c3 external_d3)
                   (exec (digitalMenuSync.ingestOrder customer_c3 external_d3)
                         world_nameless)))) = 2%nat /\
  List.length
    (orders (db (exec digitalMenuSync.syncOrders
                   (exec digitalMenuSync.syncOrders world_nameless)))) = 2%nat.
Proof.
  split; [|vm_compute; reflexivity].
  destruct (failed_conversion_leaves_order_behind world_nameless customer_c3
              external_d3) as (_ & _ & _ & _ & _ & _ & _ & H).
  - reflexivity.
  - apply not_elem_of_empty.
  - discriminate.
  - eexists. split; [left; reflexivity | reflexivity].
  - exact H.
Defined.

(** ** The checkout of the synchronizer *)

Lemma autoCheckout_run d posOrder w o :
  orderOf w (Order.id posOrder) = Some o ->
  let w' := snd (digitalMenuSync.autoCheckoutAndGenerateInvoice d posOrder w) in
  fst (digitalMenuSync.autoCheckoutAndGenerateInvoice d posOrder w) = Ok tt /\
  List.length (invoices (db w')) = S (List.length (invoices (db w))) /\
  orderOf w' (Order.id posOrder)
  = Some (Order.set_paid
            (Some (toLowerCase (or_str (DigitalOrder.paymentMethod d) "cash")))
            (clock w) o) /\
  sync w' = sync w.
Proof.
  intros Ho w'. subst w'.
  unfold digitalMenuSync.autoCheckoutAndGenerateInvoice.
  rewrite (bind_ok _ _ _ _ _ (getOrderItems_run w (Order.id posOrder))).
  cbv zeta.
  set (mode := toLowerCase (or_str (DigitalOrder.paymentMethod d) "cash")).
  set (paid := Order.set_paid (Some mode) (clock w) o).
  set (w1 := snd (storage.checkoutOrder (Order.id posOrder) (Some mode) w)).
  rewrite (bind_ok _ _ w (Some paid) w1)
    by (unfold storage.checkoutOrder, storage.update_order, new_Date, bind,
          updated_doc; cbn; fold (orderOf w (Order.id posOrder)); rewrite Ho;
        reflexivity).
  assert (H1 : orderOf w1 (Order.id posOrder) = Some paid).
  { subst w1.
    apply (orderOf_updated w (Order.id posOrder)
             (Order.set_paid (Some mode) (clock w)) o Ho). reflexivity. }
  assert (L1 : invoices (db w1) = invoices (db w)) by reflexivity.
  assert (S1 : sync w1 = sync w) by reflexivity.
  clearbody w1.
  match goal with
  | |- context [bind ?m _ w1] =>
      destruct (nothrow_run m w1 ltac:(frame)) as (ti & w2 & E2);
      pose proof (keeps_run (fun w => (orders (db w), invoices (db w), sync w))
                    m w1 _ _ ltac:(frame) E2) as K2
  end.
  rewrite (bind_ok _ _ _ _ _ E2).
  match goal with
  | |- context [bind ?m _ w2] =>
      destruct (nothrow_run m w2 ltac:(frame)) as (u & w3 & E3);
      pose proof (keeps_run (fun w => (orders (db w), invoices (db w), sync w))
                    m w2 _ _ ltac:(frame) E3) as K3
  end.
  rewrite (bind_ok _ _ _ _ _ E3).
  injection K2 as K2o K2i K2s. injection K3 as K3o K3i K3s.
  rewrite (bind_ok _ _ w3 (invoices (db w3)) w3) by reflexivity.
  destruct (floorNameOf_run ti w3) as [fn Efn].
  rewrite (bind_ok _ _ _ _ _ Efn).
  unfold storage.createInvoice, bind, randomUUID, new_Date, modify_db, ret.
  cbn. rewrite length_app. cbn.
  split; [reflexivity|]. split; [rewrite K3i, K2i, L1; lia|].
  split; [|rewrite K3s, K2s; exact S1].
  unfold orderOf in *. rewrite K3o, K2o. exact H1.
Qed.

Lemma invoice_generated_default p :
  digitalMenuSync.is_invoice_generated (or_str p "pending") = true ->
  digitalMenuSync.is_invoice_generated (or_str p "") = true /\
  truthy_str (Some (or_str p "pending")) = Some (or_str p "pending").
Proof.
  unfold or_str. destruct (truthy_str p) as [s|] eqn:E; [|discriminate].
  intros H. split; [exact H|].
  destruct s; [discriminate | reflexivity].
Qed.

Lemma updatePOS_checks_out w o pid x :
  digitalMenuSync.is_invoice_generated
    (or_str (DigitalOrder.paymentStatus o) "") = true ->
  truthy_str (DigitalOrder.posOrderId o) = Some pid ->
  orderOf w pid = Some x ->
  digitalMenuSync.updatePOSOrderStatus o w
  = digitalMenuSync.autoCheckoutAndGenerateInvoice o x w.
Proof.
  intros Hp Hpid Ho. unfold digitalMenuSync.updatePOSOrderStatus.
  rewrite Hpid, (bind_ok _ _ _ _ _ (getOrder_run w pid)), Ho, Hp.
  reflexivity.
Qed.

(** An external order whose payment status turned into invoice_generated
    while the native order is neither paid nor billed: the update pass checks
    the native order out and writes an invoice, without recording the
    payment status it saw.  The next pass therefore sees a changed payment
    status, checks out and writes an invoice once more, and only then
    records it; the third pass is quiet. *)
Theorem requested_invoice_is_written_twice :
  forall (w : World) (doc : CustomerDoc.t) (o : DigitalOrder.t)
         (pid p : string) (posOrder : Order.t),
    let id := digitalMenuSync.syntheticId doc o in
    let current := or_str (DigitalOrder.paymentStatus o) "pending" in
    DigitalOrder.syncedToPOS o = true ->
    digitalMenuSync.is_invoice_generated current = true ->
    truthy_str (DigitalOrder.posOrderId o) = Some pid ->
    orderOf w pid = Some posOrder ->
    Order.status posOrder <> "paid" ->
    Order.status posOrder <> "billed" ->
    truthy_str (orderPaymentStatusMap (sync w) !! id) = Some p ->
    p <> current ->
    let refresh := digitalMenuSync.refreshOrder doc o in
    let w1 := exec refresh w in
    let w2 := exec refresh w1 in
    let w3 := exec refresh w2 in
    result refresh w = Ok 1%nat /\
    result refresh w1 = Ok 1%nat /\
    result refresh w2 = Ok 0%nat /\
    option_map Order.status (orderOf w1 pid) = Some "paid" /\
    List.length (invoices (db w1)) = S (List.length (invoices (db w))) /\
    List.length (invoices (db w2)) = S (S (List.length (invoices (db w)))) /\
    invoices (db w3) = invoices (db w2).
Proof.
  intros w doc o pid p posOrder id current Hsync Hgen Hpid Ho Hnp Hnb Hprev Hne
         refresh w1 w2 w3.
  destruct (invoice_generated_default _ Hgen) as [Hgen0 Hcur].
  fold current in Hcur.
  pose proof (order_id_found _ _ _ Ho) as Hid.
  (* first pass *)
  assert (E1 : refresh w
               = (Ok 1%nat,
                  snd (digitalMenuSync.autoCheckoutAndGenerateInvoice o posOrder w))).
  { subst refresh. unfold digitalMenuSync.refreshOrder. rewrite Hsync.
    cbn [negb]. unfold bind at 1. unfold get_sync at 1. fold id current.
    rewrite Hgen, Hpid.
    rewrite (bind_ok _ _ _ _ _ (getOrder_run w pid)), Ho.
    apply String.eqb_neq in Hnp, Hnb. rewrite Hnp, Hnb. cbn [negb andb].
    unfold bind at 1.
    rewrite (updatePOS_checks_out w o pid posOrder Hgen0 Hpid Ho).
    destruct (autoCheckout_run o posOrder w posOrder) as (R & _);
      [rewrite Hid; exact Ho|].
    rewrite (run_eta (digitalMenuSync.autoCheckoutAndGenerateInvoice
                        o posOrder) w), R. reflexivity. }
  destruct (autoCheckout_run o posOrder w posOrder) as (_ & L1 & O1 & S1);
    [rewrite Hid; exact Ho|].
  rewrite Hid in O1.
  assert (Ew1 : w1 = snd (digitalMenuSync.autoCheckoutAndGenerateInvoice
                            o posOrder w))
    by (subst w1; unfold exec; rewrite E1; reflexivity).
  rewrite <- Ew1 in L1, O1, S1.
  set (paid := Order.set_paid
                 (Some (toLowerCase (or_str (DigitalOrder.paymentMethod o) "cash")))
                 (clock w) posOrder) in O1.
  (* second pass *)
  set (mem2 := digitalMenuSync.remember id (DigitalOrder.status o) current false).
  assert (E2 : refresh w1
               = (Ok 1%nat,
                  with_sync mem2
                    (snd (digitalMenuSync.autoCheckoutAndGenerateInvoice o paid w1)))).
  { subst refresh. unfold digitalMenuSync.refreshOrder. rewrite Hsync.
    cbn [negb]. unfold bind at 1. unfold get_sync at 1. fold id current.
    rewrite Hgen, Hpid, S1, Hprev.
    rewrite (bind_ok _ _ _ _ _ (getOrder_run w1 pid)), O1.
    change (Order.status paid) with "paid". cbn [String.eqb Ascii.eqb Bool.eqb negb andb].
    apply String.eqb_neq in Hne. rewrite Hne. cbn [negb]. rewrite orb_true_r.
    unfold bind at 1.
    rewrite (updatePOS_checks_out w1 o pid paid Hgen0 Hpid O1).
    destruct (autoCheckout_run o paid w1 paid) as (R & _);
      [change (Order.id paid) with (Order.id posOrder); rewrite Hid; exact O1|].
    rewrite (run_eta (digitalMenuSync.autoCheckoutAndGenerateInvoice o paid) w1), R.
    reflexivity. }
  destruct (autoCheckout_run o paid w1 paid) as (_ & L2 & O2 & S2);
    [change (Order.id paid) with (Order.id posOrder); rewrite Hid; exact O1|].
  change (Order.id paid) with (Order.id posOrder) in O2. rewrite Hid in O2.
  assert (Ew2 : w2 = with_sync mem2
                       (snd (digitalMenuSync.autoCheckoutAndGenerateInvoice
                               o paid w1)))
    by (subst w2; unfold exec; rewrite E2; reflexivity).
  (* third pass *)
  assert (E3 : exists w', refresh w2 = (Ok 0%nat, w') /\
                          invoices (db w') = invoices (db w2)).
  { subst refresh. unfold digitalMenuSync.refreshOrder. rewrite Hsync.
    cbn [negb]. unfold bind at 1. unfold get_sync at 1. fold id current.
    rewrite Hgen, Hpid.
    rewrite (bind_ok _ _ _ _ _ (getOrder_run w2 pid)).
    assert (O3 : orderOf w2 pid
                 = Some (Order.set_paid
                           (Some (toLowerCase
                                    (or_str (DigitalOrder.paymentMethod o) "cash")))
                           (clock w1) paid)).
    { rewrite Ew2. exact O2. }
    rewrite O3.
    match goal with
    | |- context [Order.status (Order.set_paid ?m ?c ?x)] =>
        change (Order.status (Order.set_paid m c x)) with "paid"
    end.
    cbn [String.eqb Ascii.eqb Bool.eqb negb andb].
    assert (Hpm : orderPaymentStatusMap (sync w2) !! id = Some current).
    { rewrite Ew2. unfold with_sync, mem2, digitalMenuSync.remember.
      cbn [sync orderPaymentStatusMap orderStatusMap].
      apply lookup_insert_eq. }
    assert (Hsm : orderStatusMap (sync w2) !! id = Some (DigitalOrder.status o)).
    { rewrite Ew2. unfold with_sync, mem2, digitalMenuSync.remember.
      cbn [sync orderPaymentStatusMap orderStatusMap].
      apply lookup_insert_eq. }
    rewrite Hpm, Hsm, Hcur. cbn [mjoin option_bind mbind option_join].
    rewrite String.eqb_refl. cbn [negb].
    destruct (DigitalOrder.status o) as [s|] eqn:Es.
    - destruct (truthy_str (Some s)) as [s'|] eqn:Et.
      + assert (s' = s) as ->.
        { destruct s; cbn in Et; [discriminate|]. congruence. }
        unfold digitalMenuSync.same_id. rewrite String.eqb_refl. cbn.
        eexists. split; reflexivity.
      + cbn. eexists. split; reflexivity.
    - cbn. eexists. split; reflexivity. }
  destruct E3 as (w' & E3 & I3).
  unfold result. rewrite E1, E2, E3. cbn [fst].
  split; [reflexivity|]. split; [reflexivity|]. split; [reflexivity|].
  split; [rewrite O1; reflexivity|]. split; [exact L1|].
  split; [rewrite Ew2; unfold with_sync; cbn [db]; rewrite L2, L1; reflexivity|].
  subst w3. unfold exec. rewrite E3. exact I3.
Qed.

Lemma requested_invoice_witness :
  let refresh := digitalMenuSync.refreshOrder customer_c4 external_d4 in
  List.length
    (invoices (db (exec refresh (exec refresh world_invoice_requested))))
  = 2%nat /\
  map Invoice.invoiceNumber
      (invoices (db (exec digitalMenuSync.syncOrders
                       (exec digitalMenuSync.syncOrders
                             world_invoice_requested))))
  = ["INV-0001"; "INV-0002"].
Proof.
  intros refresh. split; [|vm_compute; reflexivity].
  destruct (requested_invoice_is_written_twice world_invoice_requested
              customer_c4 external_d4 "p1" "pending"
              (sample_order "p1" None "sent_to_kitchen"))
    as (_ & _ & _ & _ & _ & H & _).
  - reflexivity.
  - reflexivity.
  - reflexivity.
  - reflexivity.
  - discriminate.
  - discriminate.
  - vm_compute. reflexivity.
  - discriminate.
  - exact H.
Defined.

(** ** The update pass *)

Lemma with_sync_id w f : f (sync w) = sync w -> with_sync f w = w.
Proof. destruct w. unfold with_sync. cbn. intros ->. reflexivity. Qed.

Lemma remember_same id st pay s :
  orderStatusMap s !! id = Some st ->
  orderPaymentStatusMap s !! id = Some pay ->
  digitalMenuSync.remember id st pay false s = s.
Proof.
  intros H1 H2. destruct s as [P S Q]. unfold digitalMenuSync.remember.
  cbn in *. rewrite (insert_id S id st H1), (insert_id Q id pay H2).
  reflexivity.
Qed.

Lemma or_str_truthy p d : d <> "" -> truthy_str (Some (or_str p d)) = Some (or_str p d).
Proof.
  intros Hd. unfold or_str. destruct (truthy_str p) as [s|] eqn:E.
  - destruct p as [[|c r]|]; cbn in E; try discriminate.
    injection E as <-. reflexivity.
  - destruct d; [congruence | reflexivity].
Qed.

(** An external order whose status and payment status are the ones the
    synchronizer has cached, and whose payment status is not an
    invoice_generated variant, is left alone by the update pass: nothing is
    counted and nothing changes. *)
Theorem unchanged_order_is_left_alone :
  forall (w : World) (doc : CustomerDoc.t) (o : DigitalOrder.t),
    let id := digitalMenuSync.syntheticId doc o in
    let current := or_str (DigitalOrder.paymentStatus o) "pending" in
    DigitalOrder.syncedToPOS o = true ->
    orderStatusMap (sync w) !! id = Some (DigitalOrder.status o) ->
    orderPaymentStatusMap (sync w) !! id = Some current ->
    digitalMenuSync.is_invoice_generated current = false ->
    digitalMenuSync.refreshOrder doc o w = (Ok 0%nat, w).
Proof.
  intros w doc o id current Hsync Hst Hpay Hgen.
  unfold digitalMenuSync.refreshOrder. rewrite Hsync. cbn [negb].
  unfold bind at 1. unfold get_sync at 1. fold id current.
  rewrite Hgen, Hst, Hpay.
  assert (Hcur : truthy_str (Some current) = Some current)
    by (apply or_str_truthy; discriminate).
  rewrite Hcur.
  rewrite String.eqb_refl. cbn [negb mjoin option_bind mbind option_join].
  assert (Hquiet : (do* modify_sync
                          (digitalMenuSync.remember id (DigitalOrder.status o)
                             current false) in ret 0%nat) w = (Ok 0%nat, w)).
  { unfold bind, modify_sync, ret. rewrite with_sync_id; [reflexivity|].
    apply remember_same; assumption. }
  destruct (DigitalOrder.status o) as [s|] eqn:Es.
  - destruct (truthy_str (Some s)) as [s'|] eqn:Et.
    + assert (s' = s) as ->.
      { destruct s; cbn in Et; [discriminate|]. congruence. }
      unfold digitalMenuSync.same_id. rewrite String.eqb_refl. reflexivity.
    + cbn [orb]. exact Hquiet.
  - cbn [truthy_str orb]. exact Hquiet.
Qed.

Lemma unchanged_order_witness :
  digitalMenuSync.refreshOrder customer_c1
    (DigitalOrder.mk (Some "d1") "2024-01-01" (Some "confirmed")
       (Some "pending") None (Some "1") None [] (of_Z 0) (of_Z 0)
       true (Some 0) (Some "p1"))
    world_synced
  = (Ok 0%nat, world_synced).
Proof.
  apply unchanged_order_is_left_alone.
  - reflexivity.
  - vm_compute. reflexivity.
  - vm_compute. reflexivity.
  - reflexivity.
Defined.

Lemma updatePass_keeps_external :
  keeps (fun w => (digital_menu_customer_orders (db w), menuItems (db w),
                   map Order.id (orders (db w))))
        digitalMenuSync.updatePass.
Proof.
  unfold digitalMenuSync.updatePass.
  repeat first
    [ apply keeps_ret
    | (let w := fresh "w" in
       intros w;
       first [ reflexivity
             | cbn; rewrite ?map_update_first by reflexivity; reflexivity ])
    | apply keeps_for_of; intros ?
    | apply keeps_sum_of; intros ?
    | apply keeps_try_catch; [|intros ?]
    | apply keeps_bind; [|intros ?]
    | progress cbv beta zeta
    | split_branch
    | unfold_head ].
Qed.

(** The update pass converts nothing: it adds no native order and removes
    none, leaves the processed set and the menu alone and does not write to
    the external collection. *)
Theorem update_pass_never_converts :
  forall w : World,
    let w' := exec digitalMenuSync.updatePass w in
    (exists n, result digitalMenuSync.updatePass w = Ok n) /\
    map Order.id (orders (db w')) = map Order.id (orders (db w)) /\
    processedOrderIds (sync w') = processedOrderIds (sync w) /\
    digital_menu_customer_orders (db w') = digital_menu_customer_orders (db w) /\
    menuItems (db w') = menuItems (db w).
Proof.
  intros w w'. subst w'. unfold exec, result.
  pose proof (updatePass_keeps w) as K1. unfold observed in K1.
  pose proof (updatePass_keeps_external w) as K2. cbv beta in K2.
  injection K1 as _ _ Kp. injection K2 as Kd Km Ko.
  split; [|repeat split; assumption].
  assert (Hn : nothrow digitalMenuSync.updatePass)
    by (unfold digitalMenuSync.updatePass; frame).
  apply Hn.
Qed.

(** ** The two table-status cascades *)

Lemma all_ready_or_served (items : list OrderItem.t) :
  forallb (fun i => (OrderItem.status i =? "ready") ||
                    (OrderItem.status i =? "served")) items = true ->
  existsb (fun i => OrderItem.status i =? "preparing") items = false /\
  (forallb (fun i => OrderItem.status i =? "served") items = false ->
   existsb (fun i => OrderItem.status i =? "ready") items = true).
Proof.
  induction items as [|x r IH]; cbn; [split; [reflexivity | discriminate]|].
  intros [Hx Hr]%andb_true_iff. destruct (IH Hr) as [IH1 IH2].
  apply orb_true_iff in Hx as [Hx|Hx]; apply String.eqb_eq in Hx; rewrite Hx;
    cbn; split; auto.
Qed.

(** [syncTableStatusFromPOSOrder] against the cascade of the handlers: for
    an order with a customer phone and at least one item, the status written
    to the customer is the one the handlers derive for the table, except
    when the handlers derive occupied or nothing: then it is preparing as
    soon as an item is ready. *)
Theorem customer_status_follows_table_cascade :
  forall (w : World) (pid phone : string) (posOrder : Order.t),
    orderOf w pid = Some posOrder ->
    truthy_str (Order.customerPhone posOrder) = Some phone ->
    itemsOf w pid <> [] ->
    let items := itemsOf w pid in
    let anyReady := existsb (fun i => OrderItem.status i =? "ready") items in
    let status :=
      match routes.deriveTableStatus items with
      | Some s => if (s =? "occupied") && anyReady then "preparing" else s
      | None => if anyReady then "preparing" else "occupied"
      end in
    digitalMenuSync.syncTableStatusFromPOSOrder pid w
    = digitalMenuSync.updateCustomerTableStatus phone status w.
Proof.
  intros w pid phone posOrder Ho Hphone Hne items anyReady status.
  unfold digitalMenuSync.syncTableStatusFromPOSOrder.
  rewrite (bind_ok _ _ _ _ _ (getOrder_run w pid)), Ho, Hphone.
  rewrite (bind_ok _ _ _ _ _ (getOrderItems_run w pid)). fold items.
  assert (Hlen : Nat.eqb (List.length items) 0 = false).
  { subst items. destruct (itemsOf w pid); [contradiction | reflexivity]. }
  rewrite Hlen. clearbody items.
  f_equal. subst status. unfold routes.deriveTableStatus. fold anyReady.
  set (allServed := forallb (fun i => OrderItem.status i =? "served") items).
  set (allRS := forallb _ items).
  set (anyPreparing := existsb (fun i => OrderItem.status i =? "preparing") items).
  set (hasNew := existsb (fun i => OrderItem.status i =? "new") items).
  pose proof (all_ready_or_served items) as H. fold allRS anyPreparing allServed anyReady in H.
  destruct allServed; [reflexivity|].
  destruct allRS.
  - destruct (H eq_refl) as [-> ->]; reflexivity.
  - rewrite andb_false_r. destruct anyPreparing; [reflexivity|].
    cbn [orb]. destruct hasNew; destruct anyReady; reflexivity.
Qed.

Lemma customer_status_witness :
  routes.deriveTableStatus (itemsOf world_new_and_ready "p1") = Some "occupied" /\
  customers (db (exec (digitalMenuSync.syncTableStatusFromPOSOrder "p1")
                      world_new_and_ready))
  = [Customer.mk "555" (Some "preparing")].
Proof.
  split; [reflexivity|]. unfold exec.
  rewrite (customer_status_follows_table_cascade world_new_and_ready "p1" "555"
             (Order.mk "p1" (Some "t1") "dine-in" "sent_to_kitchen" "0"
                       (Some "Asha") (Some "555") None None None None None
                       0 None None None));
    [reflexivity | reflexivity | reflexivity | discriminate].
Defined.

(** ** Finding the table of an external order *)

Lemma hd_filter_spec {A} (p : A -> bool) (l : list A) :
  match hd_error (filter p l) with
  | Some x => In x l /\ p x = true
  | None => forall x, In x l -> p x = false
  end.
Proof.
  induction l as [|y r IH]; cbn; [intros x []|].
  destruct (p y) eqn:E; cbn.
  - split; [left; reflexivity | exact E].
  - destruct (hd_error (filter p r)).
    + destruct IH. split; [right|]; assumption.
    + intros x [<-|Hx]; [exact E | apply IH, Hx].
Qed.

(** [findTableByNumberAndFloor] reads only; it answers with a table that
    carries the number asked for, and with none only when no table carries
    it.  When a floor of the name asked for (letter case aside) exists, the
    first such floor decides: a table of that number on it is preferred to
    the tables of other floors. *)
Theorem table_found_by_number :
  forall (w : World) (tableNumber : string) (floorNumber : option string),
    exists found,
      digitalMenuSync.findTableByNumberAndFloor tableNumber floorNumber w
      = (Ok found, w) /\
      match found with
      | Some t => In t (tables (db w)) /\ Table.tableNumber t = tableNumber
      | None => forall t, In t (tables (db w)) -> Table.tableNumber t <> tableNumber
      end /\
      forall name floor t,
        truthy_str floorNumber = Some name ->
        find (fun f => toLowerCase (Floor.name f) =? toLowerCase name)
             (floors (db w)) = Some floor ->
        In t (tables (db w)) ->
        Table.tableNumber t = tableNumber ->
        Table.floorId t = Some (Floor.id floor) ->
        exists t', found = Some t' /\ Table.floorId t' = Some (Floor.id floor).
Proof.
  intros w tableNumber floorNumber.
  unfold digitalMenuSync.findTableByNumberAndFloor, storage.getTables,
    storage.getFloors.
  unfold bind at 1. unfold bind at 1, get_db at 1, ret at 1. cbn [fst snd db].
  pose proof (hd_filter_spec (fun t => Table.tableNumber t =? tableNumber)
                (tables (db w))) as Hfb.
  set (fallback := hd_error _) in *.
  assert (Gfb : match fallback with
                | Some t => In t (tables (db w)) /\ Table.tableNumber t = tableNumber
                | None => forall t, In t (tables (db w)) ->
                                    Table.tableNumber t <> tableNumber
                end).
  { destruct fallback as [t|].
    - destruct Hfb as [Hin Hn]. split; [exact Hin | apply String.eqb_eq, Hn].
    - intros t Ht. apply String.eqb_neq, Hfb, Ht. }
  destruct (truthy_str floorNumber) as [name|] eqn:Ef.
  - unfold bind, get_db, ret. cbn [fst snd db].
    destruct (find _ (floors (db w))) as [floor|] eqn:Efl.
    + set (onFloor := fun t : Table.t =>
                        (Table.tableNumber t =? tableNumber) &&
                        match Table.floorId t with
                        | Some fid => fid =? Floor.id floor
                        | None => false
                        end).
      destruct (find onFloor (tables (db w))) as [m|] eqn:Em.
      * exists (Some m). split; [reflexivity|].
        apply find_some in Em as [Hin Hm]. subst onFloor. cbn in Hm.
        apply andb_true_iff in Hm as [Hn Hf]. apply String.eqb_eq in Hn.
        split; [split; assumption|].
        intros name' floor' t [= <-] Hfl' _ _ _.
        rewrite Efl in Hfl'. injection Hfl' as <-.
        exists m. split; [reflexivity|].
        destruct (Table.floorId m) as [fid|]; [|discriminate].
        apply String.eqb_eq in Hf. rewrite Hf. reflexivity.
      * exists fallback. split; [reflexivity|]. split; [exact Gfb|].
        intros name' floor' t [= <-] Hfl' Hin Hn Hf. exfalso.
        rewrite Efl in Hfl'. injection Hfl' as <-.
        pose proof (find_none _ _ Em t Hin) as Hno. subst onFloor. cbn in Hno.
        rewrite Hn, Hf, !String.eqb_refl in Hno. discriminate.
    + exists fallback. split; [reflexivity|]. split; [exact Gfb|].
      intros name' floor' t [= <-] Hfl'. rewrite Efl in Hfl'. discriminate.
  - exists fallback. split; [reflexivity|]. split; [exact Gfb|].
    intros name' floor' t [=].
Qed.

(** ** What a conversion stores *)

Lemma bind_inv {A B} (m : M A) (k : A -> M B) w b w' :
  bind m k w = (Ok b, w') ->
  exists a w1, m w = (Ok a, w1) /\ k a w1 = (Ok b, w').
Proof.
  unfold bind. destruct (m w) as [[a|e] w1]; [|discriminate].
  intros H. exists a, w1. split; [reflexivity | exact H].
Qed.

Lemma convert_items_run pid (items : list DigitalItem.t) w w' :
  for_of items (fun item =>
    let* menuItem :=
      digitalMenuSync.findMenuItemByName (DigitalItem.menuItemName item) in
    let notes := digitalMenuSync.itemNotes item in
    let itemPrice := toFixed2 (or_else (DigitalItem.price item) zero) in
    do* storage.createOrderItem
          (InsertOrderItem.mk pid
             (or_str (option_map MenuItem.id menuItem) "unknown")
             (default "" (DigitalItem.menuItemName item))
             (DigitalItem.quantity item)
             itemPrice notes (Some "new")
             (Some (default true (option_map MenuItem.isVeg menuItem)))) in
    ret tt) w = (Ok tt, w') ->
  orders (db w') = orders (db w) /\
  map line_view (orderItems (db w'))
  = (map line_view (orderItems (db w)) ++
     map (fun item =>
            (pid, default "" (DigitalItem.menuItemName item),
             DigitalItem.quantity item,
             toFixed2 (or_else (DigitalItem.price item) zero), "new"))
         items)%list.
Proof.
  revert w. induction items as [|item items IH]; intros w.
  - cbn. intros [= <-]. rewrite app_nil_r. split; reflexivity.
  - cbn [for_of map]. unfold bind at 1. unfold bind at 1.
    destruct (digitalMenuSync.findMenuItemByName _ w) as [[mi|e] w1] eqn:E1;
      [|discriminate].
    assert (w1 = w) as ->.
    { unfold digitalMenuSync.findMenuItemByName, storage.getMenuItems, bind,
        get_db, ret, throw in E1. cbn in E1.
      destruct (menuItems (db w)); [congruence|].
      destruct (DigitalItem.menuItemName item); congruence. }
    cbv zeta. unfold bind at 1.
    unfold storage.createOrderItem at 1.
    unfold bind at 1, randomUUID at 1. cbn [fst snd].
    unfold bind at 1, modify_db at 1, ret at 1 2. cbn [fst snd].
    intros H. apply IH in H as [Ho Hi]. split; [exact Ho|].
    rewrite Hi. cbn. rewrite map_app, <- app_assoc. reflexivity.
Qed.

Lemma convert_run w o cn cp pid w' :
  digitalMenuSync.convertAndCreatePOSOrder o cn cp w = (Ok pid, w') ->
  pid = uuids w (drawn w) /\
  (exists tableId,
      orders (db w')
      = update_first (fun x => Order.id x =? pid)
          (Order.set_total (toFixed2 (or_else (DigitalOrder.total o) zero)))
          (orders (db w) ++
           [Order.mk pid tableId "dine-in"
              match DigitalOrder.paymentStatus o with
              | Some "paid" => "billed"
              | _ => "sent_to_kitchen"
              end
              "0" cn cp None (or_null (DigitalOrder.paymentMethod o))
              None None None (clock w) None None None])%list) /\
  map line_view (orderItems (db w'))
  = (map line_view (orderItems (db w)) ++
     map (fun item =>
            (pid, default "" (DigitalItem.menuItemName item),
             DigitalItem.quantity item,
             toFixed2 (or_else (DigitalItem.price item) zero), "new"))
         (DigitalOrder.items o))%list.
Proof.
  unfold digitalMenuSync.convertAndCreatePOSOrder. intros H.
  apply bind_inv in H as (tableId & w1 & E1 & H).
  match type of E1 with
  | ?m w = _ =>
      pose proof (keeps_run (fun w => (orders (db w), orderItems (db w),
                                       uuids w, drawn w, clock w))
                    m w _ _ ltac:(frame) E1) as K1
  end.
  injection K1 as K1o K1i K1u K1d K1c. cbv zeta in H.
  apply bind_inv in H as (order & w2 & E2 & H).
  unfold storage.createOrder, bind, randomUUID, new_Date, modify_db, ret in E2.
  cbn in E2. injection E2 as <- <-.
  cbn [Order.id] in H.
  apply bind_inv in H as (u & w3 & E3 & H).
  match type of E3 with
  | ?m ?w2 = _ =>
      pose proof (keeps_run (fun w => (orders (db w), orderItems (db w)))
                    m w2 _ _ ltac:(frame) E3) as K3
  end.
  cbn in K3. injection K3 as K3o K3i.
  apply bind_inv in H as ([] & w4 & E4 & H).
  apply convert_items_run in E4 as [K4o K4i].
  apply bind_inv in H as (u5 & w5 & E5 & H).
  unfold storage.updateOrderTotal, storage.update_order in E5.
  injection E5 as _ <-.
  apply bind_inv in H as (u6 & w6 & E6 & H).
  match type of E6 with
  | ?m ?w5 = _ =>
      pose proof (keeps_run (fun w => (orders (db w), orderItems (db w)))
                    m w5 _ _ ltac:(frame) E6) as K6
  end.
  cbn in K6. injection K6 as K6o K6i.
  unfold ret in H. injection H as <- <-.
  rewrite K1u, K1d. split; [reflexivity|]. split.
  - exists tableId. rewrite K6o, K4o, K3o. cbn. rewrite K1o, K1c, K1u, K1d.
    reflexivity.
  - rewrite K6i, K4i, K3i. cbn. rewrite K1i, ?K1u, ?K1d. reflexivity.
Qed.

(** A conversion that succeeds stores the native order under the next
    identifier, billed when the external order is paid and sent to the
    kitchen otherwise, one line per external line at the external price, and
    as total the total of the external order: the total is taken over, not
    computed from the lines. *)
Theorem converted_order_carries_external_total :
  forall (w : World) (o : DigitalOrder.t) (cn cp : option string)
         (pid : string),
    orderOf w (uuids w (drawn w)) = None ->
    result (digitalMenuSync.convertAndCreatePOSOrder o cn cp) w = Ok pid ->
    let w' := exec (digitalMenuSync.convertAndCreatePOSOrder o cn cp) w in
    pid = uuids w (drawn w) /\
    (exists order,
        orderOf w' pid = Some order /\
        Order.total order = toFixed2 (or_else (DigitalOrder.total o) zero) /\
        Order.status order
        = match DigitalOrder.paymentStatus o with
          | Some "paid" => "billed"
          | _ => "sent_to_kitchen"
          end /\
        Order.customerName order = cn /\
        Order.customerPhone order = cp) /\
    map line_view (orderItems (db w'))
    = (map line_view (orderItems (db w)) ++
       map (fun item =>
              (pid, default "" (DigitalItem.menuItemName item),
               DigitalItem.quantity item,
               toFixed2 (or_else (DigitalItem.price item) zero), "new"))
           (DigitalOrder.items o))%list.
Proof.
  intros w o cn cp pid Hfresh Hres w'. subst w'. unfold exec, result in *.
  destruct (digitalMenuSync.convertAndCreatePOSOrder o cn cp w) as [r w'] eqn:E.
  cbn [fst snd] in *. subst r.
  destruct (convert_run w o cn cp pid w' E) as (Hpid & (tableId & Ho) & Hi).
  split; [exact Hpid|]. split; [|exact Hi].
  eexists. unfold orderOf. rewrite Ho.
  rewrite find_update_first by reflexivity.
  rewrite find_app_none by (rewrite Hpid; exact Hfresh).
  cbn. rewrite String.eqb_refl. cbn. repeat split.
Qed.

Lemma converted_order_witness :
  let w' := exec (digitalMenuSync.convertAndCreatePOSOrder external_d2
                    (Some "Ravi") (Some "777")) world_unsynced in
  option_map Order.total (orderOf w' "uuid-0") = Some "199.00" /\
  map line_view (orderItems (db w'))
  = [("uuid-0", "Dal", of_Z 2, "99.50", "new")].
Proof.
  intros w'.
  destruct (converted_order_carries_external_total world_unsynced external_d2
              (Some "Ravi") (Some "777") "uuid-0" eq_refl eq_refl)
    as (_ & (order & Ho & Ht & _) & Hi).
  fold w' in Ho, Hi. rewrite Ho, Hi. cbn [option_map]. rewrite Ht.
  split; reflexivity.
Defined.

(** ** Item status and the table *)

Lemma itemOf_updated w id s item :
  itemOf w id = Some item ->
  itemOf (with_db (with_orderItems
                     (update_first (fun i => OrderItem.id i =? id)
                                   (OrderItem.set_status s))) w) id
  = Some (OrderItem.set_status s item).
Proof.
  intros H. unfold itemOf in *. cbn. rewrite find_update_first by reflexivity.
  rewrite H. reflexivity.
Qed.

Lemma updated_item_in_order (l : list OrderItem.t) id s item :
  find (fun i => OrderItem.id i =? id) l = Some item ->
  In (OrderItem.set_status s item)
     (filter (fun i => OrderItem.orderId i =? OrderItem.orderId item)
             (update_first (fun i => OrderItem.id i =? id)
                           (OrderItem.set_status s) l)).
Proof.
  induction l as [|x r IH]; cbn; [discriminate|].
  destruct (OrderItem.id x =? id) eqn:E.
  - intros [= ->]. cbn. rewrite String.eqb_refl. left. reflexivity.
  - intros H. cbn. destruct (OrderItem.orderId x =? OrderItem.orderId item);
      [right|]; apply IH, H.
Qed.

(** PATCH /api/order-items/:id/status on an existing item of an order that is
    bound to an existing table: the item gets the status, the order now has at
    least this item, the table carries the status that the cascade derives
    from the order's items (and keeps its status when no rule fires), and no
    order is changed. *)
Theorem item_status_sets_table_status :
  forall (w : World) (id status tid : string) (item : OrderItem.t)
         (o : Order.t) (t : Table.t),
    itemOf w id = Some item ->
    orderOf w (OrderItem.orderId item) = Some o ->
    truthy_str (Order.tableId o) = Some tid ->
    tableOf w tid = Some t ->
    let w' := exec (routes.patch_order_item_status id status) w in
    let items := itemsOf w' (OrderItem.orderId item) in
    result (routes.patch_order_item_status id status) w
      = Ok (mkResponse 200 (JItem (OrderItem.set_status status item))) /\
    itemOf w' id = Some (OrderItem.set_status status item) /\
    In (OrderItem.set_status status item) items /\
    option_map Table.status (tableOf w' tid)
      = Some (default (Table.status t) (routes.deriveTableStatus items)) /\
    orders (db w') = orders (db w).
Proof.
  intros w id status tid item o t Hi Ho Htid Ht w' items.
  set (w1 := with_db (with_orderItems
                        (update_first (fun i => OrderItem.id i =? id)
                                      (OrderItem.set_status status))) w).
  set (oid := OrderItem.orderId item).
  set (s := routes.deriveTableStatus (itemsOf w1 oid)).
  set (w2 := match s with
             | Some s => with_db (with_tables
                                    (update_first (fun t => Table.id t =? tid)
                                                  (Table.set_status s))) w1
             | None => w1
             end).
  assert (Hrun : exists w3,
             routes.patch_order_item_status id status w
             = (Ok (mkResponse 200 (JItem (OrderItem.set_status status item))), w3) /\
             orders (db w3) = orders (db w2) /\
             orderItems (db w3) = orderItems (db w2) /\
             tables (db w3) = tables (db w2)).
  { unfold routes.patch_order_item_status.
    rewrite (bind_ok _ _ w (Some (OrderItem.set_status status item)) w1)
      by (unfold storage.updateOrderItemStatus, updated_doc;
          fold (itemOf w id); rewrite Hi; reflexivity).
    change (OrderItem.orderId (OrderItem.set_status status item)) with oid.
    rewrite (bind_ok _ _ _ _ _ (getOrder_run w1 oid)).
    change (orderOf w1 oid) with (orderOf w oid). subst oid. rewrite Ho, Htid.
    set (oid := OrderItem.orderId item) in *.
    rewrite (bind_ok _ _ w1 tt w2).
    2:{ rewrite (bind_ok _ _ _ _ _ (getOrderItems_run w1 oid)). fold s.
        subst w2. destruct s; reflexivity. }
    match goal with
    | |- context [bind ?m _ w2] =>
        destruct (nothrow_run m w2 ltac:(frame)) as (u & w3 & E3);
        pose proof (keeps_run (fun w => (orders (db w), orderItems (db w),
                                         tables (db w)))
                      m w2 _ _ ltac:(frame) E3) as K3
    end.
    rewrite (bind_ok _ _ _ _ _ E3). injection K3 as K3o K3i K3t.
    exists w3. split; [reflexivity|]. auto. }
  destruct Hrun as (w3 & E & Ko & Ki & Kt).
  assert (Ew : w' = w3) by (subst w'; unfold exec; rewrite E; reflexivity).
  assert (Hitems : items = itemsOf w1 oid).
  { subst items. rewrite Ew. unfold itemsOf. rewrite Ki. subst w2.
    destruct s; reflexivity. }
  unfold result. rewrite E, Ew. cbn [fst].
  split; [reflexivity|]. split.
  { unfold itemOf. rewrite Ki.
    assert (orderItems (db w2) = orderItems (db w1)) as ->
        by (subst w2; destruct s; reflexivity).
    apply (itemOf_updated w id status item Hi). }
  split.
  { rewrite Hitems. unfold itemsOf. subst w1. cbn.
    apply updated_item_in_order. exact Hi. }
  split.
  { unfold tableOf. rewrite Kt, Hitems. fold s. subst w2.
    destruct s as [s'|]; cbn.
    - rewrite find_update_first by reflexivity.
      fold (tableOf w tid). rewrite Ht. reflexivity.
    - fold (tableOf w tid). rewrite Ht. reflexivity. }
  rewrite Ko. subst w2. destruct s; reflexivity.
Qed.

Lemma item_status_witness :
  option_map Table.status
    (tableOf (exec (routes.patch_order_item_status "i1" "preparing")
                   world_one_line) "t1") = Some "preparing".
Proof.
  destruct (item_status_sets_table_status world_one_line "i1" "preparing" "t1"
              (sample_item "i1" "o1" "m1" 2 "199.00" "new")
              (sample_order "o1" (Some "t1") "saved")
              (Table.mk "t1" "1" 4 "occupied" (Some "o1") None)
              eq_refl eq_refl eq_refl eq_refl) as (_ & _ & _ & H & _).
  rewrite H. reflexivity.
Defined.

(** ** What an accepted checkout leaves *)

Lemma deduct_keeps_front id :
  keeps (fun w => (orders (db w), tables (db w), customers (db w),
                   invoices (db w), orderItems (db w)))
        (storage.deductInventoryForOrder id).
Proof. unfold storage.deductInventoryForOrder. frame. Qed.

(** An accepted checkout of an order bound to an existing table: the order
    is paid at the current time with the payment mode of the request, the
    table is free and bound to no order, the customer with the order's phone
    is set to free, exactly one invoice with status Paid, the next number and
    the bill total is appended, and the order items are as they were. *)
Theorem accepted_checkout_frees_table :
  forall (w : World) (id tid : string) (body : CheckoutBody.t) (o : Order.t)
         (t : Table.t),
    orderOf w id = Some o ->
    routes.checkSplitPayments (CheckoutBody.splitPayments body)
      (billTotal (itemsOf w id)) = None ->
    truthy_str (Order.tableId o) = Some tid ->
    tableOf w tid = Some t ->
    let w' := exec (routes.post_order_checkout id body) w in
    orderOf w' id
      = Some (Order.set_paid (CheckoutBody.paymentMode body) (clock w) o) /\
    tableOf w' tid
      = Some (Table.set_status "free" (Table.set_currentOrderId None t)) /\
    customers (db w')
      = match truthy_str (Order.customerPhone o) with
        | Some phone =>
            update_first (fun c => Customer.phoneNumber c =? phone)
                         (Customer.set_tableStatus "free") (customers (db w))
        | None => customers (db w)
        end /\
    (exists inv,
        invoices (db w') = (invoices (db w) ++ [inv])%list /\
        Invoice.invoiceNumber inv
          = invoiceNumberFor (List.length (invoices (db w))) /\
        Invoice.status inv = "Paid" /\
        Invoice.total inv = toFixed2 (billTotal (itemsOf w id))) /\
    orderItems (db w') = orderItems (db w).
Proof.
  intros w id tid body o t Ho Hc Htid Ht w'. subst w'.
  pose proof (order_id_found _ _ _ Ho) as Hid.
  unfold exec, routes.post_order_checkout.
  rewrite (bind_ok _ _ _ _ _ (getOrder_run w id)), Ho.
  rewrite (bind_ok _ _ _ _ _ (getOrderItems_run w id)).
  fold (billTotal (itemsOf w id)). rewrite Hc.
  set (paid := Order.set_paid (CheckoutBody.paymentMode body) (clock w) o).
  set (w1 := with_db (with_orders
                        (update_first (fun o => Order.id o =? id)
                           (Order.set_paid (CheckoutBody.paymentMode body)
                                           (clock w)))) w).
  rewrite (bind_ok _ _ w (Some paid) w1)
    by (unfold storage.checkoutOrder, storage.update_order, new_Date, bind,
          updated_doc; cbn; fold (orderOf w id); rewrite Ho; reflexivity).
  change (Order.tableId paid) with (Order.tableId o). rewrite Htid.
  change (Order.customerPhone paid) with (Order.customerPhone o).
  set (w2 := with_db (with_tables
                        (fun l =>
                           update_first (fun t => Table.id t =? tid)
                             (Table.set_status "free")
                             (update_first (fun t => Table.id t =? tid)
                                (Table.set_currentOrderId None) l))) w1).
  rewrite (bind_ok _ _ w1 (Some t) w2)
    by (unfold storage.getTable, storage.updateTableOrder,
          storage.updateTableStatus, storage.update_table, bind, get_db, ret;
        cbn; fold (tableOf w tid); rewrite Ht; reflexivity).
  set (w3 := match truthy_str (Order.customerPhone o) with
             | Some phone =>
                 with_db (with_customers
                            (update_first
                               (fun c => Customer.phoneNumber c =? phone)
                               (Customer.set_tableStatus "free"))) w2
             | None => w2
             end).
  rewrite (bind_ok _ _ w2 tt w3)
    by (subst w3; destruct (truthy_str (Order.customerPhone o)); reflexivity).
  destruct (composeInvoice_appends paid (itemsOf w id) (Some t)
              (or_str (CheckoutBody.paymentMode body) "cash")
              (option_map Stringified (CheckoutBody.splitPayments body))
              "Paid" w3) as (inv & E & Hn & _ & Hs & _ & Htot).
  rewrite (bind_ok _ _ _ _ _ E), bind_try_unit. cbn [ret snd].
  change (Order.id paid) with (Order.id o).
  pose proof (deduct_keeps_front (Order.id o) (add_invoice inv w3)) as K.
  cbv beta in K. injection K as Ko Kt Kc Ki Kit.
  assert (I3 : invoices (db w3) = invoices (db w))
    by (subst w3; destruct (truthy_str (Order.customerPhone o)); reflexivity).
  split.
  { unfold orderOf. rewrite Ko.
    assert (orders (db w3) = orders (db w1)) as ->
        by (subst w3; destruct (truthy_str (Order.customerPhone o)); reflexivity).
    apply (orderOf_updated w id
             (Order.set_paid (CheckoutBody.paymentMode body) (clock w)) o Ho).
    reflexivity. }
  split.
  { unfold tableOf. rewrite Kt.
    assert (tables (db w3) = tables (db w2)) as ->
        by (subst w3; destruct (truthy_str (Order.customerPhone o)); reflexivity).
    subst w2. cbn. rewrite find_update_first_twice by reflexivity.
    fold (tableOf w tid). rewrite Ht. reflexivity. }
  split.
  { rewrite Kc. subst w3. destruct (truthy_str (Order.customerPhone o));
      reflexivity. }
  split.
  { exists inv. rewrite Ki. rewrite I3 in Hn |- *.
    repeat split; assumption. }
  rewrite Kit. subst w3. destruct (truthy_str (Order.customerPhone o));
    reflexivity.
Qed.

Lemma accepted_checkout_witness :
  tableOf (exec (routes.post_order_checkout "o1" cash_checkout) world_kitchen)
          "t1"
  = Some (Table.mk "t1" "1" 4 "free" None None).
Proof.
  destruct (accepted_checkout_frees_table world_kitchen "o1" "t1" cash_checkout
              (sample_order "o1" (Some "t1") "saved")
              (Table.mk "t1" "1" 4 "occupied" (Some "o1") None)
              eq_refl eq_refl eq_refl eq_refl) as (_ & H & _).
  rewrite H. reflexivity.
Defined.

(** ** Deleting an order line *)

Lemma length_delete_first {A} (p : A -> bool) (l : list A) x :
  find p l = Some x -> S (List.length (delete_first p l)) = List.length l.
Proof.
  induction l as [|y r IH]; cbn; [discriminate|].
  destruct (p y); [reflexivity|]. intros H. cbn. rewrite (IH H). reflexivity.
Qed.

Lemma filter_delete_first_other {A} (p q : A -> bool) (l : list A) x :
  find p l = Some x -> q x = false ->
  filter q (delete_first p l) = filter q l.
Proof.
  induction l as [|y r IH]; cbn; [discriminate|].
  destruct (p y) eqn:Ep.
  - intros [= ->] Hq. rewrite Hq. reflexivity.
  - intros H Hq. cbn. rewrite (IH H Hq). reflexivity.
Qed.

Lemma find_delete_first_unique (l : list OrderItem.t) id :
  NoDup (map OrderItem.id l) ->
  find (fun i => OrderItem.id i =? id)
       (delete_first (fun i => OrderItem.id i =? id) l) = None.
Proof.
  induction l as [|y r IH]; cbn; [reflexivity|]. intros Hnd.
  inversion Hnd as [|? ? Hy Hr]; subst.
  destruct (OrderItem.id y =? id) eqn:E.
  - apply String.eqb_eq in E. subst id.
    destruct (find _ r) as [z|] eqn:F; [|reflexivity].
    apply find_some in F as [Hz Hid]. apply String.eqb_eq in Hid.
    exfalso. apply Hy. rewrite <- Hid. apply in_map, Hz.
  - cbn. rewrite E. apply IH, Hr.
Qed.

(** DELETE /api/order-items/:id on an existing line removes one line, of the
    order the line belonged to: the lines of every other order are as they
    were, and with unique line identifiers the line is gone.  The tables are
    not touched: unlike adding a line or changing its status, deleting a line
    does not derive the table status again. *)
Theorem item_deletion_removes_one_line :
  forall (w : World) (id : string) (item : OrderItem.t),
    itemOf w id = Some item ->
    let w' := exec (routes.delete_order_item id) w in
    S (List.length (orderItems (db w'))) = List.length (orderItems (db w)) /\
    (forall other, other <> OrderItem.orderId item ->
                   itemsOf w' other = itemsOf w other) /\
    (NoDup (map OrderItem.id (orderItems (db w))) -> itemOf w' id = None) /\
    tables (db w') = tables (db w) /\
    customers (db w') = customers (db w).
Proof.
  intros w id item Hi w'.
  assert (E : orderItems (db w')
              = delete_first (fun i => OrderItem.id i =? id) (orderItems (db w)) /\
              tables (db w') = tables (db w) /\
              customers (db w') = customers (db w)).
  { subst w'. unfold exec, routes.delete_order_item.
    unfold_storage. unfold_monad. cbn. unfold itemOf in Hi. rewrite Hi.
    rewrite (proj2 (existsb_exists _ _)) by (apply find_some in Hi; eauto).
    cbn. repeat split. }
  destruct E as (Ei & Et & Ec). unfold itemsOf, itemOf in *. rewrite Ei.
  split; [apply (length_delete_first _ _ item Hi)|].
  split; [|split; [apply find_delete_first_unique | split; assumption]].
  intros other Hne. apply (filter_delete_first_other _ _ _ item Hi).
  apply String.eqb_neq. congruence.
Qed.

Lemma item_deletion_witness :
  orderItems (db (exec (routes.delete_order_item "i1") world_kitchen_two_lines))
  = [sample_item "i2" "o1" "m1" 3 "100.00" "served"] /\
  itemOf (exec (routes.delete_order_item "i1") world_kitchen_two_lines) "i1"
  = None.
Proof.
  split; [reflexivity|].
  destruct (item_deletion_removes_one_line world_kitchen_two_lines "i1"
              (sample_item "i1" "o1" "m1" 2 "100.00" "served") eq_refl)
    as (_ & _ & H & _).
  apply H. cbn. repeat constructor; cbn; intuition discriminate.
Defined.

(** ** Deleting floors and recipes *)

Lemma delete_first_keeps {A} (p : A -> bool) (l : list A) x :
  In x l -> p x = false -> In x (delete_first p l).
Proof.
  induction l as [|y r IH]; cbn; [tauto|].
  intros [->|Hx] Hp.
  - rewrite Hp. left. reflexivity.
  - destruct (p y); [exact Hx | right; apply IH; assumption].
Qed.

Lemma filter_nil_none {A} (p : A -> bool) (l : list A) :
  List.length (filter p l) = 0%nat -> forall x, In x l -> p x = false.
Proof.
  intros H x Hx. destruct (p x) eqn:E; [|reflexivity]. exfalso.
  assert (Hin : In x (filter p l)) by (apply filter_In; auto).
  destruct (filter p l); [destruct Hin | discriminate].
Qed.

(** DELETE /api/floors/:id never leaves a table on a floor that is gone: when
    a table is assigned to the floor, [deleteFloor] throws and nothing
    changes; otherwise every table that named a stored floor still does.  An
    unknown floor is answered 404 without a change. *)
Theorem floor_deletion_keeps_tables_placed :
  forall (w : World) (id : string),
    let w' := exec (routes.delete_floor id) w in
    ((exists t, In t (tables (db w)) /\ Table.floorId t = Some id) ->
     (exists message, result (routes.delete_floor id) w = Throw message) /\
     w' = w) /\
    (find (fun f => Floor.id f =? id) (floors (db w)) = None ->
     (forall t, In t (tables (db w)) -> Table.floorId t <> Some id) ->
     routes.delete_floor id w
     = (Ok (mkResponse 404 (JError "Floor not found")), w)) /\
    (floors_known w -> floors_known w').
Proof.
  intros w id w'. subst w'.
  unfold exec, result, routes.delete_floor, storage.deleteFloor.
  unfold bind at 1 3 5 7. unfold bind at 1 2 3 4, get_db at 1 2 3 4.
  cbn [fst snd].
  set (onFloor := fun t : Table.t =>
                    match Table.floorId t with
                    | Some floorId => floorId =? id
                    | None => false
                    end).
  set (n := List.length (filter onFloor (tables (db w)))).
  split; [|split].
  - intros (t & Ht & Hf).
    assert (Hn : (0 <? n)%nat = true).
    { apply Nat.ltb_lt. subst n.
      assert (Hin : In t (filter onFloor (tables (db w)))).
      { apply filter_In. split; [exact Ht|]. subst onFloor. cbn.
        rewrite Hf. apply String.eqb_refl. }
      destruct (filter onFloor (tables (db w))); [destruct Hin | cbn; lia]. }
    rewrite Hn. cbn. split; [eexists; reflexivity | reflexivity].
  - intros Hnone Hno.
    assert (Hn : (0 <? n)%nat = false).
    { apply Nat.ltb_ge. subst n.
      destruct (filter onFloor (tables (db w))) as [|t r] eqn:E; [cbn; lia|].
      exfalso. assert (Hin : In t (filter onFloor (tables (db w))))
        by (rewrite E; left; reflexivity).
      apply filter_In in Hin as [Hin Hp]. subst onFloor. cbn in Hp.
      destruct (Table.floorId t) as [f|] eqn:Ef; [|discriminate].
      apply String.eqb_eq in Hp. subst f. exact (Hno t Hin Ef). }
    rewrite Hn.
    assert (He : existsb (fun f => Floor.id f =? id) (floors (db w)) = false).
    { apply not_true_iff_false. intros He.
      apply existsb_exists in He as (f & Hf & Hp).
      pose proof (find_none _ _ Hnone f Hf) as Hq. cbn in Hq. congruence. }
    cbn [fst snd]. rewrite He. cbn [negb ret].
    f_equal. destruct w as [[] ? ? ? ? ?]. unfold with_db, with_floors. cbn.
    cbn in Hnone. rewrite (delete_first_none _ _ Hnone). reflexivity.
  - intros Hk. destruct (0 <? n)%nat eqn:Hn; [exact Hk|].
    apply Nat.ltb_ge in Hn. assert (Hz : n = 0%nat) by lia.
    pose proof (filter_nil_none onFloor (tables (db w)) Hz) as Hno.
    cbn [fst snd].
    assert (G : floors_known
                  (with_db (with_floors
                              (delete_first (fun f => Floor.id f =? id))) w)).
    { intros t f Ht Hf. cbn in Ht. destruct (Hk t f Ht Hf) as (fl & Hfl & Hid).
      exists fl. split; [|exact Hid]. cbn. apply delete_first_keeps; [exact Hfl|].
      rewrite Hid. specialize (Hno t Ht). subst onFloor. cbn in Hno.
      rewrite Hf in Hno. exact Hno. }
    destruct (negb _); exact G.
Qed.

Lemma floor_deletion_witness :
  exec (routes.delete_floor "f1") world_two_floors = world_two_floors /\
  floors_known (exec (routes.delete_floor "f3") world_two_floors).
Proof.
  destruct (floor_deletion_keeps_tables_placed world_two_floors "f1")
    as (Hthrow & _ & _).
  destruct (floor_deletion_keeps_tables_placed world_two_floors "f3")
    as (_ & _ & Hkeep).
  split.
  - apply Hthrow. eexists. split; [left; reflexivity | reflexivity].
  - apply Hkeep. intros t floorId [<-|[<-|[]]] [= <-].
    + eexists. split; [left; reflexivity | reflexivity].
    + eexists. split; [right; left; reflexivity | reflexivity].
Defined.

Lemma ingredients_gone (l : list RecipeIngredient.t) id :
  filter (fun g => RecipeIngredient.recipeId g =? id)
         (filter (fun g => negb (RecipeIngredient.recipeId g =? id)) l) = [].
Proof.
  induction l as [|g r IH]; [reflexivity|]. cbn.
  destruct (RecipeIngredient.recipeId g =? id) eqn:Eg; cbn;
    [|rewrite Eg]; exact IH.
Qed.

Lemma ingredients_of_others (l : list RecipeIngredient.t) id other :
  other <> id ->
  filter (fun g => RecipeIngredient.recipeId g =? other)
         (filter (fun g => negb (RecipeIngredient.recipeId g =? id)) l)
  = filter (fun g => RecipeIngredient.recipeId g =? other) l.
Proof.
  intros Hne. induction l as [|g r IH]; [reflexivity|]. cbn.
  destruct (RecipeIngredient.recipeId g =? id) eqn:Eg; cbn.
  - apply String.eqb_eq in Eg.
    destruct (RecipeIngredient.recipeId g =? other) eqn:Eo; [|exact IH].
    apply String.eqb_eq in Eo. congruence.
  - destruct (RecipeIngredient.recipeId g =? other); [f_equal|]; exact IH.
Qed.

(** DELETE /api/recipes/:id removes every ingredient of the recipe, whether
    or not the recipe exists: it answers 200 when a recipe carried the id and
    404 otherwise, and in both cases no ingredient of that recipe is left,
    while the ingredients of the other recipes and all other recipes stay. *)
Theorem recipe_deletion_takes_its_ingredients :
  forall (w : World) (id : string),
    let w' := exec (routes.delete_recipe id) w in
    result (routes.delete_recipe id) w
      = Ok (if existsb (fun r => Recipe.id r =? id) (recipes (db w))
            then mkResponse 200 JSuccess
            else mkResponse 404 (JError "Recipe not found")) /\
    ingredientsOf w' id = [] /\
    (forall other, other <> id -> ingredientsOf w' other = ingredientsOf w other) /\
    (forall r, In r (recipes (db w)) -> Recipe.id r <> id ->
               In r (recipes (db w'))) /\
    inventoryItems (db w') = inventoryItems (db w).
Proof.
  intros w id w'. subst w'.
  set (w1 := with_db (with_recipes (delete_first (fun r => Recipe.id r =? id)))
               (with_db (with_recipeIngredients
                           (filter (fun g => negb (RecipeIngredient.recipeId g
                                                   =? id)))) w)).
  assert (E : routes.delete_recipe id w
              = (Ok (if existsb (fun r => Recipe.id r =? id) (recipes (db w))
                     then mkResponse 200 JSuccess
                     else mkResponse 404 (JError "Recipe not found")), w1)).
  { unfold routes.delete_recipe, storage.deleteRecipe.
    unfold try_catch, bind, modify_db, ret. cbn [fst snd].
    change (recipes (db (with_db _ w))) with (recipes (db w)).
    destruct (existsb _ (recipes (db w))); reflexivity. }
  unfold exec, result. rewrite E. cbn [fst snd].
  split; [reflexivity|]. unfold ingredientsOf. subst w1. cbn.
  split; [apply ingredients_gone|].
  split; [intros other Hne; apply ingredients_of_others, Hne|].
  split; [|reflexivity].
  intros r Hr Hne. apply delete_first_keeps; [exact Hr|].
  apply String.eqb_neq, Hne.
Qed.

Lemma recipe_deletion_witness :
  ingredientsOf (exec (routes.delete_recipe "r1") world_kitchen) "r1" = [] /\
  ingredientsOf world_kitchen "r1" <> [].
Proof.
  destruct (recipe_deletion_takes_its_ingredients world_kitchen "r1")
    as (_ & H & _).
  split; [exact H | vm_compute; discriminate].
Defined.

(** ** Loading the memory of the synchronizer *)

Lemma with_sync_comp w f g :
  with_sync f (with_sync g w) = with_sync (fun s => f (g s)) w.
Proof. reflexivity. Qed.

Lemma with_sync_same w : with_sync (fun s => s) w = w.
Proof. destruct w. reflexivity. Qed.

Lemma load_orders_run doc os w :
  for_of os (fun order =>
    if DigitalOrder.syncedToPOS order then
      let orderId := digitalMenuSync.syntheticId doc order in
      modify_sync
        (digitalMenuSync.remember orderId (DigitalOrder.status order)
           (or_str (DigitalOrder.paymentStatus order) "pending") true)
    else ret tt) w
  = (Ok tt,
     with_sync
       (remembered (map (fun o => (digitalMenuSync.syntheticId doc o, o))
                        (filter DigitalOrder.syncedToPOS os))) w).
Proof.
  revert w. induction os as [|o os IH]; intros w.
  - cbn. rewrite with_sync_same. reflexivity.
  - cbn [for_of filter]. unfold bind at 1.
    destruct (DigitalOrder.syncedToPOS o); cbn [fst snd modify_sync ret].
    + rewrite IH, with_sync_comp. reflexivity.
    + apply IH.
Qed.

Lemma remembered_app fl1 fl2 s :
  remembered (fl1 ++ fl2) s = remembered fl2 (remembered fl1 s).
Proof. apply fold_left_app. Qed.

Lemma load_docs_run docs w :
  for_of docs (fun customerDoc =>
    for_of (CustomerDoc.orders customerDoc) (fun order =>
      if DigitalOrder.syncedToPOS order then
        let orderId := digitalMenuSync.syntheticId customerDoc order in
        modify_sync
          (digitalMenuSync.remember orderId (DigitalOrder.status order)
             (or_str (DigitalOrder.paymentStatus order) "pending") true)
      else ret tt)) w
  = (Ok tt, with_sync (remembered (flagged docs)) w).
Proof.
  revert w. induction docs as [|doc docs IH]; intros w.
  - cbn. rewrite with_sync_same. reflexivity.
  - cbn [for_of]. rewrite (bind_ok _ _ _ _ _ (load_orders_run doc _ w)).
    rewrite IH, with_sync_comp. unfold flagged. cbn [flat_map].
    f_equal. unfold with_sync. f_equal. symmetry. apply remembered_app.
Qed.

Lemma flagged_nonempty docs :
  flagged
    (filter (fun c => negb (Nat.eqb (List.length (CustomerDoc.orders c)) 0)) docs)
  = flagged docs.
Proof.
  induction docs as [|doc docs IH]; [reflexivity|]. cbn [filter].
  destruct (CustomerDoc.orders doc) as [|o os] eqn:E; cbn [List.length Nat.eqb negb].
  - unfold flagged in *. cbn [flat_map]. rewrite E. exact IH.
  - unfold flagged in *. cbn [flat_map]. rewrite IH. reflexivity.
Qed.

Lemma remembered_cons i o fl s :
  remembered ((i, o) :: fl) s
  = remembered fl
      (digitalMenuSync.remember i (DigitalOrder.status o)
         (or_str (DigitalOrder.paymentStatus o) "pending") true s).
Proof. reflexivity. Qed.

Lemma remembered_processed fl s id :
  id ∈ processedOrderIds (remembered fl s)
  <-> id ∈ processedOrderIds s \/ In id (map fst fl).
Proof.
  revert s. induction fl as [|[i o] fl IH]; intros s.
  - cbn. tauto.
  - rewrite remembered_cons, IH. cbn.
    rewrite elem_of_union, elem_of_singleton.
    split; intros H; intuition auto.
Qed.

Lemma remembered_keeps fl s id :
  ~ In id (map fst fl) ->
  orderStatusMap (remembered fl s) !! id = orderStatusMap s !! id /\
  orderPaymentStatusMap (remembered fl s) !! id = orderPaymentStatusMap s !! id.
Proof.
  revert s. induction fl as [|[i o] fl IH]; intros s Hn; [split; reflexivity|].
  rewrite remembered_cons. cbn [map fst In] in Hn.
  destruct (IH (digitalMenuSync.remember i (DigitalOrder.status o)
                  (or_str (DigitalOrder.paymentStatus o) "pending") true s))
    as [-> ->]; [tauto|].
  cbn. rewrite !lookup_insert_ne by tauto. split; reflexivity.
Qed.

Lemma remembered_lookup fl s id o :
  NoDup (map fst fl) -> In (id, o) fl ->
  orderStatusMap (remembered fl s) !! id = Some (DigitalOrder.status o) /\
  orderPaymentStatusMap (remembered fl s) !! id
  = Some (or_str (DigitalOrder.paymentStatus o) "pending").
Proof.
  revert s. induction fl as [|[i x] fl IH]; intros s Hnd Hin; [destruct Hin|].
  cbn [map fst] in Hnd. inversion Hnd as [|? ? Hi Hr]; subst.
  rewrite remembered_cons.
  destruct Hin as [[= -> ->]|Hin].
  - destruct (remembered_keeps fl
                (digitalMenuSync.remember id (DigitalOrder.status o)
                   (or_str (DigitalOrder.paymentStatus o) "pending") true s)
                id Hi) as [-> ->].
    cbn. rewrite !lookup_insert_eq. split; reflexivity.
  - apply IH; assumption.
Qed.

(** [loadSyncState] reads the external collection and leaves the store as
    it is.  Afterwards the processed set holds what it held plus the synthetic
    identifiers of the orders flagged as synced, and, when these identifiers
    are pairwise distinct, the caches hold for each flagged order its status
    and its payment status (pending when it has none). *)
Theorem loadSyncState_restores_memory :
  forall w : World,
    let w' := exec digitalMenuSync.loadSyncState w in
    let fl := flagged (digital_menu_customer_orders (db w)) in
    result digitalMenuSync.loadSyncState w = Ok tt /\
    db w' = db w /\
    (forall id,
        id ∈ processedOrderIds (sync w')
        <-> id ∈ processedOrderIds (sync w) \/ In id (map fst fl)) /\
    (NoDup (map fst fl) ->
     forall id o,
       In (id, o) fl ->
       orderStatusMap (sync w') !! id = Some (DigitalOrder.status o) /\
       orderPaymentStatusMap (sync w') !! id
       = Some (or_str (DigitalOrder.paymentStatus o) "pending")).
Proof.
  intros w w' fl.
  assert (E : digitalMenuSync.loadSyncState w
              = (Ok tt, with_sync (remembered fl) w)).
  { unfold digitalMenuSync.loadSyncState.
    rewrite (bind_ok _ _ w
               (filter (fun c => negb (Nat.eqb (List.length (CustomerDoc.orders c)) 0))
                       (digital_menu_customer_orders (db w))) w) by reflexivity.
    rewrite load_docs_run, flagged_nonempty. reflexivity. }
  subst w'. unfold exec, result. rewrite E. cbn [fst snd].
  split; [reflexivity|]. split; [reflexivity|].
  split.
  - intros id. apply remembered_processed.
  - intros Hnd id o Hin. apply remembered_lookup; assumption.
Qed.

Lemma loadSyncState_witness :
  "d1" ∈ processedOrderIds
           (sync (exec digitalMenuSync.loadSyncState
                       (with_sync (fun _ => no_sync) world_synced))) /\
  orderStatusMap
    (sync (exec digitalMenuSync.loadSyncState
                (with_sync (fun _ => no_sync) world_synced))) !! "d1"
  = Some (Some "out_for_delivery").
Proof.
  destruct (loadSyncState_restores_memory
              (with_sync (fun _ => no_sync) world_synced))
    as (_ & _ & Hp & Hm).
  split.
  - apply Hp. right. left. reflexivity.
  - apply (Hm ltac:(repeat constructor; intros []) "d1" external_d1).
    left. reflexivity.
Defined.

(** ** The persisted flag *)

Lemma same_id_eq a b : digitalMenuSync.same_id a b = true <-> a = b.
Proof.
  destruct a as [x|], b as [y|]; cbn; try (split; congruence).
  rewrite String.eqb_eq. split; congruence.
Qed.

Lemma NoDup_key_inj {A K} (key : A -> K) (l : list A) x y :
  NoDup (map key l) -> In x l -> In y l -> key x = key y -> x = y.
Proof.
  induction l as [|z r IH]; cbn; [tauto|].
  intros Hnd Hx Hy E. inversion Hnd as [|? ? Hz Hr]; subst.
  destruct Hx as [->|Hx], Hy as [->|Hy]; auto.
  - exfalso. apply Hz. rewrite E. apply in_map, Hy.
  - exfalso. apply Hz. rewrite <- E. apply in_map, Hx.
Qed.

Lemma update_first_unique {A K} (key : A -> K) (p : A -> bool) f (l : list A) x :
  NoDup (map key l) ->
  (forall y, In y l -> p y = true -> key y = key x) ->
  update_first p f l = map (fun y => if p y then f y else y) l.
Proof.
  intros Hnd Hp. induction l as [|y r IH]; cbn; [reflexivity|].
  inversion Hnd as [|? ? Hy Hr]; subst.
  destruct (p y) eqn:E.
  - f_equal. rewrite <- (map_id r) at 1. apply map_ext_in. intros z Hz.
    destruct (p z) eqn:Ez; [|reflexivity]. exfalso. apply Hy.
    rewrite (Hp y (or_introl eq_refl) E), <- (Hp z (or_intror Hz) Ez).
    apply in_map, Hz.
  - f_equal. apply IH; [exact Hr|]. intros z Hz. apply Hp. right. exact Hz.
Qed.

Lemma markSynced_run doc o pid w :
  In doc (digital_menu_customer_orders (db w)) ->
  In o (CustomerDoc.orders doc) ->
  NoDup (map CustomerDoc._id (digital_menu_customer_orders (db w))) ->
  NoDup (map DigitalOrder._id (CustomerDoc.orders doc)) ->
  digitalMenuSync.markSynced doc o pid w
  = (Ok tt,
     with_db (with_digital
                (map (fun c =>
                        if CustomerDoc._id c =? CustomerDoc._id doc
                        then CustomerDoc.set_orders
                               (map (fun x =>
                                       if digitalMenuSync.same_id
                                            (DigitalOrder._id x)
                                            (DigitalOrder._id o)
                                       then DigitalOrder.set_synced (clock w) pid x
                                       else x)
                                    (CustomerDoc.orders c)) c
                        else c))) w).
Proof.
  intros Hdoc Ho Hnd Hno.
  unfold digitalMenuSync.markSynced, bind, new_Date, modify_db. cbn [fst snd].
  f_equal. unfold with_db, with_digital. f_equal. f_equal.
  set (hit := fun x => digitalMenuSync.same_id (DigitalOrder._id x)
                                               (DigitalOrder._id o)).
  assert (Hexists : existsb hit (CustomerDoc.orders doc) = true).
  { apply existsb_exists. exists o. split; [exact Ho|]. subst hit. cbn.
    apply same_id_eq. reflexivity. }
  rewrite (update_first_unique CustomerDoc._id _ _ _ doc Hnd).
  - apply map_ext_in. intros c Hc.
    destruct (CustomerDoc._id c =? CustomerDoc._id doc) eqn:E; cbn;
      [|reflexivity].
    apply String.eqb_eq in E.
    rewrite (NoDup_key_inj CustomerDoc._id _ c doc Hnd Hc Hdoc E), Hexists.
    f_equal. apply (update_first_unique DigitalOrder._id hit _ _ o Hno).
    intros y _ Hy. subst hit. cbn in Hy. apply same_id_eq, Hy.
  - intros c _ [E _]%andb_true_iff. apply String.eqb_eq, E.
Qed.

(** A conversion that succeeds is recorded in the store: when the documents
    of the external collection have distinct identifiers and the orders of
    the document distinct [_id]s (at most one of them none), the document
    afterwards holds the order marked as synced, at the current time and
    linked to a native order that now exists; every other external order is
    as it was.  The marked order is no longer eligible, whatever the memory
    of the synchronizer holds. *)
Theorem converted_order_is_flagged_in_store :
  forall (w : World) (doc : CustomerDoc.t) (o : DigitalOrder.t),
    In doc (digital_menu_customer_orders (db w)) ->
    In o (CustomerDoc.orders doc) ->
    NoDup (map CustomerDoc._id (digital_menu_customer_orders (db w))) ->
    NoDup (map DigitalOrder._id (CustomerDoc.orders doc)) ->
    orderOf w (uuids w (drawn w)) = None ->
    result (digitalMenuSync.ingestOrder doc o) w = Ok 1%nat ->
    let w' := exec (digitalMenuSync.ingestOrder doc o) w in
    let pid := uuids w (drawn w) in
    let marked := DigitalOrder.set_synced (clock w) pid o in
    orderOf w' pid <> None /\
    eligible marked = false /\
    digital_menu_customer_orders (db w')
    = map (fun c =>
             if CustomerDoc._id c =? CustomerDoc._id doc
             then CustomerDoc.set_orders
                    (map (fun x =>
                            if digitalMenuSync.same_id (DigitalOrder._id x)
                                                       (DigitalOrder._id o)
                            then marked else x)
                         (CustomerDoc.orders doc)) doc
             else c)
          (digital_menu_customer_orders (db w)).
Proof.
  intros w doc o Hdoc Ho Hnd Hno Hfresh Hres w' pid marked.
  subst w'. unfold exec, result in *.
  destruct (digitalMenuSync.ingestOrder doc o w) as [r w'] eqn:E.
  cbn [fst snd] in *. subst r.
  unfold digitalMenuSync.ingestOrder in E.
  destruct (DigitalOrder.syncedToPOS o); [discriminate|].
  destruct (negb _); [discriminate|].
  apply bind_inv in E as (mem & w0 & E0 & E). injection E0 as <- <-.
  destruct (bool_decide _); [discriminate|].
  unfold try_catch in E.
  match type of E with
  | match ?m w with _ => _ end = _ => destruct (m w) as [[n|e] w1] eqn:Em
  end.
  2:{ unfold bind, console_log, modify_sync, ret in E. cbn in E. discriminate. }
  injection E as -> ->.
  apply bind_inv in Em as (u & wa & Ea & Em).
  unfold modify_sync in Ea. injection Ea as _ <-.
  set (wa := with_sync _ w) in *.
  apply bind_inv in Em as (p & wb & Ec & Em).
  destruct (convert_run wa o _ _ p wb Ec) as (Hp & (tableId & Hord) & _).
  change (uuids wa (drawn wa)) with pid in Hp. subst p.
  pose proof (keeps_run (fun w => (digital_menu_customer_orders (db w), clock w))
                (digitalMenuSync.convertAndCreatePOSOrder o
                   (CustomerDoc.customerName doc) (CustomerDoc.customerPhone doc))
                wa _ _
                ltac:(unfold digitalMenuSync.convertAndCreatePOSOrder; frame)
                Ec) as K.
  cbn in K. injection K as Kd Kc.
  apply bind_inv in Em as (u1 & wc & Elog & Em).
  unfold console_log in Elog. injection Elog as _ <-.
  set (wc := mkWorld _ _ _ _ _ _) in *.
  apply bind_inv in Em as (u2 & wd & Emark & Em).
  unfold ret in Em. injection Em as <-.
  rewrite markSynced_run in Emark
    by (subst wc; cbn [db digital_menu_customer_orders]; rewrite ?Kd; assumption).
  injection Emark as <- Hwd. rewrite <- Hwd. clear Hwd.
  split; [|split].
  - unfold orderOf. cbn [db with_db with_digital orders]. subst wc. cbn [db].
    rewrite Hord. change (orders (db wa)) with (orders (db w)). rewrite find_update_first by reflexivity.
    rewrite find_app_none by exact Hfresh. cbn. rewrite String.eqb_refl.
    discriminate.
  - reflexivity.
  - cbn [db with_db with_digital digital_menu_customer_orders].
    subst wc. cbn [db clock]. rewrite Kd, Kc.
    apply map_ext_in. intros c Hc.
    destruct (CustomerDoc._id c =? CustomerDoc._id doc) eqn:E; [|reflexivity].
    apply String.eqb_eq in E.
    rewrite (NoDup_key_inj CustomerDoc._id _ c doc Hnd Hc Hdoc E).
    f_equal. apply map_ext_in. intros x Hx.
    destruct (digitalMenuSync.same_id _ _) eqn:Ex; [|reflexivity].
    apply same_id_eq in Ex.
    rewrite (NoDup_key_inj DigitalOrder._id _ x o Hno Hx Ho Ex). reflexivity.
Qed.

Lemma converted_order_flag_witness :
  map (fun c => map DigitalOrder.posOrderId (CustomerDoc.orders c))
      (digital_menu_customer_orders
         (db (exec (digitalMenuSync.ingestOrder customer_c2 external_d2)
                   world_unsynced)))
  = [[Some "uuid-0"]].
Proof.
  destruct (converted_order_is_flagged_in_store world_unsynced customer_c2
              external_d2) as (_ & _ & H).
  - left. reflexivity.
  - left. reflexivity.
  - repeat constructor. intros [].
  - repeat constructor. intros [].
  - reflexivity.
  - vm_compute. reflexivity.
  - rewrite H. reflexivity.
Defined.

(** ** Receiving a purchase order *)

Lemma restock_run item w inv st :
  stockOf w inv = Some st ->
  exists w',
    restock item w = (Ok tt, w') /\
    stockOf w' inv
    = Some (if PurchaseOrderItem.inventoryItemId item =? inv
            then raised st [parseFloat (PurchaseOrderItem.quantity item)]
            else st).
Proof.
  intros Hs. unfold restock.
  rewrite (bind_ok _ _ _ _ _ (getInventoryItem_run w _)).
  destruct (PurchaseOrderItem.inventoryItemId item =? inv) eqn:E.
  - apply String.eqb_eq in E. rewrite E. unfold stockOf in Hs.
    destruct (find _ (inventoryItems (db w))) as [it|] eqn:F; [|discriminate].
    injection Hs as <-.
    unfold storage.updateInventoryQuantity, bind, new_Date, ret, updated_doc.
    cbn [fst snd]. eexists. split; [reflexivity|].
    unfold stockOf. cbn -[toString add parseFloat].
    rewrite find_update_first by reflexivity.
    rewrite F. reflexivity.
  - destruct (find _ (inventoryItems (db w))) as [it|] eqn:F.
    + unfold storage.updateInventoryQuantity, bind, new_Date, ret, updated_doc.
      cbn [fst snd]. eexists. split; [reflexivity|].
      unfold stockOf in *. cbn -[toString add parseFloat].
      rewrite find_update_first_other; [exact Hs| |reflexivity].
      intros x Hx. apply String.eqb_eq in Hx. rewrite Hx. exact E.
    + exists w. split; [reflexivity | exact Hs].
Qed.

Lemma restock_loop items w inv st :
  stockOf w inv = Some st ->
  exists w',
    for_of items restock w = (Ok tt, w') /\
    stockOf w' inv
    = Some (raised st
              (map (fun i => parseFloat (PurchaseOrderItem.quantity i))
                   (filter (fun i => PurchaseOrderItem.inventoryItemId i =? inv)
                           items))) /\
    clock w' = clock w.
Proof.
  revert w st. induction items as [|item items IH]; intros w st Hs.
  - exists w. split; [reflexivity|]. split; [exact Hs | reflexivity].
  - destruct (restock_run item w inv st Hs) as (w1 & E1 & Hs1).
    assert (C1 : clock w1 = clock w).
    { pose proof (keeps_run clock (restock item) w _ _
                    ltac:(unfold restock; frame) E1) as K. exact K. }
    destruct (IH w1 _ Hs1) as (w2 & E2 & Hs2 & C2).
    exists w2. cbn [for_of]. rewrite (bind_ok _ _ _ _ _ E1).
    split; [exact E2|]. split; [|congruence].
    rewrite Hs2. cbn [filter].
    destruct (PurchaseOrderItem.inventoryItemId item =? inv); reflexivity.
Qed.

(** POST /api/purchase-orders/:id/receive raises the stock of every inventory
    item by the quantities of the lines of the purchase order, one after the
    other and whatever the status of the purchase order: receiving it a second
    time raises the stock again, and the lines of an unknown purchase order
    are taken in before 404 is answered.  A purchase order that exists is
    marked received at the current time. *)
Theorem received_goods_raise_stock :
  forall (s : Office) (id inv st : string),
    stockOf (front s) inv = Some st ->
    let s' := oexec (routes.post_purchase_order_receive id) s in
    stockOf (front s') inv = Some (raised st (delivered s id inv)) /\
    oresult (routes.post_purchase_order_receive id) s
      = Ok (match find (fun o => PurchaseOrder.id o =? id) (purchaseOrders s) with
            | Some order =>
                mkOfficeResponse 200
                  (OPurchaseOrder
                     (PurchaseOrder.set_received (clock (front s)) order))
            | None =>
                mkOfficeResponse 404 (OError "Purchase order not found")
            end) /\
    purchaseOrderItems s' = purchaseOrderItems s.
Proof.
  intros s id inv st Hs s'. subst s'.
  set (items := filter (fun i => PurchaseOrderItem.purchaseOrderId i =? id)
                       (purchaseOrderItems s)).
  destruct (restock_loop items (front s) inv st Hs) as (w' & E & Hs' & C).
  assert (R : storage.receivePurchaseOrder id s
              = (Ok (option_map (PurchaseOrder.set_received (clock (front s)))
                       (find (fun o => PurchaseOrder.id o =? id)
                             (purchaseOrders s))),
                 with_purchaseOrders
                   (update_first (fun o => PurchaseOrder.id o =? id)
                      (PurchaseOrder.set_received (clock (front s))))
                   (mkOffice w' (purchaseOrders s) (purchaseOrderItems s)
                             (reservations s)))).
  { unfold storage.receivePurchaseOrder, storage.getPurchaseOrderItems.
    unfold obind at 1. cbn [fst snd]. fold items.
    unfold obind at 1. unfold lift at 1. fold restock in E |- *.
    change (for_of items _ (front s)) with (for_of items restock (front s)).
    rewrite E. unfold obind, lift, new_Date. cbn -[toString add parseFloat].
    rewrite C. reflexivity. }
  unfold oexec, oresult, routes.post_purchase_order_receive. rewrite R.
  destruct (find _ (purchaseOrders s)) as [o|]; cbn -[toString add parseFloat];
    (split; [exact Hs'|]); split; reflexivity.
Qed.

(** Stock 10 and two lines of 2.5 and 4: one receipt gives 16.5, a second
    one 23. *)
Lemma received_goods_witness :
  let receive := routes.post_purchase_order_receive "po1" in
  stockOf (front (oexec receive office_po)) "inv1" = Some "16.5" /\
  stockOf (front (oexec receive (oexec receive office_po))) "inv1" = Some "23".
Proof.
  intros receive. split.
  - transitivity (Some (raised "10" (delivered office_po "po1" "inv1")));
      [|vm_compute; reflexivity].
    apply (received_goods_raise_stock office_po "po1" "inv1" "10").
    reflexivity.
  - transitivity (Some (raised "16.5"
                          (delivered (oexec receive office_po) "po1" "inv1")));
      [|vm_compute; reflexivity].
    apply (received_goods_raise_stock (oexec receive office_po) "po1" "inv1"
             "16.5").
    vm_compute. reflexivity.
Defined.

(** ** Reservations *)

Lemma filter_delete_first_length {A} (p q : A -> bool) (l : list A) :
  (List.length (filter q (delete_first p l)) <= List.length (filter q l))%nat.
Proof.
  induction l as [|x r IH]; cbn; [lia|].
  destruct (p x); cbn; destruct (q x); cbn; lia.
Qed.

Lemma post_reservations_run s body :
  active_on s (InsertReservation.tableId body) = [] ->
  exists reservation w',
    routes.post_reservations body s
    = (Ok (mkOfficeResponse 200 (OReservation reservation)),
       mkOffice w' (purchaseOrders s) (purchaseOrderItems s)
                (reservations s ++ [reservation])%list) /\
    Reservation.id reservation = uuids (front s) (drawn (front s)) /\
    Reservation.tableId reservation = InsertReservation.tableId body /\
    Reservation.status reservation
    = default "active" (InsertReservation.status body) /\
    tables (db w')
    = match tableOf (front s) (InsertReservation.tableId body) with
      | Some t =>
          if Table.status t =? "free"
          then update_first
                 (fun t => Table.id t =? InsertReservation.tableId body)
                 (Table.set_status "reserved") (tables (db (front s)))
          else tables (db (front s))
      | None => tables (db (front s))
      end.
Proof.
  intros Hnone. unfold routes.post_reservations.
  unfold obind at 1. unfold storage.getReservationsByTable at 1.
  cbn [fst snd]. fold (active_on s (InsertReservation.tableId body)).
  rewrite Hnone. cbn [List.length Nat.ltb Nat.leb].
  unfold storage.createReservation, obind, lift, randomUUID, new_Date,
    storage.getTable, storage.updateTableStatus, storage.update_table, bind,
    get_db, ret, oret, with_reservations.
  cbn [fst snd front db tables purchaseOrders purchaseOrderItems reservations
       Reservation.tableId Reservation.status].
  fold (tableOf (front s) (InsertReservation.tableId body)).
  destruct (tableOf (front s) (InsertReservation.tableId body)) as [t|].
  - destruct (Table.status t =? "free"); cbn;
      eexists _, _; (split; [reflexivity|]); repeat split.
  - cbn. eexists _, _. split; [reflexivity|]. repeat split.
Qed.

(** No table gets a second active reservation: POST /api/reservations
    answers 409 and changes nothing when the table has an active reservation,
    and both it and DELETE /api/reservations/:id keep the property that no
    table has two active reservations. *)
Theorem reservations_stay_one_per_table :
  forall s : Office,
    (forall body,
        active_on s (InsertReservation.tableId body) <> [] ->
        routes.post_reservations body s
        = (Ok (mkOfficeResponse 409
                 (OError "This table already has an active reservation")), s)) /\
    (one_active_each s ->
     (forall body, one_active_each (oexec (routes.post_reservations body) s)) /\
     (forall id, one_active_each (oexec (routes.delete_reservation id) s))).
Proof.
  intros s. split.
  - intros body Hne. unfold routes.post_reservations.
    unfold obind at 1. unfold storage.getReservationsByTable at 1.
    cbn [fst snd]. fold (active_on s (InsertReservation.tableId body)).
    destruct (active_on s (InsertReservation.tableId body)); [contradiction|].
    reflexivity.
  - intros Hone. split.
    + intros body.
      destruct (active_on s (InsertReservation.tableId body)) as [|r0 rest] eqn:Ea.
      * destruct (post_reservations_run s body Ea) as (r & w' & E & _ & Ht & _).
        unfold oexec. rewrite E. cbn [snd]. intros tid.
        unfold active_on. cbn [reservations]. rewrite filter_app, length_app.
        fold (active_on s tid). cbn [filter].
        destruct ((Reservation.tableId r =? tid) && _) eqn:Em; cbn; [|
          specialize (Hone tid); lia].
        apply andb_true_iff in Em as [Em _]. apply String.eqb_eq in Em.
        rewrite <- Em, Ht, Ea. cbn. lia.
      * unfold oexec, routes.post_reservations.
        unfold obind at 1. unfold storage.getReservationsByTable at 1.
        cbn [fst snd]. fold (active_on s (InsertReservation.tableId body)).
        rewrite Ea. exact Hone.
    + intros id tid. unfold oexec, routes.delete_reservation.
      unfold obind at 1. unfold storage.getReservation at 1. cbn [fst snd].
      destruct (find _ (reservations s)) as [r|] eqn:Ef; [|apply Hone].
      unfold obind at 1. unfold storage.deleteReservation at 1. cbn [fst snd].
      rewrite (proj2 (existsb_exists _ _)) by (apply find_some in Ef; eauto).
      cbn [negb].
      set (s1 := with_reservations _ s).
      assert (H1 : (List.length (active_on s1 tid) <= 1)%nat).
      { subst s1. unfold active_on. cbn.
        etransitivity; [apply filter_delete_first_length | apply Hone]. }
      assert (G : forall (m : OM unit) (rsp : OfficeResponse),
                 reservations (snd (m s1)) = reservations s1 ->
                 (List.length
                    (active_on
                       (snd (obind m (fun _ => oret rsp) s1)) tid) <= 1)%nat).
      { intros m rsp K. unfold obind, oret.
        destruct (m s1) as [[[]|e] s2]; cbn in *; unfold active_on;
          rewrite K; exact H1. }
      unfold obind at 1. unfold storage.getReservationsByTable at 1.
      cbn [fst snd]. apply G.
      destruct (Nat.eqb _ 0); [|reflexivity].
      unfold obind, lift, storage.getTable, storage.updateTableStatus,
        storage.update_table, bind, get_db, ret, oret. cbn.
      destruct (find _ (tables (db (front s)))) as [t|]; [|reflexivity].
      destruct ((Table.status t =? "reserved") && _); reflexivity.
Qed.

Lemma reservations_witness :
  routes.post_reservations reserve_t1
    (oexec (routes.post_reservations reserve_t1) office_free_table)
  = (Ok (mkOfficeResponse 409
           (OError "This table already has an active reservation")),
     oexec (routes.post_reservations reserve_t1) office_free_table).
Proof.
  apply (proj1 (reservations_stay_one_per_table
                  (oexec (routes.post_reservations reserve_t1)
                         office_free_table))).
  vm_compute. discriminate.
Defined.

(** Reserving a table that is free, bound to no order and without an active
    reservation marks it reserved; deleting that reservation frees it
    again: table and reservations are as before. *)
Theorem reserve_then_delete_restores_table :
  forall (s : Office) (body : InsertReservation.t) (t : Table.t),
    let tid := InsertReservation.tableId body in
    let id := uuids (front s) (drawn (front s)) in
    tableOf (front s) tid = Some t ->
    Table.status t = "free" ->
    truthy_str (Table.currentOrderId t) = None ->
    active_on s tid = [] ->
    find (fun r => Reservation.id r =? id) (reservations s) = None ->
    InsertReservation.status body = None ->
    let s1 := oexec (routes.post_reservations body) s in
    let s2 := oexec (routes.delete_reservation id) s1 in
    option_map Table.status (tableOf (front s1) tid) = Some "reserved" /\
    List.length (active_on s1 tid) = 1%nat /\
    oresult (routes.delete_reservation id) s1
      = Ok (mkOfficeResponse 200 OSuccess) /\
    tableOf (front s2) tid = Some t /\
    reservations s2 = reservations s.
Proof.
  intros s body t tid id Ht Hfree Hnone Ha Hfresh Hst s1 s2.
  destruct (post_reservations_run s body Ha)
    as (r & w1 & E & Hid & Htid & Hr & Htab).
  fold tid in Htid, Htab. fold id in Hid. rewrite Ht, Hfree in Htab.
  cbn [String.eqb Ascii.eqb Bool.eqb] in Htab.
  rewrite Hst in Hr. cbn [default] in Hr.
  assert (Es1 : s1 = mkOffice w1 (purchaseOrders s) (purchaseOrderItems s)
                              (reservations s ++ [r])%list)
    by (subst s1; unfold oexec; rewrite E; reflexivity).
  assert (T1 : tableOf w1 tid = Some (Table.set_status "reserved" t)).
  { unfold tableOf. rewrite Htab. rewrite find_update_first by reflexivity.
    fold (tableOf (front s) tid). rewrite Ht. reflexivity. }
  assert (A1 : active_on s1 tid = [r]).
  { rewrite Es1. unfold active_on. cbn [reservations]. rewrite filter_app.
    fold (active_on s tid). rewrite Ha. cbn.
    rewrite Htid, Hr, String.eqb_refl. reflexivity. }
  assert (D : routes.delete_reservation id s1
              = (Ok (mkOfficeResponse 200 OSuccess),
                 mkOffice
                   (with_db (with_tables
                               (update_first (fun t => Table.id t =? tid)
                                             (Table.set_status "free"))) w1)
                   (purchaseOrders s) (purchaseOrderItems s) (reservations s))).
  { unfold routes.delete_reservation.
    unfold obind at 1. unfold storage.getReservation at 1. cbn [fst snd].
    rewrite Es1. cbn [reservations].
    rewrite find_app_none by exact Hfresh. cbn [Reservation.id].
    rewrite Hid, String.eqb_refl.
    unfold obind at 1. unfold storage.deleteReservation at 1. cbn [fst snd].
    cbn [reservations]. rewrite existsb_app. cbn [existsb].
    rewrite Hid, String.eqb_refl. cbn [orb]. rewrite orb_true_r. cbn [negb].
    unfold obind at 1. unfold storage.getReservationsByTable at 1.
    cbn [fst snd]. unfold with_reservations. cbn [reservations].
    assert (Del : delete_first (fun r0 => Reservation.id r0 =? id)
                               (reservations s ++ [r])%list = reservations s).
    { clear - Hfresh Hid. induction (reservations s) as [|x l IH]; cbn.
      - rewrite Hid, String.eqb_refl. reflexivity.
      - cbn in Hfresh. destruct (Reservation.id x =? id); [discriminate|].
        rewrite IH by exact Hfresh. reflexivity. }
    rewrite Del, Htid. fold (active_on s tid).
    change (filter _ (reservations s)) with (active_on s tid).
    rewrite Ha. cbn [List.length Nat.eqb].
    unfold obind, lift, storage.getTable, storage.updateTableStatus,
      storage.update_table, bind, get_db, ret, oret. cbn [fst snd front].
    fold (tableOf w1 tid). rewrite T1.
    cbn [Table.status Table.set_status Table.currentOrderId String.eqb
         Ascii.eqb Bool.eqb andb].
    rewrite Hnone. reflexivity. }
  split; [rewrite Es1; cbn [front]; rewrite T1; reflexivity|].
  split; [rewrite A1; reflexivity|].
  unfold oresult. subst s2. unfold oexec. rewrite D. cbn [fst snd front reservations].
  split; [reflexivity|]. split; [|reflexivity].
  unfold tableOf. cbn. rewrite find_update_first by reflexivity.
  fold (tableOf w1 tid). rewrite T1. cbn.
  destruct t. cbn in *. subst. reflexivity.
Qed.

Lemma reserve_then_delete_witness :
  let s1 := oexec (routes.post_reservations reserve_t1) office_free_table in
  let s2 := oexec (routes.delete_reservation "uuid-0") s1 in
  tableOf (front s2) "t1" = Some (Table.mk "t1" "1" 4 "free" None None) /\
  reservations s2 = [].
Proof.
  intros s1 s2.
  destruct (reserve_then_delete_restores_table office_free_table reserve_t1
              (Table.mk "t1" "1" 4 "free" None None)
              eq_refl eq_refl eq_refl eq_refl eq_refl eq_refl)
    as (_ & _ & _ & Ht & Hr).
  split; [exact Ht | exact Hr].
Defined.
